(** * scVAE: the Gaussian-mixture variational autoencoder

    A shallow embedding of the loss construction, the model name, the
    constructor, the training orchestrator and the evaluation entry point of
    [models/gaussian_mixture_variational_autoencoder.py].

    Conventions.
    - Python floats and the values read back from the TensorFlow session are
      idealised: the loss engine is written over an abstract scalar type with
      the runtime's operations as an interface, and is instantiated with the
      rationals [Q] where an order is needed.
    - Functions of TensorFlow, numpy and of the repository's [auxiliary]
      modules (which are not part of the sources at hand) are Section
      variables.
    - Python exceptions are values of [exn]; a call either returns or
      raises ([result]). *)

From Stdlib Require Import ZArith QArith Qminmax List String Ascii Bool Arith Lia Lqa.
From Stdlib Require Import DecimalString.
From Stdlib Require Import DecimalNat Qround.
Import ListNotations.

Local Close Scope Q_scope.
Local Open Scope string_scope.

(** ** Python results *)

Inductive exn : Type :=
| ValueError (msg : string)
| TypeError (msg : string)
| KeyError (key : string)
| NameError (var : string)
| UnboundLocalError (var : string)
| IndexError
| ZeroDivisionError.

Inductive result (A : Type) : Type :=
| Return (a : A)
| Raise (e : exn).
Arguments Return {A} a.
Arguments Raise {A} e.

Definition bind {A B} (r : result A) (k : A -> result B) : result B :=
  match r with
  | Return a => k a
  | Raise e => Raise e
  end.

Declare Scope py_scope.
Delimit Scope py_scope with py.
Notation "x <- c ;; k" := (bind c (fun x => k))
  (at level 61, c at next level, right associativity) : py_scope.

Definition raises {A} (r : result A) : Prop := exists e, r = Raise e.
Definition returns {A} (r : result A) : Prop := exists a, r = Return a.

(** "{}".format(n) for a non-negative Python int. *)
Definition str_of_nat (n : nat) : string :=
  NilEmpty.string_of_uint (Nat.to_uint n).

(** ** The loss engine: [GaussianMixtureVariationalAutoencoder.loss] *)

(** The scalar operations of the tensor runtime that the loss construction
    uses on rank-0 values. *)
Class Scalar (T : Type) : Type := {
  tf_add : T -> T -> T;
  tf_sub : T -> T -> T;
  tf_mul : T -> T -> T;
  tf_const : Z -> T;          (* a Python literal, or tf.cast of an int *)
  tf_greater : T -> T -> bool;
  py_truthy : T -> bool       (* Python truth value of a float *)
}.

Module Loss.
Section LossEngine.

Context {T : Type} {ops : Scalar T}.

Definition tensor1 : Type := list T.
Definition tensor2 : Type := list (list T).
Definition tensor3 : Type := list (list (list T)).

(** Library functions, taken as given. *)
Variable reduce_mean_01 : tensor3 -> tensor1.       (* axis = (0, 1) *)
Variable reduce_mean_0 : tensor3 -> tensor2.        (* axis = 0 *)
Variable compute_weighted_loss : tensor1 -> list Z -> T.
Variable softmax_cross_entropy : list (list Z) -> tensor2 -> list Z -> T.
Variable numpy_log : nat -> T.

(** Element-wise arithmetic on tensors of equal shape. *)
Fixpoint zip_with {A B C} (f : A -> B -> C) (l : list A) (m : list B)
  : list C :=
  match l, m with
  | a :: l', b :: m' => f a b :: zip_with f l' m'
  | _, _ => []
  end.

Definition t1_mul : tensor1 -> tensor1 -> tensor1 := zip_with tf_mul.
Definition t1_add : tensor1 -> tensor1 -> tensor1 := zip_with tf_add.
Definition t3_sub : tensor3 -> tensor3 -> tensor3 :=
  zip_with (zip_with (zip_with tf_sub)).

(** tf.add_n over the K per-cluster tensors (K >= 1). *)
Definition add_n (ts : list tensor1) : tensor1 :=
  match ts with
  | [] => []
  | t :: ts' => fold_left t1_add ts' t
  end.

(** [probs[:, k]] *)
Definition column (k : nat) (m : tensor2) : tensor1 :=
  map (fun row => nth k row (tf_const 0)) m.

(** The attributes of the model that [loss] reads. *)
Record hyper : Type := {
  K : nat;
  prior_probabilities_method : string;
  proportion_of_free_KL_nats : T;
  kl_weight : T
}.

(** The values of the upstream graph nodes and placeholders for one feed
    (one batch).  The per-cluster log-densities are given after their
    [reduce_sum] over the last axis, with shape (R, L, B). *)
Record feed : Type := {
  q_y_given_x_entropy : tensor1;                 (* (B) *)
  q_y_given_x_probs : tensor2;                   (* (B, K) *)
  kl_divergence_q_y_p_y : tensor1;               (* (B) *)
  p_y_entropy_value : T;                         (* squeeze(p_y.entropy()) *)
  log_q_z_given_x_y : list tensor3;              (* K * (R, L, B) *)
  log_p_z_given_y : list tensor3;                (* K * (R, L, B) *)
  log_p_x_given_z : list tensor3;                (* K * (R, L, B) *)
  q_y_logits : tensor3;                          (* (1, B, K) *)
  labels : list (list Z);                        (* (B, K) *)
  clf_mask : list Z;                             (* (B) *)
  clf_weight : T;
  warm_up_weight : T
}.

(** The nodes that [loss] defines. *)
Record nodes : Type := {
  N_u : T;
  N_l : T;
  alpha : T;
  KL_y_threshhold : T;
  KL_z : T;
  KL_y : T;
  KL_y_modified : T;
  KL : T;
  ENRE : T;
  ELBO : T;
  CLF_ERROR : T;
  ELBO_weighted : T;
  total_loss : T
}.

Definition p_y_entropy (h : hyper) (f : feed) : T :=
  if String.eqb (prior_probabilities_method h) "uniform"
  then numpy_log (K h)
  else p_y_entropy_value f.

(** KL_y per example, shape (B). *)
Definition KL_y_examples (h : hyper) (f : feed) : tensor1 :=
  if String.eqb (prior_probabilities_method h) "uniform"
  then map (fun e => tf_sub (p_y_entropy h f) e) (q_y_given_x_entropy f)
  else kl_divergence_q_y_p_y f.

(** The body of [for k in range(self.K)]: the two per-cluster vectors that
    enter the scalar losses. *)
Definition KL_z_mean_k (f : feed) (k : nat) : tensor1 :=
  t1_mul
    (reduce_mean_01
       (t3_sub (nth k (log_q_z_given_x_y f) []) (nth k (log_p_z_given_y f) [])))
    (column k (q_y_given_x_probs f)).

Definition log_p_x_given_z_mean_k (f : feed) (k : nat) : tensor1 :=
  t1_mul (reduce_mean_01 (nth k (log_p_x_given_z f) []))
         (column k (q_y_given_x_probs f)).

Definition mask_out_labeled (f : feed) : list Z :=
  map (fun m => (1 - m)%Z) (clf_mask f).

Definition reduce_sum_Z (l : list Z) : Z := fold_right Z.add 0%Z l.

Definition loss (h : hyper) (f : feed) : nodes :=
  let KL_y_ex := KL_y_examples h f in
  let KL_y_threshhold := tf_mul (proportion_of_free_KL_nats h) (p_y_entropy h f) in
  let KL_z_mean := map (KL_z_mean_k f) (seq 0 (K h)) in
  let log_p_x_given_z_mean := map (log_p_x_given_z_mean_k f) (seq 0 (K h)) in
  let mask_out := mask_out_labeled f in
  let N_u := tf_const (reduce_sum_Z mask_out) in
  let N_l := tf_const (reduce_sum_Z (clf_mask f)) in
  let alpha :=
    if tf_greater N_l (tf_const 0)
    then tf_mul (clf_weight f) (tf_add (tf_const 2) (tf_mul (tf_const 2) N_l))
    else tf_const 0 in
  let KL_z := compute_weighted_loss (add_n KL_z_mean) mask_out in
  let KL_y := compute_weighted_loss KL_y_ex mask_out in
  let KL_y_modified :=
    if py_truthy (proportion_of_free_KL_nats h)
    then (if tf_greater KL_y KL_y_threshhold then KL_y else KL_y_threshhold)
    else KL_y in
  let KL := tf_add KL_z KL_y in
  let ENRE := compute_weighted_loss (add_n log_p_x_given_z_mean) mask_out in
  let ELBO := tf_sub ENRE KL in
  let CLF_ERROR :=
    softmax_cross_entropy (labels f) (reduce_mean_0 (q_y_logits f)) (clf_mask f) in
  let ELBO_weighted :=
    tf_sub ENRE
      (tf_mul (tf_mul (warm_up_weight f) (kl_weight h))
              (tf_add KL_z KL_y_modified)) in
  let total_loss := tf_sub ELBO_weighted (tf_mul alpha CLF_ERROR) in
  {| N_u := N_u; N_l := N_l; alpha := alpha;
     KL_y_threshhold := KL_y_threshhold;
     KL_z := KL_z; KL_y := KL_y; KL_y_modified := KL_y_modified;
     KL := KL; ENRE := ENRE; ELBO := ELBO; CLF_ERROR := CLF_ERROR;
     ELBO_weighted := ELBO_weighted; total_loss := total_loss |}.

End LossEngine.

Arguments tensor1 T : clear implicits.
Arguments tensor2 T : clear implicits.
Arguments tensor3 T : clear implicits.

End Loss.

(** ** Python helpers used by the model object *)

(** [sub in s] for strings. *)
Definition contains (sub s : string) : bool :=
  match String.index 0 sub s with
  | Some _ => true
  | None => false
  end.

(** "{}".format(z) for a Python int. *)
Definition str_of_Z (z : Z) : string :=
  NilEmpty.string_of_int (Z.to_int z).

(** [sep.join(parts)] *)
Definition join (sep : string) (parts : list string) : string :=
  String.concat sep parts.

Definition starts_with_sep (s : string) : bool :=
  match s with
  | String "/" _ => true
  | _ => false
  end.

Fixpoint ends_with_sep (s : string) : bool :=
  match s with
  | EmptyString => false
  | String c EmptyString => Ascii.eqb c "/"
  | String _ s' => ends_with_sep s'
  end.

(** posixpath.join *)
Definition path_join2 (path b : string) : string :=
  if starts_with_sep b then b
  else if (String.eqb path "" || ends_with_sep path)%bool then path ++ b
  else path ++ "/" ++ b.

Definition os_path_join (a : string) (p : list string) : string :=
  fold_left path_join2 p a.

(** Python truth value and comparisons of an idealised float. *)
Definition Q_truthy (q : Q) : bool := negb (Qeq_bool q 0%Q).
Definition Q_neq (q r : Q) : bool := negb (Qeq_bool q r).
Definition Q_gt (q r : Q) : bool := negb (Qle_bool q r).
Definition Q_lt (q r : Q) : bool := negb (Qle_bool r q).

(** ** The model object *)

(** The dictionaries with the keys "training" and "evaluation". *)
Record sample_counts : Type := {
  training : nat;
  evaluation : nat
}.

(** The attributes of a constructed model that the methods below read. *)
Record model : Type := {
  type : string;
  feature_size : nat;
  latent_size : nat;
  hidden_sizes : list nat;
  latent_distribution_name : string;
  prior_probabilities_method : string;
  prior_probabilities : option (list Q);
  K : nat;
  analytical_kl_term : bool;
  proportion_of_free_KL_nats : Q;
  number_of_importance_samples : sample_counts;
  number_of_monte_carlo_samples : sample_counts;
  reconstruction_distribution_name : string;
  number_of_reconstruction_classes : Z;
  k_max : Z;
  batch_normalisation : bool;
  dropout_parts : list string;
  count_sum_feature : bool;
  count_sum : bool;
  kl_weight_value : Q;
  number_of_warm_up_epochs : nat;
  number_of_labeled_examples : Z;
  clf_weight_value : Q;
  epsilon : Q;
  base_log_directory : string;
  base_results_directory : string;
  early_stopping_rounds : nat;
  stopped_early : option bool
}.

(** The keys of the [distributions] registry (distributions/__init__.py). *)
Definition distributions : list string :=
  [ "gaussian"; "gaussian mixture"; "categorical"; "bernoulli"; "poisson";
    "constrained poisson"; "pareto"; "generalised pareto"; "multinomial";
    "zero-inflated poisson"; "negative binomial";
    "zero-inflated negative binomial" ].

Definition latent_distributions : list string :=
  [ "gaussian"; "gaussian mixture"; "explicit gaussian mixture";
    "fixed gaussian mixture" ].

Definition in_registry (key : string) (registry : list string) : bool :=
  existsb (String.eqb key) registry.


(** [l.append(x)] *)
Definition append {A} (l : list A) (x : A) : list A := (l ++ [x])%list.

Definition append_if {A} (b : bool) (l : list A) (x : A) : list A :=
  if b then append l x else l.

(** Functions of the [auxiliary] module and Python's formatting of floats are
    variables of the section. *)
Section ModelObject.

Variable normaliseString : string -> string.
Variable str_of_float : Q -> string.          (* "{}".format(x), str(x) *)
Variable checkRunID : string -> result string.

(** *** The [name] property *)

Definition latent_parts (m : model) : list string :=
  let parts := [normaliseString (latent_distribution_name m)] in
  let parts :=
    append_if (contains "mixture" (latent_distribution_name m)) parts
              ("c_" ++ str_of_nat (K m)) in
  append_if (negb (String.eqb (prior_probabilities_method m) "uniform")) parts
            ("p_" ++ prior_probabilities_method m).

Definition reconstruction_parts (m : model) : list string :=
  let parts := [normaliseString (reconstruction_distribution_name m)] in
  let parts := append_if (negb (Z.eqb (k_max m) 0)) parts
                         ("k_" ++ str_of_Z (k_max m)) in
  let parts := append_if (count_sum_feature m) parts "sum" in
  let parts := append parts ("l_" ++ str_of_nat (latent_size m)) in
  let parts :=
    append parts ("h_" ++ join "_" (map str_of_nat (hidden_sizes m))) in
  let parts :=
    append parts
           ("mc_" ++ str_of_nat (training (number_of_monte_carlo_samples m))) in
  let parts :=
    append parts
           ("iw_" ++ str_of_nat (training (number_of_importance_samples m))) in
  let parts := append_if (analytical_kl_term m) parts "kl" in
  let parts := append_if (batch_normalisation m) parts "bn" in
  let parts := append_if (0 <? List.length (dropout_parts m))%nat parts
                         ("dropout_" ++ join "_" (dropout_parts m)) in
  let parts := append_if (Q_neq (kl_weight_value m) 1%Q) parts
                         ("klw_" ++ str_of_float (kl_weight_value m)) in
  let parts := append_if (Q_neq (clf_weight_value m) 1%Q) parts
                         ("clfw_" ++ str_of_float (clf_weight_value m)) in
  let parts := append_if (0 <? number_of_labeled_examples m)%Z parts
                         ("nl_" ++ str_of_Z (number_of_labeled_examples m)) in
  append_if (negb (Nat.eqb (number_of_warm_up_epochs m) 0)) parts
            ("wu_" ++ str_of_nat (number_of_warm_up_epochs m)).

(** The branch for the free nats appends to [reconstruction_part], a local
    that is only bound further down, where the parts are joined. *)
Definition name (m : model) : result string :=
  let latent_parts := latent_parts m in
  let reconstruction_parts := reconstruction_parts m in
  if Q_truthy (proportion_of_free_KL_nats m)
  then Raise (UnboundLocalError "reconstruction_part")
  else
    let latent_part := join "-" latent_parts in
    let reconstruction_part := join "-" reconstruction_parts in
    Return (os_path_join (type m) [latent_part; reconstruction_part]).

(** *** [logDirectory] *)

Definition logDirectory (m : model) (base : option string)
           (run_id : option string) (early_stopping best_model : bool)
  : result string :=
  (let base :=
     match base with
     | Some b => if String.eqb b "" then base_log_directory m else b
     | None => base_log_directory m
     end in
   model_name <- name m ;;
   let log_directory := os_path_join base [model_name] in
   log_directory <-
     match run_id with
     | Some r =>
         if String.eqb r "" then Return log_directory
         else
           r' <- checkRunID r ;;
           Return (os_path_join log_directory ["run_" ++ r'])
     | None => Return log_directory
     end ;;
   if (early_stopping && best_model)%bool then
     Raise (ValueError
              "Early-stopping model and best model are mutually exclusive.")
   else if early_stopping then
     Return (os_path_join log_directory ["early_stopping"])
   else if best_model then
     Return (os_path_join log_directory ["best"])
   else Return log_directory)%py.

End ModelObject.

(** ** The constructor: [GaussianMixtureVariationalAutoencoder.__init__] *)

(** The [prior_probabilities] dictionary, with its keys "method" and
    "values". *)
Record prior_argument : Type := {
  method : string;
  values : list Q
}.

(** [dropout_keep_probabilities]: a list (or tuple) of numbers, or one
    number. *)
Inductive dropout_argument : Type :=
| DropoutList (ps : list Q)
| DropoutScalar (p : Q).

(** The arguments of the constructor; [None] where the default is [None]. *)
Record init_arguments : Type := {
  arg_feature_size : nat;
  arg_latent_size : nat;
  arg_hidden_sizes : list nat;
  arg_number_of_monte_carlo_samples : sample_counts;
  arg_number_of_importance_samples : sample_counts;
  arg_analytical_kl_term : bool;
  arg_prior_probabilities : option prior_argument;
  arg_number_of_latent_clusters : nat;
  arg_proportion_of_free_KL_nats : Q;
  arg_reconstruction_distribution : option string;
  arg_number_of_reconstruction_classes : option Z;
  arg_batch_normalisation : bool;
  arg_dropout_keep_probabilities : dropout_argument;
  arg_count_sum : bool;
  arg_number_of_warm_up_epochs : nat;
  arg_kl_weight : Q;
  arg_clf_weight : Q;
  arg_number_of_labeled_examples : Z;
  arg_epsilon : Q;
  arg_log_directory : string;
  arg_results_directory : string
}.

(** The call that passes the five required arguments and leaves every
    keyword argument at its default. *)
Definition default_arguments (feature_size latent_size : nat)
           (hidden_sizes : list nat) (mc iw : sample_counts) : init_arguments :=
  {| arg_feature_size := feature_size;
     arg_latent_size := latent_size;
     arg_hidden_sizes := hidden_sizes;
     arg_number_of_monte_carlo_samples := mc;
     arg_number_of_importance_samples := iw;
     arg_analytical_kl_term := false;
     arg_prior_probabilities := None;
     arg_number_of_latent_clusters := 1;
     arg_proportion_of_free_KL_nats := (8 # 10)%Q;
     arg_reconstruction_distribution := None;
     arg_number_of_reconstruction_classes := None;
     arg_batch_normalisation := true;
     arg_dropout_keep_probabilities := DropoutList [];
     arg_count_sum := true;
     arg_number_of_warm_up_epochs := 0;
     arg_kl_weight := 1%Q;
     arg_clf_weight := 1%Q;
     arg_number_of_labeled_examples := 0%Z;
     arg_epsilon := (1 # 1000000)%Q;
     arg_log_directory := "log";
     arg_results_directory := "results" |}.

(** The distribution given to the constructor is a key of the registry. *)
Definition registered (a : init_arguments) : Prop :=
  exists key, arg_reconstruction_distribution a = Some key
              /\ in_registry key distributions = true.

Section Constructor.

Variable str_of_float : Q -> string.
(** [self.model_graph(); self.loss(); self.training()] and the saver: the
    graph is assembled by TensorFlow. *)
Variable graph_setup : model -> result unit.

(** [dictionary[key]] on a registry: the key when it is present. *)
Definition registry_lookup (registry : list string) (key : option string)
  : result string :=
  match key with
  | None => Raise (KeyError "None")
  | Some k => if in_registry k registry then Return k else Raise (KeyError k)
  end.

(** [number_of_reconstruction_classes + 1] *)
Definition plus_one (n : option Z) : result Z :=
  match n with
  | None =>
      Raise (TypeError
               "unsupported operand type(s) for +: 'NoneType' and 'int'")
  | Some z => Return (z + 1)%Z
  end.

(** [self.k_max = number_of_reconstruction_classes], reached only after
    the sum above has been computed. *)
Definition k_max_of (n : option Z) : Z :=
  match n with
  | Some z => z
  | None => 0%Z
  end.

Definition dropout_part (p : Q) : list string :=
  if (Q_truthy p && Q_neq p 1%Q)%bool then [str_of_float p] else [].

Definition dropout_parts_of (d : dropout_argument) : list string :=
  match d with
  | DropoutList ps => flat_map dropout_part ps
  | DropoutScalar p => dropout_part p
  end.

Definition init (a : init_arguments) : result model :=
  (let latent_distribution := "gaussian mixture" in
   _ <- registry_lookup latent_distributions (Some latent_distribution) ;;
   let prior_probabilities_method :=
     match arg_prior_probabilities a with
     | Some p => method p
     | None => "uniform"
     end in
   let prior_probabilities :=
     match arg_prior_probabilities a with
     | Some p => Some (values p)
     | None => None
     end in
   let K :=
     match prior_probabilities with
     | Some (v :: vs) => List.length (v :: vs)
     | _ => arg_number_of_latent_clusters a
     end in
   reconstruction_distribution_name <-
     registry_lookup distributions (arg_reconstruction_distribution a) ;;
   number_of_reconstruction_classes <-
     plus_one (arg_number_of_reconstruction_classes a) ;;
   let k_max := k_max_of (arg_number_of_reconstruction_classes a) in
   let self :=
     {| type := "GMVAE";
        feature_size := arg_feature_size a;
        latent_size := arg_latent_size a;
        hidden_sizes := arg_hidden_sizes a;
        latent_distribution_name := latent_distribution;
        prior_probabilities_method := prior_probabilities_method;
        prior_probabilities := prior_probabilities;
        K := K;
        analytical_kl_term := arg_analytical_kl_term a;
        proportion_of_free_KL_nats := arg_proportion_of_free_KL_nats a;
        number_of_importance_samples := arg_number_of_importance_samples a;
        number_of_monte_carlo_samples := arg_number_of_monte_carlo_samples a;
        reconstruction_distribution_name := reconstruction_distribution_name;
        number_of_reconstruction_classes := number_of_reconstruction_classes;
        k_max := k_max;
        batch_normalisation := arg_batch_normalisation a;
        dropout_parts :=
          dropout_parts_of (arg_dropout_keep_probabilities a);
        count_sum_feature := arg_count_sum a;
        count_sum :=
          (contains "constrained" reconstruction_distribution_name
           || contains "multinomial" reconstruction_distribution_name)%bool;
        kl_weight_value := arg_kl_weight a;
        number_of_warm_up_epochs := arg_number_of_warm_up_epochs a;
        number_of_labeled_examples := arg_number_of_labeled_examples a;
        clf_weight_value := arg_clf_weight a;
        epsilon := arg_epsilon a;
        base_log_directory := arg_log_directory a;
        base_results_directory := arg_results_directory a;
        early_stopping_rounds := 10;
        stopped_early := None |} in
   _ <- graph_setup self ;;
   Return self)%py.

End Constructor.

(** ** Values read back from the session *)

(** A float as the orchestrator observes it: not-a-number, minus infinity
    ([- numpy.inf], the initial reference values), or a finite number. *)
Inductive pyfloat : Type :=
| NaN
| NegInf
| Num (q : Q).

Definition isnan (x : pyfloat) : bool :=
  match x with
  | NaN => true
  | _ => false
  end.

(** [x < y]; every comparison with a NaN is false. *)
Definition float_lt (x y : pyfloat) : bool :=
  match x, y with
  | Num a, Num b => Q_lt a b
  | NegInf, Num _ => true
  | _, _ => false
  end.

Definition float_gt (x y : pyfloat) : bool := float_lt y x.

(** ** The log directories *)

(** A checkpoint [model.ckpt-<epoch>]: the epoch index in its file name and
    the global step stored with the parameters. *)
Record checkpoint : Type := {
  checkpoint_epoch : nat;
  checkpoint_global_step : nat
}.

(** A path is absent ([None]) or a directory, with the checkpoint state that
    [tf.train.get_checkpoint_state] finds in it. *)
Definition file_system : Type := string -> option (option checkpoint).

Definition path_exists (fs : file_system) (path : string) : bool :=
  match fs path with
  | Some _ => true
  | None => false
  end.

Definition get_checkpoint_state (fs : file_system) (path : string)
  : option checkpoint :=
  match fs path with
  | Some c => c
  | None => None
  end.

(** [path] is [directory] or lies below it. *)
Definition below (directory path : string) : bool :=
  (String.eqb directory path || String.prefix (directory ++ "/") path)%bool.

Definition rmtree (directory : string) (fs : file_system) : file_system :=
  fun path => if below directory path then None else fs path.

Definition copytree (source destination : string) (fs : file_system)
  : file_system :=
  fun path =>
    if below destination path
    then fs (source ++ substring (String.length destination)
                                 (String.length path) path)
    else fs path.

Definition move (source destination : string) (fs : file_system)
  : file_system :=
  rmtree source (copytree source destination fs).

(** [tf.summary.FileWriter(directory)] creates the directory. *)
Definition makedirs (directory : string) (fs : file_system) : file_system :=
  fun path =>
    if String.eqb directory path
    then match fs path with
         | None => Some None
         | Some c => Some c
         end
    else fs path.

(** [self.saver.save(session, checkpoint_file, global_step = epoch + 1)] *)
Definition save_checkpoint (directory : string) (c : checkpoint)
           (fs : file_system) : file_system :=
  fun path => if String.eqb directory path then Some (Some c) else fs path.

(** posixpath.dirname *)
Fixpoint drop_to_sep (reversed : list ascii) : list ascii :=
  match reversed with
  | [] => []
  | c :: rest => if Ascii.eqb c "/" then reversed else drop_to_sep rest
  end.

Fixpoint strip_sep (reversed : list ascii) : list ascii :=
  match reversed with
  | [] => []
  | c :: rest => if Ascii.eqb c "/" then strip_sep rest else reversed
  end.

Definition os_path_dirname (path : string) : string :=
  let head := drop_to_sep (rev (list_ascii_of_string path)) in
  if forallb (fun c => Ascii.eqb c "/") head
  then string_of_list_ascii (rev head)
  else string_of_list_ascii (rev (strip_sep head)).

(** ** The data set collaborator *)

(** What the orchestrator's control flow reads of a data set. *)
Record DataSet : Type := {
  number_of_examples : nat;
  has_labels : bool;
  noisy_preprocess : bool
}.

(** ** The training orchestrator: [train] *)

Module Train.

(** The [status] dictionary. *)
Record status : Type := {
  completed : bool;
  message : option string;
  epochs_trained : option string;
  start_time : string;
  training_duration : option string;
  last_epoch_duration : option string;
  status_learning_rate : Q;
  status_batch_size : nat
}.

Record train_arguments : Type := {
  training_set : DataSet;
  validation_set : option DataSet;
  number_of_epochs : nat;
  batch_size : nat;
  learning_rate : Q;
  plotting_interval : option nat;
  run_id : option string;
  new_run : bool;
  reset_training : bool;
  temporary_log_directory : option string
}.

(** The early-stopping variables of [train] together with the attribute
    [self.stopped_early].  Without a validation set the four locals are
    unbound in the source and never read. *)
Record early_stopping : Type := {
  ELBO_valid_maximum : pyfloat;
  ELBO_valid_prev : pyfloat;
  epochs_with_no_improvement : option nat;      (* [None]: numpy.nan *)
  ELBO_valid_early_stopping : pyfloat;
  self_stopped_early : option bool
}.

(** What one pass of the epoch loop leaves behind (a ghost record of the
    run, one entry per completed epoch). *)
Record epoch_record : Type := {
  record_epoch : nat;
  record_ELBO_valid : pyfloat;
  record_early_stopping_compared : bool;  (* the early-stopping block ran *)
  record_best_compared : bool;            (* ELBO_valid > ELBO_valid_maximum
                                             was evaluated *)
  record_best_saved : bool;               (* ... and held *)
  record_state : early_stopping           (* the variables after the epoch *)
}.

(** The mutable world of one call. *)
Record state : Type := {
  fs : file_system;
  global_step : nat;
  optimizer_steps : nat;                  (* ghost: runs of [train_op] *)
  early : early_stopping;
  history : list epoch_record             (* ghost: completed epochs, in order *)
}.

(** What the session and the clock give back; it depends on the data and on
    the weights, which are not modelled. *)
Record observations : Type := {
  batch_loss : nat -> nat -> pyfloat;     (* epoch, first index of the batch *)
  validation_ELBO : nat -> pyfloat;       (* epoch *)
  time : nat -> Q;                        (* after so many optimizer steps *)
  learning_curve : string -> list pyfloat (* log directory *)
}.

(** A computation continues with a value, leaves [train] through a [return],
    or raises. *)
Inductive exit : Type :=
| EarlyReturn (r : status * option string)
| Exception (e : exn).

Inductive outcome (A : Type) : Type :=
| Continue (a : A)
| Stop (x : exit).
Arguments Continue {A} a.
Arguments Stop {A} x.

Definition M (A : Type) : Type := state -> outcome A * state.

Definition ret {A} (a : A) : M A := fun st => (Continue a, st).

Definition mbind {A B} (c : M A) (k : A -> M B) : M B :=
  fun st =>
    match c st with
    | (Continue a, st') => k a st'
    | (Stop x, st') => (Stop x, st')
    end.

Declare Scope train_scope.
Delimit Scope train_scope with train.
Notation "x <- c ;; k" := (mbind c (fun x => k))
  (at level 61, c at next level, right associativity) : train_scope.
Notation "c ;;; k" := (mbind c (fun _ => k))
  (at level 61, right associativity) : train_scope.

Definition lift {A} (r : result A) : M A :=
  fun st =>
    match r with
    | Return a => (Continue a, st)
    | Raise e => (Stop (Exception e), st)
    end.

Definition early_return {A} (r : status * option string) : M A :=
  fun st => (Stop (EarlyReturn r), st).

Definition get : M state := fun st => (Continue st, st).

Definition modify_fs (f : file_system -> file_system) : M unit :=
  fun st =>
    (Continue tt,
     {| fs := f (fs st); global_step := global_step st;
        optimizer_steps := optimizer_steps st; early := early st;
        history := history st |}).

Definition set_early (e : early_stopping) : M unit :=
  fun st =>
    (Continue tt,
     {| fs := fs st; global_step := global_step st;
        optimizer_steps := optimizer_steps st; early := e;
        history := history st |}).

Definition set_global_step (n : nat) : M unit :=
  fun st =>
    (Continue tt,
     {| fs := fs st; global_step := n;
        optimizer_steps := optimizer_steps st; early := early st;
        history := history st |}).

Definition log_epoch (r : epoch_record) : M unit :=
  fun st =>
    (Continue tt,
     {| fs := fs st; global_step := global_step st;
        optimizer_steps := optimizer_steps st; early := early st;
        history := append (history st) r |}).

(** [session.run([self.train_op, ...])]: one optimizer step; the global step
    counter is incremented with it. *)
Definition run_train_op : M unit :=
  fun st =>
    (Continue tt,
     {| fs := fs st; global_step := S (global_step st);
        optimizer_steps := S (optimizer_steps st); early := early st;
        history := history st |}).

Definition when (b : bool) (c : M unit) : M unit :=
  if b then c else ret tt.

(** Python truth value of an optional string. *)
Definition truthy (s : option string) : bool :=
  match s with
  | Some x => negb (String.eqb x "")
  | None => false
  end.

(** [range(0, M, batch_size)] for a positive batch size. *)
Definition steps_per_epoch (M_examples batch_size : nat) : nat :=
  (M_examples + batch_size - 1) / batch_size.

Definition batch_starts (M_examples batch_size : nat) : list nat :=
  map (fun k => k * batch_size) (seq 0 (steps_per_epoch M_examples batch_size)).

(** [numpy.max] of a learning curve and its elements counted from the
    end. *)
Definition float_max2 (x y : pyfloat) : pyfloat :=
  match x, y with
  | NaN, _ => NaN
  | _, NaN => NaN
  | _, _ => if float_lt x y then y else x
  end.

Definition curve_max (curve : list pyfloat) : result pyfloat :=
  match curve with
  | [] => Raise (ValueError "zero-size array to reduction operation maximum")
  | x :: rest => Return (fold_left float_max2 rest x)
  end.

(** [curve[-1 - k]] *)
Definition curve_from_end (curve : list pyfloat) (k : nat) : result pyfloat :=
  match nth_error (rev curve) k with
  | Some x => Return x
  | None => Raise IndexError
  end.

(** *** The part of [train] before the training loop *)

Section Orchestrator.

(** Functions of the [auxiliary] modules, of numpy and of Python's string
    formatting. *)
Variable normaliseString : string -> string.
Variable str_of_float : Q -> string.
Variable checkRunID : string -> result string.
Variable generateUniqueRunIDForModel : model -> Q -> string.
Variable clearLogDirectory : string -> file_system -> file_system.
Variable copyModelDirectory : checkpoint -> string -> file_system -> file_system.
Variable removeOldCheckpoints : string -> file_system -> file_system.
Variable earlyStoppingStatus_of_losses : list pyfloat -> nat -> bool * nat.
Variable formatDuration : Q -> string.
Variable formatTime : Q -> string.
(** [numpy.round(numpy.linspace(0, steps_per_epoch, 11))] *)
Variable output_at_step : nat -> list Z.

Variable self : model.
Variable a : train_arguments.
Variable obs : observations.

Let logDirectory := logDirectory normaliseString str_of_float checkRunID self.

Definition has_validation_set : bool :=
  match validation_set a with
  | Some _ => true
  | None => false
  end.

Definition now : M Q :=
  fun st => (Continue (time obs (optimizer_steps st)), st).

Definition resolve_run_id (start : Q) : result (option string) :=
  match run_id a with
  | Some r =>
      if negb (String.eqb r "")
      then (r' <- checkRunID r ;; Return (Some r'))%py
      else if new_run a
           then Return (Some (generateUniqueRunIDForModel self start))
           else Return (run_id a)
  | None =>
      if new_run a
      then Return (Some (generateUniqueRunIDForModel self start))
      else Return None
  end.

Definition checkpoint_epoch_of (c : option checkpoint) : nat :=
  match c with
  | Some c => checkpoint_epoch c
  | None => 0
  end.

(** The method [self.earlyStoppingStatus]. *)
Definition earlyStoppingStatus (run_id : option string) : M (bool * nat) :=
  (early_stopping_log_directory <- lift (logDirectory None run_id true false) ;;
   let log_directory := os_path_dirname early_stopping_log_directory in
   st <- get ;;
   if path_exists (fs st) log_directory then
     let validation_losses := learning_curve obs log_directory in
     if path_exists (fs st) early_stopping_log_directory
     then ret (earlyStoppingStatus_of_losses validation_losses
                                             (early_stopping_rounds self))
     else ret (false, 0)
   else ret (false, 0))%train.

(** What the set-up hands to the training loop. *)
Record prepared : Type := {
  prepared_status : status;
  prepared_run_id : option string;
  permanent_log_directory : string;
  log_directory : string;
  early_stopping_log_directory : string;
  best_model_log_directory : string;
  epoch_start : nat
}.

Record directories : Type := {
  directories_log : string;
  directories_early_stopping : string;
  directories_best_model : string;
  directories_epoch_start : nat;
  replace_temporary_directory : bool
}.

Definition choose_directories (run_id : option string) (epoch_start : nat)
  : M directories :=
  (let base := if truthy (temporary_log_directory a)
               then temporary_log_directory a else None in
   log_directory <- lift (logDirectory base run_id false false) ;;
   early_stopping_log_directory <- lift (logDirectory base run_id true false) ;;
   best_model_log_directory <- lift (logDirectory base run_id false true) ;;
   st <- get ;;
   if truthy (temporary_log_directory a) then
     let temporary_epoch_start :=
       checkpoint_epoch_of (get_checkpoint_state (fs st) log_directory) in
     if (epoch_start <? temporary_epoch_start)%nat
     then ret {| directories_log := log_directory;
                 directories_early_stopping := early_stopping_log_directory;
                 directories_best_model := best_model_log_directory;
                 directories_epoch_start := temporary_epoch_start;
                 replace_temporary_directory := false |}
     else ret {| directories_log := log_directory;
                 directories_early_stopping := early_stopping_log_directory;
                 directories_best_model := best_model_log_directory;
                 directories_epoch_start := epoch_start;
                 replace_temporary_directory := true |}
   else ret {| directories_log := log_directory;
               directories_early_stopping := early_stopping_log_directory;
               directories_best_model := best_model_log_directory;
               directories_epoch_start := epoch_start;
               replace_temporary_directory := false |})%train.

(** Updates of the [status] dictionary. *)
Definition initial_status (start : Q) : status :=
  {| completed := false; message := None; epochs_trained := None;
     start_time := formatTime start;
     training_duration := None; last_epoch_duration := None;
     status_learning_rate := learning_rate a;
     status_batch_size := batch_size a |}.

Definition epochs_string (first last : nat) : string :=
  str_of_nat first ++ "-" ++ str_of_nat last.

Definition already_trained (s : status) (epoch_start : nat) : status :=
  {| completed := true; message := message s;
     epochs_trained :=
       Some (epochs_string epoch_start (number_of_epochs a));
     start_time := start_time s;
     training_duration := Some "nan"; last_epoch_duration := Some "nan";
     status_learning_rate := status_learning_rate s;
     status_batch_size := status_batch_size s |}.

Definition with_epochs_trained (s : status) (epoch_start : nat) : status :=
  {| completed := completed s; message := message s;
     epochs_trained :=
       Some (epochs_string epoch_start (number_of_epochs a));
     start_time := start_time s;
     training_duration := training_duration s;
     last_epoch_duration := last_epoch_duration s;
     status_learning_rate := status_learning_rate s;
     status_batch_size := status_batch_size s |}.

Definition loss_became_nan (s : status) (training epoch : Q) : status :=
  {| completed := false; message := Some "loss became nan";
     epochs_trained := epochs_trained s;
     start_time := start_time s;
     training_duration := Some (formatDuration training);
     last_epoch_duration := Some (formatDuration epoch);
     status_learning_rate := status_learning_rate s;
     status_batch_size := status_batch_size s |}.

Definition training_completed (s : status) (training epoch : Q) : status :=
  {| completed := true; message := message s;
     epochs_trained := epochs_trained s;
     start_time := start_time s;
     training_duration := Some (formatDuration training);
     last_epoch_duration := Some (formatDuration epoch);
     status_learning_rate := status_learning_rate s;
     status_batch_size := status_batch_size s |}.

(** The variables of a run that starts from freshly initialised
    parameters, and of one that restores a checkpoint. *)
Definition fresh_early_stopping (stopped : option bool) : early_stopping :=
  {| ELBO_valid_maximum := NegInf; ELBO_valid_prev := NegInf;
     epochs_with_no_improvement := Some 0;
     ELBO_valid_early_stopping := NegInf;
     self_stopped_early := stopped |}.

Definition restore_early_stopping (run_id : option string)
           (log_directory : string) : M unit :=
  (let ELBO_valid_learning_curve := learning_curve obs log_directory in
   ELBO_valid_maximum <- lift (curve_max ELBO_valid_learning_curve) ;;
   ELBO_valid_prev <- lift (curve_from_end ELBO_valid_learning_curve 0) ;;
   status <- earlyStoppingStatus run_id ;;
   ELBO_valid_early_stopping <-
     lift (curve_from_end ELBO_valid_learning_curve (snd status)) ;;
   set_early {| ELBO_valid_maximum := ELBO_valid_maximum;
                ELBO_valid_prev := ELBO_valid_prev;
                epochs_with_no_improvement := Some (snd status);
                ELBO_valid_early_stopping := ELBO_valid_early_stopping;
                self_stopped_early := Some (fst status) |})%train.

(** The beginning of [train]: the run id, the directories and the epoch
    of an earlier checkpoint. *)
Record located : Type := {
  located_status : status;
  located_run_id : option string;
  located_permanent_log_directory : string;
  located_directories : directories
}.

Definition locate : M located :=
  (start <- now ;;
   run_id <- lift (resolve_run_id start) ;;
   permanent_log_directory <- lift (logDirectory None run_id false false) ;;
   st <- get ;;
   when (reset_training a && path_exists (fs st) permanent_log_directory)
        (modify_fs (clearLogDirectory permanent_log_directory)) ;;;
   let status := initial_status start in
   st <- get ;;
   let epoch_start :=
     checkpoint_epoch_of
       (get_checkpoint_state (fs st) permanent_log_directory) in
   d <- choose_directories run_id epoch_start ;;
   ret {| located_status := status;
          located_run_id := run_id;
          located_permanent_log_directory := permanent_log_directory;
          located_directories := d |})%train.

(** From the check for an already trained model to the start of the
    training loop. *)
Definition prepare (l : located) : M prepared :=
  (let status := located_status l in
   let run_id := located_run_id l in
   let permanent_log_directory := located_permanent_log_directory l in
   let d := located_directories l in
   let epoch_start := directories_epoch_start d in
   let log_directory := directories_log d in
   if (number_of_epochs a <=? epoch_start)%nat then
     early_return (already_trained status epoch_start, run_id)
   else
     st <- get ;;
     when (truthy (temporary_log_directory a)
           && path_exists (fs st) permanent_log_directory
           && replace_temporary_directory d)
          (when (path_exists (fs st) log_directory)
                (modify_fs (rmtree log_directory)) ;;;
           modify_fs (copytree permanent_log_directory log_directory)) ;;;
     _ <- lift (if (batch_size a =? 0)%nat
                then Raise ZeroDivisionError else Return tt) ;;
     modify_fs (makedirs log_directory) ;;;
     modify_fs (makedirs (os_path_join log_directory ["training"])) ;;;
     when has_validation_set
          (modify_fs (makedirs (os_path_join log_directory ["validation"]))) ;;;
     st <- get ;;
     epoch_start <-
       match get_checkpoint_state (fs st) log_directory with
       | Some c =>
           set_global_step (checkpoint_global_step c) ;;;
           when has_validation_set
                (restore_early_stopping run_id log_directory) ;;;
           ret (checkpoint_epoch c)
       | None =>
           set_global_step 0 ;;;
           when has_validation_set
                (set_early (fresh_early_stopping (Some false))) ;;;
           ret 0
       end ;;
     ret {| prepared_status := with_epochs_trained status epoch_start;
            prepared_run_id := run_id;
            permanent_log_directory := permanent_log_directory;
            log_directory := log_directory;
            early_stopping_log_directory := directories_early_stopping d;
            best_model_log_directory := directories_best_model d;
            epoch_start := epoch_start |})%train.

Definition set_up : M prepared :=
  (l <- locate ;; prepare l)%train.

(** *** The training loop *)

Variable p : prepared.

Definition M_train : nat := number_of_examples (training_set a).

(** [float(min(epoch / number_of_warm_up_epochs, 1.0))], or 1.0 *)
Definition warm_up_weight (epoch : nat) : Q :=
  if negb (Nat.eqb (number_of_warm_up_epochs self) 0)
  then Qmin (inject_Z (Z.of_nat epoch)
             / inject_Z (Z.of_nat (number_of_warm_up_epochs self))) 1
  else 1%Q.

(** [(step + 1 - steps_per_epoch * epoch) in output_at_step] *)
Definition monitored (step epoch : nat) : bool :=
  let steps := steps_per_epoch M_train (batch_size a) in
  existsb (Z.eqb (Z.of_nat step + 1 - Z.of_nat steps * Z.of_nat epoch)%Z)
          (output_at_step steps).

(** [for i in range(0, M_train, batch_size)] of the optimisation pass *)
Fixpoint batch_loop (epoch : nat) (training_time_start epoch_time_start : Q)
         (batches : list nat) : M unit :=
  match batches with
  | [] => ret tt
  | i :: rest =>
      (st <- get ;;
       let step := global_step st in
       _ <- lift (if has_labels (training_set a) then Return tt
                  else Raise (NameError "labels_train")) ;;
       run_train_op ;;;
       let batch_loss := batch_loss obs epoch i in
       if monitored step epoch then
         if isnan batch_loss then
           t <- now ;;
           early_return
             (loss_became_nan (prepared_status p)
                              (t - training_time_start)
                              (t - epoch_time_start),
              prepared_run_id p)
         else batch_loop epoch training_time_start epoch_time_start rest
       else batch_loop epoch training_time_start epoch_time_start rest)%train
  end.

(** The batched pass without gradient updates ends with
    [ELBO /= M / batch_size]; on an empty data set that divides the
    integer 0 by 0.0. *)
Definition evaluation_pass (M_examples : nat) : result unit :=
  if Nat.eqb M_examples 0 then Raise ZeroDivisionError else Return tt.

Definition not_stopped (stopped : option bool) : bool :=
  match stopped with
  | Some true => false
  | _ => true
  end.

Definition counter_is_zero (c : option nat) : bool :=
  match c with
  | Some 0 => true
  | _ => false
  end.

Definition counter_reached (c : option nat) (rounds : nat) : bool :=
  match c with
  | Some n => (rounds <=? n)%nat
  | None => false
  end.

(** The early-stopping block, on the variables ... *)
Definition early_stopping_variables (ELBO_valid : pyfloat)
           (e : early_stopping) : early_stopping :=
  let e1 :=
    if float_lt ELBO_valid (ELBO_valid_early_stopping e) then
      {| ELBO_valid_maximum := ELBO_valid_maximum e;
         ELBO_valid_prev := ELBO_valid_prev e;
         epochs_with_no_improvement :=
           option_map S (epochs_with_no_improvement e);
         ELBO_valid_early_stopping :=
           if counter_is_zero (epochs_with_no_improvement e)
           then ELBO_valid else ELBO_valid_early_stopping e;
         self_stopped_early := self_stopped_early e |}
    else
      {| ELBO_valid_maximum := ELBO_valid_maximum e;
         ELBO_valid_prev := ELBO_valid_prev e;
         epochs_with_no_improvement := Some 0;
         ELBO_valid_early_stopping := ELBO_valid;
         self_stopped_early := self_stopped_early e |} in
  if counter_reached (epochs_with_no_improvement e1)
                     (early_stopping_rounds self)
  then {| ELBO_valid_maximum := ELBO_valid_maximum e1;
          ELBO_valid_prev := ELBO_valid_prev e1;
          epochs_with_no_improvement := None;
          ELBO_valid_early_stopping := ELBO_valid_early_stopping e1;
          self_stopped_early := Some true |}
  else e1.

(** ... and on the early-stopping directory. *)
Definition early_stopping_files (ELBO_valid : pyfloat) (e : early_stopping)
           (files : file_system) : file_system :=
  if float_lt ELBO_valid (ELBO_valid_early_stopping e) then
    if counter_is_zero (epochs_with_no_improvement e) then
      match get_checkpoint_state files (log_directory p) with
      | Some current_checkpoint =>
          copyModelDirectory current_checkpoint
                             (early_stopping_log_directory p) files
      | None => files
      end
    else files
  else if path_exists files (early_stopping_log_directory p)
       then rmtree (early_stopping_log_directory p) files
       else files.

(** The best-model block. *)
Definition best_model_variables (ELBO_valid : pyfloat) (e : early_stopping)
  : early_stopping :=
  {| ELBO_valid_maximum := ELBO_valid;
     ELBO_valid_prev := ELBO_valid_prev e;
     epochs_with_no_improvement := epochs_with_no_improvement e;
     ELBO_valid_early_stopping := ELBO_valid_early_stopping e;
     self_stopped_early := self_stopped_early e |}.

Definition best_model_files (files : file_system) : file_system :=
  removeOldCheckpoints (best_model_log_directory p)
    match get_checkpoint_state files (log_directory p) with
    | Some current_checkpoint =>
        copyModelDirectory current_checkpoint (best_model_log_directory p)
                           files
    | None => files
    end.

Definition with_ELBO_valid_prev (ELBO_valid : pyfloat) (e : early_stopping)
  : early_stopping :=
  {| ELBO_valid_maximum := ELBO_valid_maximum e;
     ELBO_valid_prev := ELBO_valid;
     epochs_with_no_improvement := epochs_with_no_improvement e;
     ELBO_valid_early_stopping := ELBO_valid_early_stopping e;
     self_stopped_early := self_stopped_early e |}.

(** [epoch % plotting_interval == 0] when an interval is given; the
    analysis itself is an external collaborator, called with
    [model_name = self.name]. *)
Definition plot_intermediate_results (epoch : nat) : result unit :=
  (_ <- match plotting_interval a with
        | None => Return tt
        | Some 0 => Raise ZeroDivisionError
        | Some (S _) => Return tt
        end ;;
   _ <- name normaliseString str_of_float self ;;
   Return tt)%py.

(** One pass of [for epoch in range(epoch_start, number_of_epochs)];
    it yields the epoch's duration. *)
Definition epoch_body (training_time_start : Q) (epoch : nat) : M Q :=
  (epoch_time_start <- now ;;
   batch_loop epoch training_time_start epoch_time_start
              (batch_starts M_train (batch_size a)) ;;;
   t <- now ;;
   let epoch_duration := (t - epoch_time_start)%Q in
   (* evaluation on the training set *)
   _ <- lift (evaluation_pass M_train) ;;
   (* evaluation on the validation set *)
   _ <- lift (match validation_set a with
              | Some v => evaluation_pass (number_of_examples v)
              | None => Return tt
              end) ;;
   let ELBO_valid := validation_ELBO obs epoch in
   (* early stopping *)
   st <- get ;;
   let compared :=
     (has_validation_set && not_stopped (self_stopped_early (early st)))%bool in
   when compared
        (modify_fs (early_stopping_files ELBO_valid (early st)) ;;;
         set_early (early_stopping_variables ELBO_valid (early st))) ;;;
   (* saving model parameters *)
   st <- get ;;
   modify_fs (save_checkpoint (log_directory p)
                {| checkpoint_epoch := epoch + 1;
                   checkpoint_global_step := global_step st |}) ;;;
   (* saving best model parameters yet *)
   st <- get ;;
   let best :=
     (has_validation_set
      && float_gt ELBO_valid (ELBO_valid_maximum (early st)))%bool in
   when best
        (set_early (best_model_variables ELBO_valid (early st)) ;;;
         modify_fs best_model_files) ;;;
   _ <- lift (plot_intermediate_results epoch) ;;
   st <- get ;;
   when has_validation_set
        (set_early (with_ELBO_valid_prev ELBO_valid (early st))) ;;;
   st <- get ;;
   log_epoch {| record_epoch := epoch;
                record_ELBO_valid := ELBO_valid;
                record_early_stopping_compared := compared;
                record_best_compared := has_validation_set;
                record_best_saved := best;
                record_state := early st |} ;;;
   ret epoch_duration)%train.

Fixpoint epoch_loop (training_time_start : Q) (epochs : list nat)
         (epoch_duration : option Q) : M (option Q) :=
  match epochs with
  | [] => ret epoch_duration
  | epoch :: rest =>
      (d <- epoch_body training_time_start epoch ;;
       epoch_loop training_time_start rest (Some d))%train
  end.

(** [range(epoch_start, number_of_epochs)] *)
Definition epochs_to_train : list nat :=
  seq (epoch_start p) (number_of_epochs a - epoch_start p).

Definition training_loop : M (status * option string) :=
  (training_time_start <- now ;;
   epoch_duration <- epoch_loop training_time_start epochs_to_train None ;;
   t <- now ;;
   let training_duration := (t - training_time_start)%Q in
   modify_fs (removeOldCheckpoints (log_directory p)) ;;;
   when (truthy (temporary_log_directory a))
        (st <- get ;;
         when (path_exists (fs st) (permanent_log_directory p))
              (modify_fs (rmtree (permanent_log_directory p))) ;;;
         modify_fs (move (log_directory p) (permanent_log_directory p))) ;;;
   epoch_duration <-
     lift (match epoch_duration with
           | Some d => Return d
           | None => Raise (UnboundLocalError "epoch_duration")
           end) ;;
   ret (training_completed (prepared_status p) training_duration
                           epoch_duration,
        prepared_run_id p))%train.

End Orchestrator.

(** *** [train] *)

Section Entry.

Variable normaliseString : string -> string.
Variable str_of_float : Q -> string.
Variable checkRunID : string -> result string.
Variable generateUniqueRunIDForModel : model -> Q -> string.
Variable clearLogDirectory : string -> file_system -> file_system.
Variable copyModelDirectory : checkpoint -> string -> file_system -> file_system.
Variable removeOldCheckpoints : string -> file_system -> file_system.
Variable earlyStoppingStatus_of_losses : list pyfloat -> nat -> bool * nat.
Variable formatDuration : Q -> string.
Variable formatTime : Q -> string.
Variable output_at_step : nat -> list Z.

Definition initial_state (self : model) (files : file_system) : state :=
  {| fs := files; global_step := 0; optimizer_steps := 0;
     early := fresh_early_stopping (stopped_early self);
     history := [] |}.

Definition train_body (self : model) (a : train_arguments)
           (obs : observations) : M (status * option string) :=
  (p <- set_up normaliseString str_of_float checkRunID
               generateUniqueRunIDForModel clearLogDirectory
               earlyStoppingStatus_of_losses formatTime self a obs ;;
   training_loop normaliseString str_of_float copyModelDirectory
                 removeOldCheckpoints formatDuration output_at_step
                 self a obs p)%train.

(** The result of a call: the returned pair or the exception that
    escapes, and the world the call leaves behind. *)
Definition finish {A} (r : outcome (status * option string) * A)
  : result (status * option string) * A :=
  match r with
  | (Continue v, w) => (Return v, w)
  | (Stop (EarlyReturn v), w) => (Return v, w)
  | (Stop (Exception e), w) => (Raise e, w)
  end.

Definition train (self : model) (a : train_arguments) (obs : observations)
           (files : file_system)
  : result (status * option string) * state :=
  finish (train_body self a obs (initial_state self files)).

End Entry.

(** *** The course of a run, as functions of what is observed *)

(** A computation that runs no optimizer step and completes no epoch. *)
Definition quiet {A} (c : M A) : Prop :=
  forall st r st',
    c st = (r, st') ->
    optimizer_steps st' = optimizer_steps st /\ history st' = history st.

(** The state after [n] more optimizer steps. *)
Definition advance (n : nat) (st : state) : state :=
  {| fs := fs st; global_step := n + global_step st;
     optimizer_steps := n + optimizer_steps st;
     early := early st; history := history st |}.

Section Course.

Variable output_at_step : nat -> list Z.
Variable self : model.
Variable a : train_arguments.
Variable obs : observations.

(** The position, in the batches of an epoch that starts at global step
    [step], of the first monitored step with a not-a-number loss. *)
Fixpoint first_nan (step epoch : nat) (batches : list nat) : option nat :=
  match batches with
  | [] => None
  | i :: rest =>
      if (monitored output_at_step a step epoch
          && isnan (batch_loss obs epoch i))%bool
      then Some 0
      else option_map S (first_nan (S step) epoch rest)
  end.

(** The early-stopping variables after the epoch's early-stopping block,
    after its best-model block, and at its end. *)
Definition after_early_stopping (epoch : nat) (e : early_stopping)
  : early_stopping :=
  if (has_validation_set a && not_stopped (self_stopped_early e))%bool
  then early_stopping_variables self (validation_ELBO obs epoch) e
  else e.

Definition after_best_model (epoch : nat) (e : early_stopping)
  : early_stopping :=
  if (has_validation_set a
      && float_gt (validation_ELBO obs epoch) (ELBO_valid_maximum e))%bool
  then best_model_variables (validation_ELBO obs epoch) e
  else e.

Definition after_epoch (epoch : nat) (e : early_stopping) : early_stopping :=
  let e' := after_best_model epoch (after_early_stopping epoch e) in
  if has_validation_set a
  then with_ELBO_valid_prev (validation_ELBO obs epoch) e'
  else e'.

(** The record that an epoch entered with the variables [e] leaves. *)
Definition record_of (epoch : nat) (e : early_stopping) : epoch_record :=
  {| record_epoch := epoch;
     record_ELBO_valid := validation_ELBO obs epoch;
     record_early_stopping_compared :=
       (has_validation_set a && not_stopped (self_stopped_early e))%bool;
     record_best_compared := has_validation_set a;
     record_best_saved :=
       (has_validation_set a
        && float_gt (validation_ELBO obs epoch)
                    (ELBO_valid_maximum (after_early_stopping epoch e)))%bool;
     record_state := after_epoch epoch e |}.

Fixpoint records (epochs : list nat) (e : early_stopping)
  : list epoch_record :=
  match epochs with
  | [] => []
  | epoch :: rest => record_of epoch e :: records rest (after_epoch epoch e)
  end.

Definition after_epochs (epochs : list nat) (e : early_stopping)
  : early_stopping :=
  fold_left (fun e epoch => after_epoch epoch e) epochs e.

(** The variables with which the [i]-th of the [epochs] is entered. *)
Definition entering (epochs : list nat) (i : nat) (e : early_stopping)
  : early_stopping :=
  after_epochs (firstn i epochs) e.

(** The loss observed at step [j] of [epoch] is monitored and not a number,
    in a loop that starts epoch [first_epoch] at global step [first_step]. *)
Definition nan_observed (first_step first_epoch epoch j : nat) : bool :=
  (monitored output_at_step a
             (j + ((epoch - first_epoch)
                   * steps_per_epoch (M_train a) (batch_size a)
                   + first_step))
             epoch
   && isnan (batch_loss obs epoch (j * batch_size a)))%bool.

(** Step [j] of [epoch] is the first of the run at which that happens. *)
Definition first_nan_at (first_step first_epoch epoch j : nat) : Prop :=
  first_epoch <= epoch < number_of_epochs a
  /\ j < steps_per_epoch (M_train a) (batch_size a)
  /\ nan_observed first_step first_epoch epoch j = true
  /\ (forall epoch' j',
        j' < steps_per_epoch (M_train a) (batch_size a) ->
        first_epoch <= epoch' < epoch \/ (epoch' = epoch /\ j' < j) ->
        nan_observed first_step first_epoch epoch' j' = false).

(** No evaluation pass and no plotting step of the run raises. *)
Definition passes_succeed : Prop :=
  has_labels (training_set a) = true
  /\ M_train a <> 0
  /\ (forall v, validation_set a = Some v -> number_of_examples v <> 0)
  /\ plotting_interval a <> Some 0.

End Course.

End Train.

(** ** The evaluation entry point: [evaluate] *)

Module Evaluate.

(** [output_versions]: a string ("all" or one kind) or a list of kinds. *)
Inductive output_versions_argument : Type :=
| VersionsString (s : string)
| VersionsList (l : list string).

Record evaluate_arguments : Type := {
  evaluation_set : DataSet;
  batch_size : nat;
  predict_labels : bool;
  run_id : option string;
  use_early_stopping_model : bool;
  use_best_model : bool;
  output_versions : output_versions_argument;
  log_results : bool
}.

(** What a call does to its surroundings, in order. *)
Inductive event : Type :=
| Print (line : string)
| GetCheckpointState (directory : string)
| Exists (path : string)
| Rmtree (directory : string)
| FileWriter (directory : string)
| Restore (c : checkpoint)
| ForwardPass.

Record world : Type := {
  files : file_system;
  events : list event
}.

Definition E (A : Type) : Type := world -> result A * world.

Definition ret {A} (a : A) : E A := fun w => (Return a, w).

Definition ebind {A B} (c : E A) (k : A -> E B) : E B :=
  fun w =>
    match c w with
    | (Return a, w') => k a w'
    | (Raise e, w') => (Raise e, w')
    end.

Declare Scope eval_scope.
Delimit Scope eval_scope with eval.
Notation "x <- c ;; k" := (ebind c (fun x => k))
  (at level 61, c at next level, right associativity) : eval_scope.
Notation "c ;;; k" := (ebind c (fun _ => k))
  (at level 61, right associativity) : eval_scope.

Definition lift {A} (r : result A) : E A := fun w => (r, w).

Definition emit (e : event) : E unit :=
  fun w => (Return tt, {| files := files w; events := append (events w) e |}).

Definition print (line : string) : E unit := emit (Print line).

Definition checkpoint_state (directory : string) : E (option checkpoint) :=
  fun w =>
    (Return (get_checkpoint_state (files w) directory),
     {| files := files w;
        events := append (events w) (GetCheckpointState directory) |}).

Definition exists_ (path : string) : E bool :=
  fun w =>
    (Return (path_exists (files w) path),
     {| files := files w; events := append (events w) (Exists path) |}).

Definition remove_tree (directory : string) : E unit :=
  fun w =>
    (Return tt,
     {| files := rmtree directory (files w);
        events := append (events w) (Rmtree directory) |}).

Definition file_writer (directory : string) : E unit :=
  fun w =>
    (Return tt,
     {| files := makedirs directory (files w);
        events := append (events w) (FileWriter directory) |}).

Definition when (b : bool) (c : E unit) : E unit :=
  if b then c else ret tt.


Section Evaluation.

Variable normaliseString : string -> string.
Variable str_of_float : Q -> string.
Variable checkRunID : string -> result string.
Variable formatDuration : Q -> string.
Variable str_of_list : list string -> string.   (* "{}".format(a_list) *)
Variable noisy_duration : Q.

(** A reconstructed, latent or transformed data set, and the part of
    [evaluate] that follows the restoring of the parameters: the batched
    forward pass and the assembly of the output sets. *)
Variable output_set : Type.
Variable evaluate_restored :
  model -> evaluate_arguments -> list string -> checkpoint
  -> E (list (option output_set)).

Variable self : model.
Variable a : evaluate_arguments.

(** [len(set(output_versions))] *)
Definition number_of_distinct (l : list string) : nat :=
  List.length (nodup string_dec l).

(** The check of the requested output kinds. *)
Definition requested_versions : result (list string) :=
  match output_versions a with
  | VersionsString s =>
      if String.eqb s "all"
      then Return ["transformed"; "reconstructed"; "latent"]
      else Return [s]
  | VersionsList l =>
      let number_of_output_versions := List.length l in
      if (3 <? number_of_output_versions)%nat then
        Raise (ValueError ("Can only output at most 3 sets, "
                           ++ str_of_nat number_of_output_versions
                           ++ " requested"))
      else if negb (Nat.eqb number_of_output_versions (number_of_distinct l))
      then
        Raise (ValueError ("Cannot output duplicate sets, "
                           ++ str_of_list l ++ " requested."))
      else Return l
  end.

Definition checked_run_id : result (option string) :=
  match run_id a with
  | Some r =>
      if negb (String.eqb r "")
      then (r' <- checkRunID r ;; Return (Some r'))%py
      else Return (run_id a)
  | None => Return None
  end.

Definition model_string (run_id : option string) : string :=
  match run_id with
  | Some r => if negb (String.eqb r "") then "model for run " ++ r else "model"
  | None => "model"
  end.

Definition evaluate : E (list (option output_set)) :=
  (run_id <- lift checked_run_id ;;
   let model_string := model_string run_id in
   output_versions <- lift requested_versions ;;
   when (noisy_preprocess (evaluation_set a))
        (print "Noisily preprocess values." ;;;
         print ("Values noisily preprocessed ("
                ++ formatDuration noisy_duration ++ ").") ;;;
         print "") ;;;
   log_directory <-
     lift (logDirectory normaliseString str_of_float checkRunID self None
                        run_id (use_early_stopping_model a)
                        (use_best_model a)) ;;
   checkpoint <- checkpoint_state log_directory ;;
   let eval_summary_directory := os_path_join log_directory ["evaluation"] in
   when (log_results a)
        (present <- exists_ eval_summary_directory ;;
         when present (remove_tree eval_summary_directory)) ;;;
   when (log_results a) (file_writer eval_summary_directory) ;;;
   match checkpoint with
   | Some c =>
       emit (Restore c) ;;;
       evaluate_restored self a output_versions c
   | None =>
       print ("Cannot evaluate " ++ model_string
              ++ " when it has not been trained.") ;;;
       ret (repeat None (List.length output_versions))
   end)%eval.

End Evaluation.

End Evaluate.

(** ** The loss engine over the rationals *)

#[export] Instance Scalar_Q : Scalar Q := {|
  tf_add := Qplus;
  tf_sub := Qminus;
  tf_mul := Qmult;
  tf_const := inject_Z;
  tf_greater := Q_gt;
  py_truthy := Q_truthy
|}.

(** The attributes of a model that the loss construction reads. *)
Definition hyper_of (m : model) : Loss.hyper (T := Q) :=
  {| Loss.K := K m;
     Loss.prior_probabilities_method := prior_probabilities_method m;
     Loss.proportion_of_free_KL_nats := proportion_of_free_KL_nats m;
     Loss.kl_weight := kl_weight_value m |}.

(** The number of labeled examples of a batch: the ones of its mask. *)
Definition number_of_labeled (mask : list Z) : nat :=
  count_occ Z.eq_dec mask 1%Z.

Definition binary_mask (mask : list Z) : Prop :=
  Forall (fun m => m = 0%Z \/ m = 1%Z) mask.

(** The library reductions, on rationals, for concrete batches. *)
Module Rational.

Definition sum (l : list Q) : Q := fold_right Qplus 0%Q l.

Definition mean (l : list Q) : Q :=
  (sum l / inject_Z (Z.of_nat (List.length l)))%Q.

(** tf.losses.compute_weighted_loss with its default reduction: the sum of
    the weighted losses over the number of non-zero weights, and zero when
    there is none. *)
Definition compute_weighted_loss (losses : list Q) (weights : list Z) : Q :=
  let weighted :=
    Loss.zip_with (fun l w => (l * inject_Z w)%Q) losses weights in
  let present :=
    List.length (filter (fun w => negb (Z.eqb w 0)) weights) in
  if Nat.eqb present 0 then 0%Q
  else (sum weighted / inject_Z (Z.of_nat present))%Q.

(** tf.reduce_mean over the axes (0, 1) of a tensor of shape (R, L, B). *)
Definition reduce_mean_01 (t : list (list (list Q))) : list Q :=
  let rows := List.concat t in
  match rows with
  | [] => []
  | r :: _ =>
      map (fun b => mean (map (fun row => nth b row 0%Q) rows))
          (seq 0 (List.length r))
  end.

(** tf.reduce_mean over axis 0. *)
Definition reduce_mean_0 (t : list (list (list Q))) : list (list Q) :=
  match t with
  | [] => []
  | x :: rest =>
      map (map (fun v => (v / inject_Z (Z.of_nat (List.length t)))%Q))
          (fold_left (Loss.zip_with (Loss.zip_with Qplus)) rest x)
  end.

(** Stand-ins for the two transcendental functions, to have closed
    examples: any functions of these types will do. *)
Definition cross_entropy_stand_in
           (labels : list (list Z)) (logits : list (list Q)) (weights : list Z)
  : Q := 1%Q.

Definition log_stand_in (n : nat) : Q := inject_Z (Z.of_nat (Nat.log2 n)).

Definition loss : Loss.hyper -> Loss.feed -> Loss.nodes :=
  Loss.loss (T := Q) reduce_mean_01 reduce_mean_0 compute_weighted_loss
            cross_entropy_stand_in log_stand_in.

(** A batch of two examples and two clusters, one importance and one Monte
    Carlo sample. *)
Definition example_hyper (free_nats : Q) : Loss.hyper (T := Q) :=
  {| Loss.K := 2;
     Loss.prior_probabilities_method := "uniform";
     Loss.proportion_of_free_KL_nats := free_nats;
     Loss.kl_weight := 1%Q |}.

Definition example_feed (mask : list Z) (weight : Q) : Loss.feed (T := Q) :=
  {| Loss.q_y_given_x_entropy := [(1 # 2); (1 # 4)]%Q;
     Loss.q_y_given_x_probs := [[(3 # 4); (1 # 4)]; [(1 # 2); (1 # 2)]]%Q;
     Loss.kl_divergence_q_y_p_y := [(1 # 2); (3 # 4)]%Q;
     Loss.p_y_entropy_value := 1%Q;
     Loss.log_q_z_given_x_y := [[[[-1; -2]]]; [[[-3; -1]]]]%Q;
     Loss.log_p_z_given_y := [[[[-2; -2]]]; [[[-4; -3]]]]%Q;
     Loss.log_p_x_given_z := [[[[-10; -12]]]; [[[-9; -14]]]]%Q;
     Loss.q_y_logits := [[[1; 0]; [0; 0]]]%Q;
     Loss.labels := [[1; 0]; [0; 1]]%Z;
     Loss.clf_mask := mask;
     Loss.clf_weight := weight;
     Loss.warm_up_weight := (1 # 2)%Q |}.

End Rational.

(** ** Concrete configurations *)

Module Examples.

(** Stand-ins for the functions that are taken as given, to have closed
    examples; the properties below hold for any such functions. *)
Definition normaliseString (s : string) : string := s.

Definition str_of_float (q : Q) : string :=
  str_of_Z (Qnum q) ++ ":" ++ str_of_nat (Pos.to_nat (Qden q)).

Definition checkRunID (r : string) : result string := Return r.

Definition graph_setup (m : model) : result unit := Return tt.

Definition one_sample : sample_counts := {| training := 1; evaluation := 1 |}.

(** A call of the constructor for a model with three clusters, two latent
    dimensions and one hidden layer of sixteen units. *)
Definition arguments (reconstruction_distribution : option string)
           (number_of_reconstruction_classes : option Z)
           (proportion_of_free_KL_nats : Q) (evaluation_samples : nat)
  : init_arguments :=
  {| arg_feature_size := 20;
     arg_latent_size := 2;
     arg_hidden_sizes := [16];
     arg_number_of_monte_carlo_samples :=
       {| training := 1; evaluation := evaluation_samples |};
     arg_number_of_importance_samples := one_sample;
     arg_analytical_kl_term := false;
     arg_prior_probabilities := None;
     arg_number_of_latent_clusters := 3;
     arg_proportion_of_free_KL_nats := proportion_of_free_KL_nats;
     arg_reconstruction_distribution := reconstruction_distribution;
     arg_number_of_reconstruction_classes := number_of_reconstruction_classes;
     arg_batch_normalisation := true;
     arg_dropout_keep_probabilities := DropoutList [];
     arg_count_sum := true;
     arg_number_of_warm_up_epochs := 0;
     arg_kl_weight := 1%Q;
     arg_clf_weight := 1%Q;
     arg_number_of_labeled_examples := 0%Z;
     arg_epsilon := (1 # 1000000)%Q;
     arg_log_directory := "log";
     arg_results_directory := "results" |}.

(** The model that this call constructs when it is given a registered
    distribution and a number of reconstruction classes. *)
Definition constructed (proportion_of_free_KL_nats : Q)
           (evaluation_samples : nat) : model :=
  {| type := "GMVAE";
     feature_size := 20;
     latent_size := 2;
     hidden_sizes := [16];
     latent_distribution_name := "gaussian mixture";
     prior_probabilities_method := "uniform";
     prior_probabilities := None;
     K := 3;
     analytical_kl_term := false;
     proportion_of_free_KL_nats := proportion_of_free_KL_nats;
     number_of_importance_samples := one_sample;
     number_of_monte_carlo_samples :=
       {| training := 1; evaluation := evaluation_samples |};
     reconstruction_distribution_name := "bernoulli";
     number_of_reconstruction_classes := 1;
     k_max := 0;
     batch_normalisation := true;
     dropout_parts := [];
     count_sum_feature := true;
     count_sum := false;
     kl_weight_value := 1%Q;
     number_of_warm_up_epochs := 0;
     number_of_labeled_examples := 0%Z;
     clf_weight_value := 1%Q;
     epsilon := (1 # 1000000)%Q;
     base_log_directory := "log";
     base_results_directory := "results";
     early_stopping_rounds := 10;
     stopped_early := None |}.

(** A log directory tree without any file. *)
Definition no_files : file_system := fun _ => None.

Definition data_set (examples : nat) : DataSet :=
  {| number_of_examples := examples; has_labels := true;
     noisy_preprocess := false |}.

Definition formatDuration (d : Q) : string := str_of_float d ++ " s".

Definition formatTime (t : Q) : string := str_of_float t.

(** Python's [str] of a list of strings without quotes in them. *)
Definition str_of_list (l : list string) : string :=
  "[" ++ join ", " (map (fun s => "'" ++ s ++ "'") l) ++ "]".

(** A call of [evaluate] on a data set of 200 examples. *)
Definition evaluate_arguments (versions : Evaluate.output_versions_argument)
           (use_early_stopping_model use_best_model : bool)
  : Evaluate.evaluate_arguments :=
  {| Evaluate.evaluation_set := data_set 200;
     Evaluate.batch_size := 100;
     Evaluate.predict_labels := true;
     Evaluate.run_id := None;
     Evaluate.use_early_stopping_model := use_early_stopping_model;
     Evaluate.use_best_model := use_best_model;
     Evaluate.output_versions := versions;
     Evaluate.log_results := true |}.

(** A stand-in for the forward pass of a restored model. *)
Definition evaluate_restored (m : model) (a : Evaluate.evaluate_arguments)
           (versions : list string) (c : checkpoint)
  : Evaluate.E (list (option unit)) :=
  Evaluate.ebind (Evaluate.emit Evaluate.ForwardPass)
                 (fun _ => Evaluate.ret (map (fun _ => Some tt) versions)).

Definition evaluate (m : model) (a : Evaluate.evaluate_arguments)
  : Evaluate.E (list (option unit)) :=
  Evaluate.evaluate normaliseString str_of_float checkRunID formatDuration
                    str_of_list 0%Q unit evaluate_restored m a.

(** Stand-ins for the auxiliaries of the orchestrator. *)
Definition generateUniqueRunIDForModel (m : model) (timestamp : Q) : string :=
  "run".

Definition clearLogDirectory : string -> file_system -> file_system := rmtree.

Definition copyModelDirectory (c : checkpoint) (directory : string)
  : file_system -> file_system :=
  save_checkpoint directory c.

Definition removeOldCheckpoints (directory : string) (files : file_system)
  : file_system := files.

Definition earlyStoppingStatus_of_losses (losses : list pyfloat) (rounds : nat)
  : bool * nat := (false, 0).

(** Eleven evenly spaced steps, rounded (halves upwards). *)
Definition output_at_step (steps : nat) : list Z :=
  map (fun i => ((2 * Z.of_nat i * Z.of_nat steps + 10) / 20)%Z) (seq 0 11).

Definition train :=
  Train.train normaliseString str_of_float checkRunID
              generateUniqueRunIDForModel clearLogDirectory copyModelDirectory
              removeOldCheckpoints earlyStoppingStatus_of_losses
              formatDuration formatTime output_at_step.

(** A call of [train] on four training examples in batches of two, with or
    without a validation set of two examples. *)
Definition train_arguments (number_of_epochs : nat) (validation : bool)
  : Train.train_arguments :=
  {| Train.training_set := data_set 4;
     Train.validation_set := if validation then Some (data_set 2) else None;
     Train.number_of_epochs := number_of_epochs;
     Train.batch_size := 2;
     Train.learning_rate := (1 # 1000)%Q;
     Train.plotting_interval := None;
     Train.run_id := None;
     Train.new_run := false;
     Train.reset_training := false;
     Train.temporary_log_directory := None |}.

(** A session whose training loss is not a number from the given epoch on
    (or never), with the given validation ELBO per epoch; the clock ticks
    once per optimizer step. *)
Definition observations (nan_from : option nat)
           (validation_ELBO : nat -> pyfloat) : Train.observations :=
  {| Train.batch_loss :=
       fun epoch i =>
         match nan_from with
         | Some first => if (first <=? epoch)%nat then NaN else Num (-100)
         | None => Num (-100)
         end;
     Train.validation_ELBO := validation_ELBO;
     Train.time := fun steps => inject_Z (Z.of_nat steps);
     Train.learning_curve := fun _ => [] |}.

(** The validation ELBO of a run that degrades from its second epoch on
    and recovers in its twelfth. *)
Definition degrading (epoch : nat) : pyfloat :=
  match epoch with
  | 0 => Num (-50)
  | 1 => Num (-60)
  | 11 => Num (-40)
  | _ => Num (-70)
  end.

(** The log directory of the example model, and a tree in which it holds a
    checkpoint of the given epoch. *)
Definition log_directory : string :=
  "log/GMVAE/gaussian mixture-c_3/bernoulli-sum-l_2-h_16-mc_1-iw_1-bn".

Definition trained_until (epoch : nat) : file_system :=
  save_checkpoint log_directory
                  {| checkpoint_epoch := epoch;
                     checkpoint_global_step := 2 * epoch |}
                  no_files.

Definition fresh_world : Evaluate.world :=
  {| Evaluate.files := no_files; Evaluate.events := [] |}.

End Examples.

(** * Further parts of the sources

    The registry of distributions, the graph set-up, the mask of labeled
    examples, the averages of an evaluation pass, the output sets of
    [evaluate] and the random split of [data.py], with the definitions that
    their properties are stated with. *)

(** ** The shape of a model name *)

Definition is_digit (c : ascii) : bool :=
  match c with
  | "0" | "1" | "2" | "3" | "4" | "5" | "6" | "7" | "8" | "9" => true
  | _ => false
  end%char.

Fixpoint all_digits (s : string) : bool :=
  match s with
  | EmptyString => true
  | String c s' => (is_digit c && all_digits s')%bool
  end.

(** The string is empty or does not go on with a digit. *)
Definition stops (s : string) : bool :=
  match s with
  | EmptyString => true
  | String c _ => negb (is_digit c)
  end.

(** A list with the given head and at least one more element. *)
Definition headed (h : string) (l : list string) : Prop :=
  exists x t, l = h :: x :: t.

(** A list with the given head. *)
Definition starts (h : string) (l : list string) : Prop :=
  exists t, l = h :: t.

(** What comes before the number of clusters in the name of a mixture
    model. *)
Definition name_prefix (ty nl : string) : string :=
  (if starts_with_sep (nl ++ "-") then ""
   else if (String.eqb ty "" || ends_with_sep ty)%bool then ty
        else ty ++ "/")
  ++ nl ++ "-c_".

(** ** The registry of distributions: [distributions/__init__.py] *)

Module Registry.

(** An end of a support: a number, or an infinity. *)
Inductive bound : Type :=
| MinusInfinity
| Finite (q : Q)
| PlusInfinity.

Inductive activation : Type :=
| identity
| sigmoid
| softmax.

Inductive initialiser : Type :=
| zeros
| ones
| random_normal.

Record parameter : Type := {
  parameter_name : string;
  support : bound * bound;
  activation_function : activation;
  initial_value : option initialiser
}.

(** An entry: its parameters and the number of arguments that its "class"
    takes, [theta], or [theta] and the count sum [N]. *)
Record entry : Type := {
  parameters : list parameter;
  class_arguments : nat
}.

Definition real (name : string) (f : activation) (i : option initialiser)
  : parameter :=
  {| parameter_name := name; support := (MinusInfinity, PlusInfinity);
     activation_function := f; initial_value := i |}.

Definition within (name : string) (low high : Q) (f : activation)
           (i : option initialiser) : parameter :=
  {| parameter_name := name; support := (Finite low, Finite high);
     activation_function := f; initial_value := i |}.

Definition distributions : list (string * entry) :=
  [ ("gaussian",
     {| parameters := [ real "mu" identity (Some zeros);
                        within "log_sigma" (-3) 3 identity (Some zeros) ];
        class_arguments := 1 |});
    ("gaussian mixture",
     {| parameters := [ real "logits" identity (Some ones);
                        real "mus" identity (Some random_normal);
                        within "log_sigmas" (-3) 3 identity (Some zeros) ];
        class_arguments := 1 |});
    ("categorical",
     {| parameters := [ real "logits" identity None ];
        class_arguments := 1 |});
    ("bernoulli",
     {| parameters := [ within "p" 0 1 sigmoid None ];
        class_arguments := 1 |});
    ("poisson",
     {| parameters := [ within "log_lambda" (-10) 10 identity None ];
        class_arguments := 1 |});
    ("constrained poisson",
     {| parameters := [ within "lambda" 0 1 softmax None ];
        class_arguments := 2 |});
    ("pareto",
     {| parameters := [ within "log_alpha" (-10) 10 identity None ];
        class_arguments := 1 |});
    ("generalised pareto",
     {| parameters := [ within "xi" (-10000) 10000 identity None;
                        within "log_sigma" (-3) 3 identity None ];
        class_arguments := 1 |});
    ("multinomial",
     {| parameters := [ within "p" 0 1 softmax None ];
        class_arguments := 2 |});
    ("zero-inflated poisson",
     {| parameters := [ within "pi" 0 1 sigmoid None;
                        within "log_lambda" (-10) 10 identity None ];
        class_arguments := 1 |});
    ("negative binomial",
     {| parameters := [ within "p" 0 1 sigmoid None;
                        within "log_r" (-10) 10 identity None ];
        class_arguments := 1 |});
    ("zero-inflated negative binomial",
     {| parameters := [ within "pi" 0 1 sigmoid None;
                        within "p" 0 1 sigmoid None;
                        within "log_r" (-10) 10 identity None ];
        class_arguments := 1 |}) ]%Q.

(** [distributions[key]] *)
Fixpoint lookup_in (registry : list (string * entry)) (key : string)
  : result entry :=
  match registry with
  | [] => Raise (KeyError key)
  | (k, e) :: rest => if String.eqb k key then Return e else lookup_in rest key
  end.

Definition lookup : string -> result entry := lookup_in distributions.





(** Calling the "class" of an entry with so many arguments. *)
Definition call_class (e : entry) (arguments : nat) : result unit :=
  if Nat.eqb (class_arguments e) arguments then Return tt
  else Raise (TypeError "<lambda>() takes a different number of arguments").

End Registry.

(** ** The graph of the model: [model_graph] and the functions it calls *)

Module Graph.

Section GraphSetup.

(** The layers, the tensors and the distribution objects are built by
    TensorFlow: what the calls of a named block do, return or raise, is
    taken as given.  The block with the name of a distribution is the body
    of its "class". *)
Variable tensorflow : string -> model -> result unit.

Local Open Scope py_scope.

(** [for parameter in distribution["parameters"]: theta[parameter] = ...],
    a dense layer each, in the scope [parameter.upper()] *)
Fixpoint parameter_layers (ps : list Registry.parameter) (m : model)
  : result unit :=
  match ps with
  | [] => Return tt
  | p :: rest =>
      _ <- tensorflow (Registry.parameter_name p) m ;;
      parameter_layers rest m
  end.

Definition q_y_given_x_graph (distribution_name : string) (m : model)
  : result unit :=
  distribution <- Registry.lookup distribution_name ;;
  _ <- tensorflow "ENCODER" m ;;
  _ <- parameter_layers (Registry.parameters distribution) m ;;
  _ <- Registry.call_class distribution 1 ;;
  tensorflow distribution_name m.

Definition q_z_given_x_y_graph (distribution_name : string) (m : model)
  : result unit :=
  distribution <- Registry.lookup distribution_name ;;
  _ <- tensorflow "ENCODER" m ;;
  _ <- parameter_layers (Registry.parameters distribution) m ;;
  _ <- Registry.call_class distribution 1 ;;
  _ <- tensorflow distribution_name m ;;
  tensorflow "z" m.

Definition p_z_given_y_graph (distribution_name : string) (m : model)
  : result unit :=
  distribution <- Registry.lookup distribution_name ;;
  _ <- parameter_layers (Registry.parameters distribution) m ;;
  _ <- Registry.call_class distribution 1 ;;
  _ <- tensorflow distribution_name m ;;
  tensorflow "p_z_mean" m.

(** The test that decides whether the count sum is passed on. *)
Definition takes_count_sum (distribution_name : string) : bool :=
  (contains "constrained" distribution_name
   || contains "multinomial" distribution_name)%bool.

(** [self.reconstruction_distribution["class"](x_theta, self.replicated_n)],
    or [...(x_theta)] *)
Definition reconstruction_class_call (distribution_name : string)
           (reconstruction_distribution : Registry.entry) : result unit :=
  if takes_count_sum distribution_name
  then Registry.call_class reconstruction_distribution 2
  else Registry.call_class reconstruction_distribution 1.

(** [self.reconstruction_distribution], the entry that the constructor has
    looked up, is an argument here. *)
Definition p_x_given_z_graph (reconstruction_distribution : Registry.entry)
           (m : model) : result unit :=
  _ <- tensorflow "DECODER" m ;;
  _ <- parameter_layers (Registry.parameters reconstruction_distribution) m ;;
  _ <- reconstruction_class_call (reconstruction_distribution_name m)
                                 reconstruction_distribution ;;
  _ <- tensorflow (reconstruction_distribution_name m) m ;;
  if negb (Z.eqb (k_max m) 0) then tensorflow "P_K" m else Return tt.

(** [for k in range(self.K)] of the latent space "Z" *)
Fixpoint latent_loop (clusters : list nat) (m : model) : result unit :=
  match clusters with
  | [] => Return tt
  | k :: rest =>
      _ <- q_z_given_x_y_graph "modified gaussian" m ;;
      _ <- p_z_given_y_graph "modified gaussian" m ;;
      _ <- tensorflow "means and variances" m ;;
      latent_loop rest m
  end.

(** [for k in range(self.K)] of the decoder "X" *)
Fixpoint decoder_loop (reconstruction_distribution : Registry.entry)
         (clusters : list nat) (m : model) : result unit :=
  match clusters with
  | [] => Return tt
  | k :: rest =>
      _ <- p_x_given_z_graph reconstruction_distribution m ;;
      decoder_loop reconstruction_distribution rest m
  end.

Definition model_graph (reconstruction_distribution : Registry.entry)
           (m : model) : result unit :=
  _ <- tensorflow "p_y" m ;;
  _ <- tensorflow "y" m ;;
  _ <- q_y_given_x_graph "categorical" m ;;
  _ <- tensorflow "q_y" m ;;
  _ <- latent_loop (seq 0 (K m)) m ;;
  _ <- tensorflow "z_mean" m ;;
  _ <- decoder_loop reconstruction_distribution (seq 0 (K m)) m ;;
  tensorflow "summaries" m.

End GraphSetup.

End Graph.

(** ** The mask of labeled examples *)

Module Labels.

(** [a[:n]] for a Python int [n] *)
Definition up_to {A} (n : Z) (l : list A) : list A :=
  if (n <? 0)%Z then firstn (List.length l - Z.to_nat (- n)) l
  else firstn (Z.to_nat n) l.

(** [mask[i] = 1] *)
Fixpoint set_one (i : nat) (mask : list Z) {struct mask}
  : result (list Z) :=
  match mask, i with
  | [], _ => Raise IndexError
  | _ :: rest, 0 => Return (1%Z :: rest)
  | m :: rest, S i' =>
      match set_one i' rest with
      | Return rest' => Return (m :: rest')
      | Raise e => Raise e
      end
  end.

(** [mask[indices] = 1] *)
Fixpoint set_ones (indices : list nat) (mask : list Z) : result (list Z) :=
  match indices with
  | [] => Return mask
  | i :: rest =>
      match set_one i mask with
      | Return mask' => set_ones rest mask'
      | Raise e => Raise e
      end
  end.

(** [mask = numpy.zeros(M);
     mask[permutation(M)[:self.number_of_labeled_examples]] = 1] *)
Definition initial_mask (M : nat) (permutation : list nat)
           (number_of_labeled_examples : Z) : result (list Z) :=
  set_ones (up_to number_of_labeled_examples permutation) (repeat 0%Z M).

(** [numpy.argmax]: the first index of a greatest element *)
Fixpoint argmax_from (best : nat) (greatest : Q) (i : nat) (l : list Q)
  : nat :=
  match l with
  | [] => best
  | x :: rest =>
      if Q_lt greatest x then argmax_from i x (S i) rest
      else argmax_from best greatest (S i) rest
  end.

Definition argmax (l : list Q) : result nat :=
  match l with
  | [] => Raise (ValueError "attempt to get argmax of an empty sequence")
  | x :: rest => Return (argmax_from 0 x 1 rest)
  end.

(** [q_y_entropies[numpy.array(mask, dtype=bool)] = -1e6], for a mask as
    long as the entropies *)
Fixpoint hide_labeled (entropies : list Q) (mask : list Z) : list Q :=
  match entropies, mask with
  | e :: entropies', m :: mask' =>
      (if Z.eqb m 0 then e else (-1000000)%Q) :: hide_labeled entropies' mask'
  | _, _ => entropies
  end.

(** The acquisition of a label at the end of the evaluation of an epoch on
    the training set: the example of greatest entropy among the ones that are
    not labeled becomes labeled. *)
Definition acquire_label (entropies : list Q) (mask : list Z)
  : result (list Z) :=
  match argmax (hide_labeled entropies mask) with
  | Return max_entropy_ind => set_one max_entropy_ind mask
  | Raise e => Raise e
  end.

End Labels.

(** ** The averages of an evaluation pass *)

Module Curves.

(** [value = 0
     for i in range(0, M, batch_size): value += value_i
     value /= M / batch_size]
    where [batch_size] is not zero. *)
Definition epoch_value (value_of_batch : nat -> Q) (M batch_size : nat)
  : result Q :=
  let total :=
    fold_left (fun value i => (value + value_of_batch i)%Q)
              (Train.batch_starts M batch_size) 0%Q in
  if Nat.eqb M 0 then Raise ZeroDivisionError
  else Return (total / (inject_Z (Z.of_nat M)
                        / inject_Z (Z.of_nat batch_size)))%Q.

End Curves.

(** ** The output sets of [evaluate] *)

Module Outputs.

(** What is returned for one kind of output: a data set, or for "latent"
    the dictionary of the two sets "z" and "y". *)
Inductive output_set (D : Type) : Type :=
| Plain (d : D)
| Latent (z y : D).
Arguments Plain {D} d.
Arguments Latent {D} z y.

(** ['NoneType' object has no attribute ...] *)
Inductive attribute_error : Type :=
| AttributeError (attribute : string).

(** The value of [evaluate]: the list of output sets, or the one set when
    one kind was asked for. *)
Inductive returned (A : Type) : Type :=
| One (a : A)
| Several (l : list A).
Arguments One {A} a.
Arguments Several {A} l.

(** [l.index(x)], when [x in l] *)
Fixpoint index (x : string) (l : list string) : option nat :=
  match l with
  | [] => None
  | y :: l' => if String.eqb y x then Some 0 else option_map S (index x l')
  end.

(** [l[i] = v] for an index within the list *)
Fixpoint assign {A} (i : nat) (v : A) (l : list A) {struct l} : list A :=
  match l, i with
  | [], _ => []
  | _ :: l', 0 => v :: l'
  | x :: l', S i' => x :: assign i' v l'
  end.

Section Assembly.

Variable D : Type.
(** [DataSet.updatePredictions], with the predictions of the call *)
Variable updatePredictions : D -> D.

(** [if kind in output_versions:
        output_sets[output_versions.index(kind)] = value] *)
Definition place (kind : string) (value : output_set D)
           (output_versions : list string)
           (output_sets : list (option (output_set D)))
  : list (option (output_set D)) :=
  match index kind output_versions with
  | Some i => assign i (Some value) output_sets
  | None => output_sets
  end.

Definition update (s : option (output_set D))
  : attribute_error + option (output_set D) :=
  match s with
  | None => inl (AttributeError "updatePredictions")
  | Some (Plain d) => inr (Some (Plain (updatePredictions d)))
  | Some (Latent z y) =>
      inr (Some (Latent (updatePredictions z) (updatePredictions y)))
  end.

(** [for output_set in output_sets: ... updatePredictions(...)] *)
Fixpoint update_all (output_sets : list (option (output_set D)))
  : attribute_error + list (option (output_set D)) :=
  match output_sets with
  | [] => inr []
  | s :: rest =>
      match update s with
      | inl e => inl e
      | inr s' =>
          match update_all rest with
          | inl e => inl e
          | inr rest' => inr (s' :: rest')
          end
      end
  end.

(** [if len(output_sets) == 1: output_sets = output_sets[0]] *)
Definition unwrap {A} (output_sets : list A) : returned A :=
  match output_sets with
  | [s] => One s
  | _ => Several output_sets
  end.

(** The end of [evaluate], from [output_sets = [None] * len(output_versions)]
    to the [return]. *)
Definition output_sets (predict_labels : bool) (output_versions : list string)
           (transformed reconstructed z y : D)
  : attribute_error + returned (option (output_set D)) :=
  let sets := repeat None (List.length output_versions) in
  let sets := place "transformed" (Plain transformed) output_versions sets in
  let sets :=
    place "reconstructed" (Plain reconstructed) output_versions sets in
  let sets := place "latent" (Latent z y) output_versions sets in
  if predict_labels then
    match update_all sets with
    | inl e => inl e
    | inr sets' => inr (unwrap sets')
    end
  else inr (unwrap sets).

(** The output set of a kind. *)
Definition output_of (transformed reconstructed z y : D) (kind : string)
  : option (output_set D) :=
  if String.eqb kind "transformed" then Some (Plain transformed)
  else if String.eqb kind "reconstructed" then Some (Plain reconstructed)
  else if String.eqb kind "latent" then Some (Latent z y)
  else None.

Definition known (kind : string) : bool :=
  (String.eqb kind "transformed" || String.eqb kind "reconstructed"
   || String.eqb kind "latent")%bool.

End Assembly.

End Outputs.

(** ** The split of a data set: [splitDataSet] of [data.py] *)

Module Data.






End Data.

(** ** Further configurations *)

Module Scenarios.

(** The example model with another number of clusters and of warm-up
    epochs. *)
Definition variant (clusters warm_up_epochs : nat) : model :=
  {| type := "GMVAE";
     feature_size := 20;
     latent_size := 2;
     hidden_sizes := [16];
     latent_distribution_name := "gaussian mixture";
     prior_probabilities_method := "uniform";
     prior_probabilities := None;
     K := clusters;
     analytical_kl_term := false;
     proportion_of_free_KL_nats := 0%Q;
     number_of_importance_samples := Examples.one_sample;
     number_of_monte_carlo_samples := Examples.one_sample;
     reconstruction_distribution_name := "bernoulli";
     number_of_reconstruction_classes := 1;
     k_max := 0;
     batch_normalisation := true;
     dropout_parts := [];
     count_sum_feature := true;
     count_sum := false;
     kl_weight_value := 1%Q;
     number_of_warm_up_epochs := warm_up_epochs;
     number_of_labeled_examples := 0%Z;
     clf_weight_value := 1%Q;
     epsilon := (1 # 1000000)%Q;
     base_log_directory := "log";
     base_results_directory := "results";
     early_stopping_rounds := 10;
     stopped_early := None |}.

(** A call of [train] for one epoch on a training set of so many examples,
    with or without labels, in batches of the given size. *)
Definition train_arguments (examples : nat) (labels : bool)
           (batch_size : nat) (temporary_log_directory : option string)
  : Train.train_arguments :=
  {| Train.training_set :=
       {| number_of_examples := examples; has_labels := labels;
          noisy_preprocess := false |};
     Train.validation_set := None;
     Train.number_of_epochs := 1;
     Train.batch_size := batch_size;
     Train.learning_rate := (1 # 1000)%Q;
     Train.plotting_interval := None;
     Train.run_id := None;
     Train.new_run := false;
     Train.reset_training := false;
     Train.temporary_log_directory := temporary_log_directory |}.

(** A session whose training loss is not a number at one batch of one
    epoch. *)
Definition nan_at (epoch i : nat) : Train.observations :=
  {| Train.batch_loss :=
       fun epoch' i' =>
         if (Nat.eqb epoch' epoch && Nat.eqb i' i)%bool then NaN
         else Num (-100);
     Train.validation_ELBO := fun _ => Num (-50);
     Train.time := fun steps => inject_Z (Z.of_nat steps);
     Train.learning_curve := fun _ => [] |}.

(** The TensorFlow calls of the graph, when none of them raises. *)
Definition tensorflow (block : string) (m : model) : result unit := Return tt.

End Scenarios.

(** * Properties *)

(** ** Comparisons of rationals *)

Lemma Q_gt_true (x y : Q) : Q_gt x y = true <-> (y < x)%Q.
Proof.
  unfold Q_gt. rewrite negb_true_iff.
  split.
  - intros H. apply Qnot_le_lt. intros Hle.
    apply Qle_bool_iff in Hle. congruence.
  - intros H. destruct (Qle_bool x y) eqn:E; [|reflexivity].
    apply Qle_bool_iff in E. exfalso. apply (Qlt_not_le _ _ H E).
Qed.


Lemma Q_lt_true (x y : Q) : Q_lt x y = true <-> (x < y)%Q.
Proof. apply (Q_gt_true y x). Qed.


(** ** The loss engine *)

Section LossFacts.

Context {T : Type} {ops : Scalar T}.
Variable reduce_mean_01 : Loss.tensor3 T -> Loss.tensor1 T.
Variable reduce_mean_0 : Loss.tensor3 T -> Loss.tensor2 T.
Variable compute_weighted_loss : Loss.tensor1 T -> list Z -> T.
Variable softmax_cross_entropy :
  list (list Z) -> Loss.tensor2 T -> list Z -> T.
Variable numpy_log : nat -> T.

Let loss := Loss.loss reduce_mean_01 reduce_mean_0 compute_weighted_loss
                      softmax_cross_entropy numpy_log.

(** C1.  For every batch and whatever the arithmetic of the runtime, the
    monitored ELBO is the reconstruction term minus the sum of the z-KL
    and the y-KL, and that y-KL is the weighted mean of the per-example
    values over the unlabeled examples, before any free-nats floor. *)
Theorem ELBO_is_ENRE_minus_KL (h : Loss.hyper) (f : Loss.feed) :
  Loss.ELBO (loss h f)
  = tf_sub (Loss.ENRE (loss h f))
           (tf_add (Loss.KL_z (loss h f)) (Loss.KL_y (loss h f)))
  /\ Loss.KL_y (loss h f)
     = compute_weighted_loss (Loss.KL_y_examples numpy_log h f)
                             (Loss.mask_out_labeled f)
  /\ Loss.KL_z (loss h f)
     = compute_weighted_loss
         (Loss.add_n (map (Loss.KL_z_mean_k reduce_mean_01 f)
                          (seq 0 (Loss.K h))))
         (Loss.mask_out_labeled f)
  /\ Loss.ENRE (loss h f)
     = compute_weighted_loss
         (Loss.add_n (map (Loss.log_p_x_given_z_mean_k reduce_mean_01 f)
                          (seq 0 (Loss.K h))))
         (Loss.mask_out_labeled f).
Proof.
  repeat split; reflexivity.
Qed.

End LossFacts.

Lemma reduce_sum_binary_mask (mask : list Z) :
  binary_mask mask ->
  Loss.reduce_sum_Z mask = Z.of_nat (number_of_labeled mask).
Proof.
  unfold binary_mask, number_of_labeled.
  induction 1 as [|m mask Hm _ IH]; [reflexivity|].
  cbn [Loss.reduce_sum_Z fold_right count_occ].
  fold (Loss.reduce_sum_Z mask). rewrite IH.
  destruct Hm as [-> | ->].
  - destruct (Z.eq_dec 0 1) as [E|_]; [discriminate E|]. lia.
  - destruct (Z.eq_dec 1 1) as [_|N]; [|contradiction]. lia.
Qed.

Section RationalLossFacts.

Variable reduce_mean_01 : Loss.tensor3 Q -> Loss.tensor1 Q.
Variable reduce_mean_0 : Loss.tensor3 Q -> Loss.tensor2 Q.
Variable compute_weighted_loss : Loss.tensor1 Q -> list Z -> Q.
Variable softmax_cross_entropy :
  list (list Z) -> Loss.tensor2 Q -> list Z -> Q.
Variable numpy_log : nat -> Q.

Let loss := Loss.loss reduce_mean_01 reduce_mean_0 compute_weighted_loss
                      softmax_cross_entropy numpy_log.

Lemma alpha_of_labeled (h : Loss.hyper) (f : Loss.feed) :
  binary_mask (Loss.clf_mask f) ->
  Loss.alpha (loss h f)
  = match number_of_labeled (Loss.clf_mask f) with
    | O => 0%Q
    | S _ =>
        (Loss.clf_weight f
         * (2 + 2 * inject_Z (Z.of_nat (number_of_labeled (Loss.clf_mask f)))))%Q
    end.
Proof.
  intros Hmask. cbn [loss Loss.loss Loss.alpha].
  rewrite (reduce_sum_binary_mask _ Hmask).
  cbn [tf_greater tf_const tf_mul tf_add Scalar_Q].
  destruct (number_of_labeled (Loss.clf_mask f)) as [|n] eqn:E.
  - reflexivity.
  - assert (G : Q_gt (inject_Z (Z.of_nat (S n))) (inject_Z 0) = true).
    { apply Q_gt_true. rewrite <- Zlt_Qlt. lia. }
    rewrite G. reflexivity.
Qed.



End RationalLossFacts.

Lemma binary_mask_cons (m : Z) (mask : list Z) :
  (m = 0%Z \/ m = 1%Z) -> binary_mask mask -> binary_mask (m :: mask).
Proof. intros Hm Hmask. apply Forall_cons; assumption. Qed.

Lemma binary_mask_nil : binary_mask [].
Proof. apply Forall_nil. Qed.




(** ** The constructor *)

Example init_constructs (free : Q) (evaluation_samples : nat) :
  init Examples.str_of_float Examples.graph_setup
       (Examples.arguments (Some "bernoulli") (Some 0%Z) free evaluation_samples)
  = Return (Examples.constructed free evaluation_samples).
Proof. reflexivity. Qed.

Example name_of_constructed :
  name Examples.normaliseString Examples.str_of_float
       (Examples.constructed 0 1)
  = Return "GMVAE/gaussian mixture-c_3/bernoulli-sum-l_2-h_16-mc_1-iw_1-bn".
Proof. reflexivity. Qed.

Section ConstructorFacts.

Variable str_of_float : Q -> string.
Variable graph_setup : model -> result unit.

Let construct := init str_of_float graph_setup.

Lemma registry_lookup_registered (a : init_arguments) :
  registered a ->
  exists key,
    registry_lookup distributions (arg_reconstruction_distribution a)
    = Return key.
Proof.
  intros [key [Hkey Hin]]. exists key.
  rewrite Hkey. cbn [registry_lookup]. now rewrite Hin.
Qed.

Lemma registry_lookup_unregistered (a : init_arguments) :
  ~ registered a ->
  exists key,
    registry_lookup distributions (arg_reconstruction_distribution a)
    = Raise (KeyError key).
Proof.
  intros Hnot. unfold registry_lookup.
  destruct (arg_reconstruction_distribution a) as [key|] eqn:E.
  - destruct (in_registry key distributions) eqn:Hin.
    + exfalso. apply Hnot. exists key. now split.
    + now exists key.
  - now exists "None".
Qed.

(** C10, as amended.  A call that leaves [number_of_reconstruction_classes]
    at [None] never constructs a model: it raises the TypeError of
    [number_of_reconstruction_classes + 1] when the reconstruction
    distribution is a key of the registry, and the KeyError of the registry
    lookup, which comes first, when it is not. *)
Theorem init_without_reconstruction_classes (a : init_arguments) :
  arg_number_of_reconstruction_classes a = None ->
  (registered a -> exists msg, construct a = Raise (TypeError msg))
  /\ (~ registered a -> exists key, construct a = Raise (KeyError key))
  /\ (forall m, construct a <> Return m).
Proof.
  intros Hnone.
  assert (Hreg : registered a ->
                 exists msg, construct a = Raise (TypeError msg)).
  { intros Hr. destruct (registry_lookup_registered a Hr) as [key Hkey].
    eexists. unfold construct, init.
    cbn [registry_lookup in_registry latent_distributions existsb
         String.eqb Ascii.eqb Bool.eqb orb bind].
    rewrite Hkey, Hnone. cbn [bind plus_one]. reflexivity. }
  assert (Hunreg : ~ registered a ->
                   exists key, construct a = Raise (KeyError key)).
  { intros Hr. destruct (registry_lookup_unregistered a Hr) as [key Hkey].
    exists key. unfold construct, init.
    cbn [registry_lookup in_registry latent_distributions existsb
         String.eqb Ascii.eqb Bool.eqb orb bind].
    rewrite Hkey. reflexivity. }
  split; [exact Hreg|]. split; [exact Hunreg|].
  intros m Hm.
  destruct (arg_reconstruction_distribution a) as [key|] eqn:E.
  - destruct (in_registry key distributions) eqn:Hin.
    + destruct Hreg as [msg Hmsg]; [exists key; now split|]. congruence.
    + destruct Hunreg as [k Hk]; [|congruence].
      intros [key' [Hkey' Hin']]. congruence.
  - destruct Hunreg as [k Hk]; [|congruence].
    intros [key' [Hkey' _]]. congruence.
Qed.

(** A model is constructed only from a number of reconstruction classes. *)
Lemma init_returns_only_with_classes (a : init_arguments) (m : model) :
  construct a = Return m ->
  exists classes,
    arg_number_of_reconstruction_classes a = Some classes
    /\ k_max m = classes
    /\ number_of_reconstruction_classes m = (classes + 1)%Z.
Proof.
  unfold construct, init.
  cbn [registry_lookup in_registry latent_distributions existsb
       String.eqb Ascii.eqb Bool.eqb orb bind].
  destruct (registry_lookup distributions (arg_reconstruction_distribution a))
    as [key|e]; cbn [bind]; [|discriminate].
  destruct (arg_number_of_reconstruction_classes a) as [classes|];
    cbn [plus_one bind k_max_of]; [|discriminate].
  destruct (graph_setup _); cbn [bind]; [|discriminate].
  intros H. injection H as <-. exists classes. repeat split.
Qed.

End ConstructorFacts.

(** The call that leaves every keyword argument at its default raises the
    KeyError of [distributions[None]], not a TypeError. *)
Lemma init_defaults_raise_KeyError :
  let a := default_arguments 20 2 [16] Examples.one_sample Examples.one_sample in
  arg_number_of_reconstruction_classes a = None
  /\ init Examples.str_of_float Examples.graph_setup a = Raise (KeyError "None")
  /\ ~ (exists msg,
          init Examples.str_of_float Examples.graph_setup a
          = Raise (TypeError msg)).
Proof.
  split; [reflexivity|]. split; [reflexivity|].
  intros [msg H]. discriminate H.
Qed.

Lemma init_without_reconstruction_classes_witness :
  let a := Examples.arguments (Some "bernoulli") None (8 # 10) 1 in
  arg_number_of_reconstruction_classes a = None
  /\ exists msg,
       init Examples.str_of_float Examples.graph_setup a
       = Raise (TypeError msg).
Proof.
  intros a. split; [reflexivity|].
  refine (proj1 (init_without_reconstruction_classes
                   Examples.str_of_float Examples.graph_setup a _) _).
  - reflexivity.
  - exists "bernoulli". split; reflexivity.
Defined.

(** ** The model name *)

Section NameFacts.

Variable normaliseString : string -> string.
Variable str_of_float : Q -> string.

Let model_name := name normaliseString str_of_float.

(** With free nats configured, the property raises before it returns. *)
Lemma name_raises_with_free_nats (m : model) :
  Q_truthy (proportion_of_free_KL_nats m) = true ->
  model_name m = Raise (UnboundLocalError "reconstruction_part").
Proof.
  intros H. unfold model_name, name. now rewrite H.
Qed.


End NameFacts.



(** The configuration with the default free nats (0.8): the name raises. *)
Example name_with_default_free_nats :
  name Examples.normaliseString Examples.str_of_float
       (Examples.constructed (8 # 10) 1)
  = Raise (UnboundLocalError "reconstruction_part").
Proof. reflexivity. Qed.

(** ** The evaluation entry point *)

Lemma nodup_length_le (l : list string) :
  List.length (nodup string_dec l) <= List.length l.
Proof.
  induction l as [|x l IH]; [apply le_n|].
  cbn [nodup]. destruct (in_dec string_dec x l); cbn [List.length]; lia.
Qed.

Lemma number_of_distinct_NoDup (l : list string) :
  Evaluate.number_of_distinct l = List.length l <-> NoDup l.
Proof.
  unfold Evaluate.number_of_distinct. split.
  - induction l as [|x l IH]; intros H; [constructor|].
    cbn [nodup] in H. destruct (in_dec string_dec x l) as [Hin|Hnot].
    + pose proof (nodup_length_le l). cbn [List.length] in H. lia.
    + cbn [List.length] in H. constructor; [exact Hnot|]. apply IH. lia.
  - intros H. now rewrite (nodup_fixed_point string_dec H).
Qed.

Section EvaluateFacts.

Variable normaliseString : string -> string.
Variable str_of_float : Q -> string.
Variable checkRunID : string -> result string.
Variable formatDuration : Q -> string.
Variable str_of_list : list string -> string.
Variable noisy_duration : Q.
Variable output_set : Type.
Variable evaluate_restored :
  model -> Evaluate.evaluate_arguments -> list string -> checkpoint
  -> Evaluate.E (list (option output_set)).

Variable self : model.
Variable a : Evaluate.evaluate_arguments.

Let run : Evaluate.E (list (option output_set)) :=
  Evaluate.evaluate normaliseString str_of_float checkRunID formatDuration
                    str_of_list noisy_duration output_set evaluate_restored
                    self a.

Lemma requested_versions_too_many (l : list string) :
  Evaluate.output_versions a = Evaluate.VersionsList l ->
  3 < List.length l ->
  Evaluate.requested_versions str_of_list a
  = Raise (ValueError ("Can only output at most 3 sets, "
                       ++ str_of_nat (List.length l) ++ " requested")).
Proof.
  intros Hl Hlen. unfold Evaluate.requested_versions. rewrite Hl.
  destruct (Nat.ltb_spec 3 (List.length l)); [reflexivity|lia].
Qed.

Lemma requested_versions_duplicates (l : list string) :
  Evaluate.output_versions a = Evaluate.VersionsList l ->
  List.length l <= 3 ->
  ~ NoDup l ->
  Evaluate.requested_versions str_of_list a
  = Raise (ValueError ("Cannot output duplicate sets, "
                       ++ str_of_list l ++ " requested.")).
Proof.
  intros Hl Hlen Hdup. unfold Evaluate.requested_versions. rewrite Hl.
  destruct (Nat.ltb_spec 3 (List.length l)); [lia|].
  destruct (Nat.eqb_spec (List.length l) (Evaluate.number_of_distinct l))
    as [E|_]; [|reflexivity].
  exfalso. apply Hdup. apply number_of_distinct_NoDup. now symmetry.
Qed.

(** C7.  A list of output kinds with more than three entries or with a
    duplicate makes [evaluate] raise before anything else happens: the world
    is left as it was (no event, the log directory untouched), and the
    exception is the ValueError of the check unless the check of the run id,
    which comes first, has raised already. *)
Theorem evaluate_rejects_invalid_versions (l : list string)
        (w : Evaluate.world) :
  Evaluate.output_versions a = Evaluate.VersionsList l ->
  3 < List.length l \/ ~ NoDup l ->
  exists e,
    run w = (Raise e, w)
    /\ ((exists r, Evaluate.checked_run_id checkRunID a = Return r) ->
        (3 < List.length l ->
         e = ValueError ("Can only output at most 3 sets, "
                         ++ str_of_nat (List.length l) ++ " requested"))
        /\ (List.length l <= 3 ->
            e = ValueError ("Cannot output duplicate sets, "
                            ++ str_of_list l ++ " requested."))).
Proof.
  intros Hl Hbad.
  assert (Hreq : exists msg,
             Evaluate.requested_versions str_of_list a
             = Raise (ValueError msg)
             /\ (3 < List.length l ->
                 msg = "Can only output at most 3 sets, "
                       ++ str_of_nat (List.length l) ++ " requested")
             /\ (List.length l <= 3 ->
                 msg = "Cannot output duplicate sets, "
                       ++ str_of_list l ++ " requested.")).
  { destruct (Nat.ltb_spec 3 (List.length l)) as [Hlong|Hshort].
    - eexists. split; [apply (requested_versions_too_many l Hl Hlong)|].
      split; [reflexivity|lia].
    - destruct Hbad as [Hlong|Hdup]; [lia|].
      eexists.
      split; [apply (requested_versions_duplicates l Hl Hshort Hdup)|].
      split; [lia|reflexivity]. }
  destruct Hreq as [msg [Hreq [Hlong Hshort]]].
  unfold run, Evaluate.evaluate, Evaluate.ebind, Evaluate.lift.
  destruct (Evaluate.checked_run_id checkRunID a) as [r|e] eqn:Hid.
  - rewrite Hreq. exists (ValueError msg). split; [reflexivity|].
    intros _. split; intros H; f_equal; auto.
  - exists e. split; [reflexivity|].
    intros [r Hr]. discriminate Hr.
Qed.

End EvaluateFacts.

Lemma evaluate_rejects_invalid_versions_witness :
  let a := Examples.evaluate_arguments
             (Evaluate.VersionsList ["reconstructed"; "reconstructed"])
             false false in
  ~ NoDup ["reconstructed"; "reconstructed"]
  /\ exists e,
       Examples.evaluate (Examples.constructed 0 1) a Examples.fresh_world
       = (Raise e, Examples.fresh_world).
Proof.
  intros a.
  assert (Hdup : ~ NoDup ["reconstructed"; "reconstructed"]).
  { intros H. inversion H as [|x l Hnot _]. apply Hnot. now left. }
  split; [exact Hdup|].
  destruct (evaluate_rejects_invalid_versions
              Examples.normaliseString Examples.str_of_float
              Examples.checkRunID Examples.formatDuration
              Examples.str_of_list 0%Q unit Examples.evaluate_restored
              (Examples.constructed 0 1) a
              ["reconstructed"; "reconstructed"] Examples.fresh_world
              eq_refl (or_intror Hdup)) as [e [He _]].
  exists e. exact He.
Defined.

Section EvaluateNotTrained.

Variable normaliseString : string -> string.
Variable str_of_float : Q -> string.
Variable checkRunID : string -> result string.
Variable formatDuration : Q -> string.
Variable str_of_list : list string -> string.
Variable noisy_duration : Q.
Variable output_set : Type.
Variable evaluate_restored :
  model -> Evaluate.evaluate_arguments -> list string -> checkpoint
  -> Evaluate.E (list (option output_set)).

Variable self : model.
Variable a : Evaluate.evaluate_arguments.

Let run : Evaluate.E (list (option output_set)) :=
  Evaluate.evaluate normaliseString str_of_float checkRunID formatDuration
                    str_of_list noisy_duration output_set evaluate_restored
                    self a.

Let log_directory_of (run_id : option string) : result string :=
  logDirectory normaliseString str_of_float checkRunID self None run_id
               (Evaluate.use_early_stopping_model a)
               (Evaluate.use_best_model a).

(** Asking for the early-stopping model and the best model at once is
    refused, whatever the checkpoints. *)
Lemma logDirectory_mutually_exclusive (model_name : string) :
  name normaliseString str_of_float self = Return model_name ->
  Evaluate.use_early_stopping_model a = true ->
  Evaluate.use_best_model a = true ->
  log_directory_of None
  = Raise (ValueError
             "Early-stopping model and best model are mutually exclusive.").
Proof.
  intros Hname Hes Hbest.
  unfold log_directory_of, logDirectory.
  rewrite Hname, Hes, Hbest. reflexivity.
Qed.

(** Without a run id, the log directory resolves when the name evaluates
    and at most one variant is asked for. *)
Lemma logDirectory_resolves (model_name : string) :
  name normaliseString str_of_float self = Return model_name ->
  (Evaluate.use_early_stopping_model a && Evaluate.use_best_model a)%bool
  = false ->
  exists directory, log_directory_of None = Return directory.
Proof.
  intros Hname Hflags.
  unfold log_directory_of, logDirectory.
  rewrite Hname, Hflags. cbn [bind].
  destruct (Evaluate.use_early_stopping_model a);
    [|destruct (Evaluate.use_best_model a)]; eexists; reflexivity.
Qed.


End EvaluateNotTrained.



(** With the default free nats the log directory cannot be named, and
    [evaluate] raises instead of reporting an untrained model. *)
Example evaluate_with_default_free_nats :
  fst (Examples.evaluate
         (Examples.constructed (8 # 10) 1)
         (Examples.evaluate_arguments (Evaluate.VersionsString "all")
                                      false false)
         Examples.fresh_world)
  = Raise (UnboundLocalError "reconstruction_part").
Proof. reflexivity. Qed.

(** ** The training orchestrator *)

(** *** Computations that run no optimizer step *)

Lemma mbind_continue {A B} (c : Train.M A) (k : A -> Train.M B)
      (st st' : Train.state) (b : B) :
  Train.mbind c k st = (Train.Continue b, st') ->
  exists x st1, c st = (Train.Continue x, st1)
                /\ k x st1 = (Train.Continue b, st').
Proof.
  unfold Train.mbind. destruct (c st) as [[x|x] st1]; intros H.
  - exists x, st1. now split.
  - discriminate H.
Qed.

Lemma quiet_ret {A} (x : A) : Train.quiet (Train.ret x).
Proof. intros st r st' H. injection H as _ <-. split; reflexivity. Qed.

Lemma quiet_lift {A} (r : result A) : Train.quiet (Train.lift r).
Proof.
  intros st o st' H. unfold Train.lift in H.
  destruct r; injection H as _ <-; split; reflexivity.
Qed.

Lemma quiet_early_return {A} (r : Train.status * option string) :
  Train.quiet (@Train.early_return A r).
Proof. intros st o st' H. injection H as _ <-. split; reflexivity. Qed.

Lemma quiet_get : Train.quiet Train.get.
Proof. intros st o st' H. injection H as _ <-. split; reflexivity. Qed.

Lemma quiet_modify_fs (f : file_system -> file_system) :
  Train.quiet (Train.modify_fs f).
Proof. intros st o st' H. injection H as _ <-. split; reflexivity. Qed.

Lemma quiet_set_early (e : Train.early_stopping) :
  Train.quiet (Train.set_early e).
Proof. intros st o st' H. injection H as _ <-. split; reflexivity. Qed.

Lemma quiet_set_global_step (n : nat) : Train.quiet (Train.set_global_step n).
Proof. intros st o st' H. injection H as _ <-. split; reflexivity. Qed.

Lemma quiet_bind {A B} (c : Train.M A) (k : A -> Train.M B) :
  Train.quiet c -> (forall x, Train.quiet (k x)) ->
  Train.quiet (Train.mbind c k).
Proof.
  intros Hc Hk st r st'. unfold Train.mbind.
  destruct (c st) as [[x|x] st1] eqn:E; intros H.
  - destruct (Hk x _ _ _ H) as [H1 H2]. destruct (Hc _ _ _ E) as [H3 H4].
    split; congruence.
  - injection H as _ <-. apply (Hc _ _ _ E).
Qed.

Lemma quiet_when (b : bool) (c : Train.M unit) :
  Train.quiet c -> Train.quiet (Train.when b c).
Proof. intros H. destruct b; [exact H|apply quiet_ret]. Qed.

Ltac quiet :=
  repeat first
    [ apply quiet_ret | apply quiet_lift | apply quiet_early_return
    | apply quiet_get | apply quiet_modify_fs | apply quiet_set_early
    | apply quiet_set_global_step
    | apply quiet_when
    | apply quiet_bind; [|intros ?]
    | match goal with
      | |- Train.quiet (if ?b then _ else _) => destruct b
      | |- Train.quiet (match ?x with _ => _ end) => destruct x
      end ].

Section SetUpFacts.

Variable normaliseString : string -> string.
Variable str_of_float : Q -> string.
Variable checkRunID : string -> result string.
Variable generateUniqueRunIDForModel : model -> Q -> string.
Variable clearLogDirectory : string -> file_system -> file_system.
Variable earlyStoppingStatus_of_losses : list pyfloat -> nat -> bool * nat.
Variable formatTime : Q -> string.

Variable self : model.
Variable a : Train.train_arguments.
Variable obs : Train.observations.

Let locate :=
  Train.locate normaliseString str_of_float checkRunID
               generateUniqueRunIDForModel clearLogDirectory formatTime
               self a obs.
Let prepare :=
  Train.prepare normaliseString str_of_float checkRunID
                earlyStoppingStatus_of_losses self a obs.
Let set_up :=
  Train.set_up normaliseString str_of_float checkRunID
               generateUniqueRunIDForModel clearLogDirectory
               earlyStoppingStatus_of_losses formatTime self a obs.

Lemma quiet_now : Train.quiet (Train.now obs).
Proof. intros st o st' H. injection H as _ <-. split; reflexivity. Qed.

Lemma quiet_locate : Train.quiet locate.
Proof.
  unfold locate, Train.locate, Train.choose_directories.
  apply quiet_bind; [apply quiet_now|intros ?]. quiet.
Qed.

Lemma quiet_prepare (l : Train.located) : Train.quiet (prepare l).
Proof.
  unfold prepare, Train.prepare, Train.restore_early_stopping,
    Train.earlyStoppingStatus.
  quiet.
Qed.

Lemma quiet_set_up : Train.quiet set_up.
Proof.
  unfold set_up, Train.set_up.
  apply quiet_bind; [apply quiet_locate|intros l; apply quiet_prepare].
Qed.

(** A set-up that reaches the directories has evaluated the model name. *)
Lemma locate_name (st st' : Train.state) (l : Train.located) :
  locate st = (Train.Continue l, st') ->
  exists model_name, name normaliseString str_of_float self = Return model_name.
Proof.
  unfold locate, Train.locate. intros H.
  apply mbind_continue in H. destruct H as (start & s1 & _ & H).
  apply mbind_continue in H. destruct H as (run_id & s2 & _ & H).
  apply mbind_continue in H. destruct H as (directory & s3 & H & _).
  unfold Train.lift, logDirectory in H.
  destruct (name normaliseString str_of_float self) as [model_name|e];
    [now exists model_name|].
  cbn [bind] in H. discriminate H.
Qed.

(** What the set-up hands over, when it gets to the training loop. *)
Lemma prepare_status (l : Train.located) (st st' : Train.state)
      (p : Train.prepared) :
  prepare l st = (Train.Continue p, st') ->
  Train.prepared_status p
  = Train.with_epochs_trained a (Train.located_status l) (Train.epoch_start p)
  /\ Train.prepared_run_id p = Train.located_run_id l.
Proof.
  unfold prepare, Train.prepare. intros H.
  destruct (Train.number_of_epochs a
            <=? Train.directories_epoch_start (Train.located_directories l))%nat;
    [discriminate H|].
  repeat (apply mbind_continue in H; destruct H as (? & ? & _ & H)).
  injection H as <- _. split; reflexivity.
Qed.

Lemma locate_status (st st' : Train.state) (l : Train.located) :
  locate st = (Train.Continue l, st') ->
  Train.located_status l
  = Train.initial_status formatTime a
      (Train.time obs (Train.optimizer_steps st)).
Proof.
  unfold locate, Train.locate. intros H.
  apply mbind_continue in H. destruct H as (start & s1 & Hnow & H).
  injection Hnow as <- <-.
  repeat (apply mbind_continue in H; destruct H as (? & ? & _ & H)).
  injection H as <- _. reflexivity.
Qed.

Lemma set_up_prepared (st st' : Train.state) (p : Train.prepared) :
  set_up st = (Train.Continue p, st') ->
  (exists model_name,
      name normaliseString str_of_float self = Return model_name)
  /\ Train.epochs_trained (Train.prepared_status p)
     = Some (Train.epochs_string (Train.epoch_start p)
                                 (Train.number_of_epochs a))
  /\ Train.completed (Train.prepared_status p) = false
  /\ Train.message (Train.prepared_status p) = None
  /\ Train.optimizer_steps st' = Train.optimizer_steps st
  /\ Train.history st' = Train.history st.
Proof.
  intros H.
  destruct (quiet_set_up _ _ _ H) as [Hsteps Hhistory].
  unfold set_up, Train.set_up in H.
  apply mbind_continue in H. destruct H as (l & s1 & Hlocate & Hprepare).
  destruct (prepare_status _ _ _ _ Hprepare) as [Hstatus _].
  split; [apply (locate_name _ _ _ Hlocate)|].
  rewrite Hstatus, (locate_status _ _ _ Hlocate).
  repeat split; assumption.
Qed.

End SetUpFacts.

(** *** The training loop *)

Lemma advance_zero (st : Train.state) : Train.advance 0 st = st.
Proof. destruct st. reflexivity. Qed.

Lemma advance_step (n : nat) (st : Train.state) :
  Train.advance n (Train.advance 1 st) = Train.advance (S n) st.
Proof.
  unfold Train.advance. cbn [Train.fs Train.global_step Train.optimizer_steps
                             Train.early Train.history].
  f_equal; lia.
Qed.

Ltac run_epoch :=
  cbv beta iota zeta
      delta [Train.mbind Train.now Train.lift Train.get Train.when
             Train.modify_fs Train.set_early Train.log_epoch Train.ret
             Train.advance Train.fs Train.global_step Train.optimizer_steps
             Train.early Train.history andb].

Section TrainFacts.

Variable normaliseString : string -> string.
Variable str_of_float : Q -> string.
Variable checkRunID : string -> result string.
Variable generateUniqueRunIDForModel : model -> Q -> string.
Variable clearLogDirectory : string -> file_system -> file_system.
Variable copyModelDirectory : checkpoint -> string -> file_system -> file_system.
Variable removeOldCheckpoints : string -> file_system -> file_system.
Variable earlyStoppingStatus_of_losses : list pyfloat -> nat -> bool * nat.
Variable formatDuration : Q -> string.
Variable formatTime : Q -> string.
Variable output_at_step : nat -> list Z.

Variable self : model.
Variable a : Train.train_arguments.
Variable obs : Train.observations.

Section Loop.

Variable p : Train.prepared.

Let batch_loop := Train.batch_loop formatDuration output_at_step a obs p.
Let first_nan := Train.first_nan output_at_step a obs.

(** The status with which the run leaves at the optimizer step [steps]. *)
Let nan_status (steps : nat) (training_time_start epoch_time_start : Q)
  : Train.status :=
  Train.loss_became_nan formatDuration (Train.prepared_status p)
    (Train.time obs steps - training_time_start)%Q
    (Train.time obs steps - epoch_time_start)%Q.

(** The rest of the batches, after one step without an exit. *)
Lemma after_step (epoch : nat) (tts ets : Q) (rest : list nat)
      (st : Train.state) :
  match first_nan (Train.global_step (Train.advance 1 st)) epoch rest with
  | None =>
      (Train.Continue tt,
       Train.advance (List.length rest) (Train.advance 1 st))
  | Some k =>
      (Train.Stop
         (Train.EarlyReturn
            (nan_status (S k + Train.optimizer_steps (Train.advance 1 st))
                        tts ets,
             Train.prepared_run_id p)),
       Train.advance (S k) (Train.advance 1 st))
  end
  = match option_map S (first_nan (S (Train.global_step st)) epoch rest) with
    | None => (Train.Continue tt, Train.advance (S (List.length rest)) st)
    | Some k =>
        (Train.Stop
           (Train.EarlyReturn
              (nan_status (S k + Train.optimizer_steps st) tts ets,
               Train.prepared_run_id p)),
         Train.advance (S k) st)
    end.
Proof.
  change (Train.global_step (Train.advance 1 st))
    with (S (Train.global_step st)).
  change (Train.optimizer_steps (Train.advance 1 st))
    with (S (Train.optimizer_steps st)).
  destruct (first_nan (S (Train.global_step st)) epoch rest) as [k|];
    cbn [option_map]; rewrite advance_step; [|reflexivity].
  rewrite Nat.add_succ_r. reflexivity.
Qed.

Lemma batch_loop_first_nan (epoch : nat) (tts ets : Q) (batches : list nat) :
  has_labels (Train.training_set a) = true ->
  forall st,
    batch_loop epoch tts ets batches st
    = match first_nan (Train.global_step st) epoch batches with
      | None => (Train.Continue tt, Train.advance (List.length batches) st)
      | Some k =>
          (Train.Stop
             (Train.EarlyReturn
                (nan_status (S k + Train.optimizer_steps st) tts ets,
                 Train.prepared_run_id p)),
           Train.advance (S k) st)
      end.
Proof.
  intros Hlabels. unfold batch_loop, first_nan.
  induction batches as [|i rest IH]; intros st.
  - cbn [Train.batch_loop Train.first_nan List.length].
    now rewrite advance_zero.
  - cbn [Train.batch_loop Train.first_nan List.length].
    unfold Train.mbind at 1. cbn [Train.get].
    rewrite Hlabels.
    unfold Train.mbind at 1. cbn [Train.lift].
    unfold Train.mbind at 1. cbn [Train.run_train_op].
    change {| Train.fs := Train.fs st;
              Train.global_step := S (Train.global_step st);
              Train.optimizer_steps := S (Train.optimizer_steps st);
              Train.early := Train.early st;
              Train.history := Train.history st |}
      with (Train.advance 1 st).
    destruct (Train.monitored output_at_step a (Train.global_step st) epoch)
      eqn:Hmon; cbn [andb].
    + destruct (isnan (Train.batch_loss obs epoch i)) eqn:Hnan.
      * unfold Train.mbind, Train.now, Train.early_return. reflexivity.
      * rewrite IH. apply after_step.
    + rewrite IH. apply after_step.
Qed.

Let epoch_body :=
  Train.epoch_body normaliseString str_of_float copyModelDirectory
                   removeOldCheckpoints formatDuration output_at_step
                   self a obs p.
Let batches := Train.batch_starts (Train.M_train a) (Train.batch_size a).

Lemma evaluation_pass_succeeds (M_examples : nat) :
  M_examples <> 0 -> Train.evaluation_pass M_examples = Return tt.
Proof.
  intros H. unfold Train.evaluation_pass.
  destruct (Nat.eqb_spec M_examples 0); [contradiction|reflexivity].
Qed.

Lemma plot_intermediate_results_succeeds (model_name : string) (epoch : nat) :
  name normaliseString str_of_float self = Return model_name ->
  Train.plotting_interval a <> Some 0 ->
  Train.plot_intermediate_results normaliseString str_of_float self a epoch
  = Return tt.
Proof.
  intros Hname Hplot. unfold Train.plot_intermediate_results.
  rewrite Hname.
  destruct (Train.plotting_interval a) as [[|n]|];
    [contradiction|reflexivity|reflexivity].
Qed.

(** An epoch with a monitored not-a-number loss leaves [train] at that
    step. *)
Lemma epoch_body_nan (tts : Q) (epoch k : nat) (st : Train.state) :
  has_labels (Train.training_set a) = true ->
  first_nan (Train.global_step st) epoch batches = Some k ->
  epoch_body tts epoch st
  = (Train.Stop
       (Train.EarlyReturn
          (nan_status (S k + Train.optimizer_steps st) tts
                      (Train.time obs (Train.optimizer_steps st)),
           Train.prepared_run_id p)),
     Train.advance (S k) st).
Proof.
  intros Hlabels Hnan.
  unfold epoch_body, Train.epoch_body.
  unfold Train.mbind at 1. cbn [Train.now].
  unfold Train.mbind at 1.
  pose proof (batch_loop_first_nan epoch tts
                (Train.time obs (Train.optimizer_steps st)) batches Hlabels st)
    as Hloop.
  unfold batch_loop, batches in Hloop. rewrite Hloop.
  unfold first_nan, batches in Hnan. unfold first_nan. rewrite Hnan.
  reflexivity.
Qed.

(** An epoch without one runs all its batches and updates the
    early-stopping variables. *)
Lemma epoch_body_completes (model_name : string) (tts : Q) (epoch : nat)
      (st : Train.state) :
  Train.passes_succeed a ->
  name normaliseString str_of_float self = Return model_name ->
  first_nan (Train.global_step st) epoch batches = None ->
  exists files,
    epoch_body tts epoch st
    = (Train.Continue
         (Train.time obs (List.length batches + Train.optimizer_steps st)
          - Train.time obs (Train.optimizer_steps st))%Q,
       {| Train.fs := files;
          Train.global_step := List.length batches + Train.global_step st;
          Train.optimizer_steps :=
            List.length batches + Train.optimizer_steps st;
          Train.early := Train.after_epoch self a obs epoch (Train.early st);
          Train.history :=
            append (Train.history st)
                   (Train.record_of self a obs epoch (Train.early st)) |}).
Proof.
  intros [Hlabels [Htrain [Hvalid Hplot]]] Hname Hnan.
  unfold epoch_body, Train.epoch_body.
  unfold Train.mbind at 1. cbn [Train.now].
  unfold Train.mbind at 1.
  pose proof (batch_loop_first_nan epoch tts
                (Train.time obs (Train.optimizer_steps st)) batches Hlabels st)
    as Hloop.
  unfold batch_loop, batches in Hloop. rewrite Hloop.
  unfold first_nan, batches in Hnan. unfold first_nan. rewrite Hnan.
  fold batches.
  rewrite (evaluation_pass_succeeds _ Htrain).
  rewrite (plot_intermediate_results_succeeds model_name epoch Hname Hplot).
  unfold Train.record_of, Train.after_epoch, Train.after_best_model,
    Train.after_early_stopping, Train.has_validation_set.
  destruct st as [files gs os e h].
  destruct (Train.validation_set a) as [v|] eqn:Hv.
  - cbv beta iota.
    rewrite (evaluation_pass_succeeds _ (Hvalid v eq_refl)).
    destruct (Train.not_stopped (Train.self_stopped_early e)) eqn:Hstopped;
      run_epoch; rewrite ?Hstopped; run_epoch;
      match goal with
      | |- context [float_gt ?x ?y] => destruct (float_gt x y)
      end;
      run_epoch; eexists; reflexivity.
  - run_epoch. eexists; reflexivity.
Qed.

Let epoch_loop :=
  Train.epoch_loop normaliseString str_of_float copyModelDirectory
                   removeOldCheckpoints formatDuration output_at_step
                   self a obs p.
Let steps := List.length batches.

Lemma epoch_loop_app (tts : Q) (first rest : list nat) :
  forall last st,
    epoch_loop tts (first ++ rest)%list last st
    = match epoch_loop tts first last st with
      | (Train.Continue last', st') => epoch_loop tts rest last' st'
      | (Train.Stop x, st') => (Train.Stop x, st')
      end.
Proof.
  unfold epoch_loop.
  induction first as [|epoch first IH]; intros last st; [reflexivity|].
  cbn [app Train.epoch_loop]. unfold Train.mbind at 1 2.
  destruct (Train.epoch_body _ _ _ _ _ _ _ _ _ _ _ _ st) as [[d|x] st'];
    [apply IH|reflexivity].
Qed.

(** No monitored not-a-number loss in any of the [epochs], the first of
    which starts at the global step of [st]. *)
Let clean (epochs : list nat) (st : Train.state) : Prop :=
  forall k epoch,
    nth_error epochs k = Some epoch ->
    first_nan (k * steps + Train.global_step st) epoch batches = None.

Lemma epoch_loop_completes (model_name : string) (tts : Q)
      (epochs : list nat) :
  Train.passes_succeed a ->
  name normaliseString str_of_float self = Return model_name ->
  forall last st,
    clean epochs st ->
    exists files last',
      epoch_loop tts epochs last st
      = (Train.Continue last',
         {| Train.fs := files;
            Train.global_step :=
              List.length epochs * steps + Train.global_step st;
            Train.optimizer_steps :=
              List.length epochs * steps + Train.optimizer_steps st;
            Train.early := Train.after_epochs self a obs epochs (Train.early st);
            Train.history :=
              (Train.history st
               ++ Train.records self a obs epochs (Train.early st))%list |})
      /\ (epochs = [] -> last' = last)
      /\ (epochs <> [] -> exists d, last' = Some d).
Proof.
  intros Hpasses Hname. unfold epoch_loop.
  induction epochs as [|epoch epochs IH]; intros last st Hclean.
  - exists (Train.fs st), last.
    cbn [Train.epoch_loop List.length Nat.mul Nat.add Train.after_epochs
         fold_left Train.records Train.ret].
    rewrite app_nil_r. destruct st. cbn.
    split; [reflexivity|]. split; [reflexivity|]. intros H. now elim H.
  - cbn [Train.epoch_loop]. unfold Train.mbind at 1.
    destruct (epoch_body_completes model_name tts epoch st Hpasses Hname)
      as [files Hbody].
    { apply (Hclean 0 epoch). reflexivity. }
    unfold epoch_body in Hbody. rewrite Hbody.
    match goal with
    | |- context [Train.epoch_loop _ _ _ _ _ _ _ _ _ _ _ _ (Some ?d) ?st1] =>
        destruct (IH (Some d) st1) as [files' [last' [Hloop [_ Hlast]]]]
    end.
    { intros k epoch' Hk.
      cbn [Train.global_step].
      replace (k * steps + (List.length batches + Train.global_step st))
        with (S k * steps + Train.global_step st)
        by (unfold steps; lia).
      apply Hclean. exact Hk. }
    rewrite Hloop. exists files', last'.
    cbn [Train.global_step Train.optimizer_steps Train.early Train.history
         Train.after_epochs fold_left Train.records List.length].
    split; [|split].
    + f_equal. unfold append, Train.after_epochs, steps.
      rewrite <- app_assoc. cbn [app]. f_equal; lia.
    + discriminate.
    + intros _. destruct epochs as [|e' epochs'].
      * cbn [Train.epoch_loop Train.ret] in Hloop.
        injection Hloop as <- _. eexists. reflexivity.
      * apply Hlast. discriminate.
Qed.

Lemma epoch_loop_nan (model_name : string) (tts : Q)
      (before after : list nat) (epoch k : nat) :
  Train.passes_succeed a ->
  name normaliseString str_of_float self = Return model_name ->
  forall last st,
    clean before st ->
    first_nan (List.length before * steps + Train.global_step st) epoch batches
    = Some k ->
    exists st',
      epoch_loop tts (before ++ epoch :: after)%list last st
      = (Train.Stop
           (Train.EarlyReturn
              (nan_status
                 (S k + (List.length before * steps + Train.optimizer_steps st))
                 tts
                 (Train.time obs
                    (List.length before * steps + Train.optimizer_steps st)),
               Train.prepared_run_id p)),
         st')
      /\ Train.optimizer_steps st'
         = S k + (List.length before * steps + Train.optimizer_steps st)
      /\ Train.history st'
         = (Train.history st
            ++ Train.records self a obs before (Train.early st))%list.
Proof.
  intros Hpasses Hname last st Hclean Hnan.
  rewrite epoch_loop_app.
  destruct (epoch_loop_completes model_name tts before Hpasses Hname last st
              Hclean) as [files [last' [Hloop _]]].
  rewrite Hloop.
  unfold epoch_loop. cbn [Train.epoch_loop]. unfold Train.mbind at 1.
  destruct Hpasses as [Hlabels _].
  pose proof (epoch_body_nan tts epoch k
                {| Train.fs := files;
                   Train.global_step :=
                     List.length before * steps + Train.global_step st;
                   Train.optimizer_steps :=
                     List.length before * steps + Train.optimizer_steps st;
                   Train.early :=
                     Train.after_epochs self a obs before (Train.early st);
                   Train.history :=
                     (Train.history st
                      ++ Train.records self a obs before (Train.early st))%list
                |} Hlabels Hnan) as Hbody.
  unfold epoch_body in Hbody. rewrite Hbody.
  eexists. split; [reflexivity|]. split; reflexivity.
Qed.

End Loop.

(** *** From the observations to the first not-a-number loss *)

Let first_nan := Train.first_nan output_at_step a obs.
Let batches := Train.batch_starts (Train.M_train a) (Train.batch_size a).
Let steps := Train.steps_per_epoch (Train.M_train a) (Train.batch_size a).

Lemma length_batches : List.length batches = steps.
Proof.
  unfold batches, Train.batch_starts. now rewrite length_map, length_seq.
Qed.

Lemma nth_error_batches (j i : nat) :
  nth_error batches j = Some i <-> j < steps /\ i = j * Train.batch_size a.
Proof.
  unfold batches, Train.batch_starts. fold steps.
  rewrite nth_error_map, nth_error_seq.
  destruct (Nat.ltb_spec j steps) as [Hlt|Hge]; cbn [option_map Nat.add].
  - split; [intros H; injection H as <-; now split|].
    intros [_ ->]. reflexivity.
  - split; [discriminate|]. intros [Hlt _]. lia.
Qed.

Lemma first_nan_None (epoch : nat) (l : list nat) :
  forall step,
    (forall j i,
        nth_error l j = Some i ->
        (Train.monitored output_at_step a (j + step) epoch
         && isnan (Train.batch_loss obs epoch i))%bool = false) ->
    first_nan step epoch l = None.
Proof.
  unfold first_nan.
  induction l as [|i l IH]; intros step H; [reflexivity|].
  cbn [Train.first_nan].
  pose proof (H 0 i eq_refl) as H0. cbn [Nat.add] in H0. rewrite H0.
  rewrite IH; [reflexivity|].
  intros j i' Hj. rewrite <- Nat.add_succ_comm. apply (H (S j) i' Hj).
Qed.

Lemma first_nan_Some (epoch : nat) (l : list nat) :
  forall step j i,
    nth_error l j = Some i ->
    (forall j' i',
        j' < j -> nth_error l j' = Some i' ->
        (Train.monitored output_at_step a (j' + step) epoch
         && isnan (Train.batch_loss obs epoch i'))%bool = false) ->
    (Train.monitored output_at_step a (j + step) epoch
     && isnan (Train.batch_loss obs epoch i))%bool = true ->
    first_nan step epoch l = Some j.
Proof.
  unfold first_nan.
  induction l as [|i0 l IH]; intros step j i Hj Hbefore Hnan.
  - destruct j; discriminate Hj.
  - cbn [Train.first_nan]. destruct j as [|j].
    + injection Hj as ->. cbn [Nat.add] in Hnan. now rewrite Hnan.
    + pose proof (Hbefore 0 i0 (Nat.lt_0_succ j) eq_refl) as H0.
      cbn [Nat.add] in H0. rewrite H0.
      rewrite (IH (S step) j i Hj); [reflexivity| |].
      * intros j' i' Hlt Hj'. rewrite <- Nat.add_succ_comm.
        apply (Hbefore (S j') i'); [lia|exact Hj'].
      * rewrite <- Nat.add_succ_comm. exact Hnan.
Qed.

(** The epochs before the first not-a-number loss are clean, and its epoch
    has it at step [j]. *)
Lemma first_nan_at_clean (first_step first_epoch epoch j : nat) :
  Train.first_nan_at output_at_step a obs first_step first_epoch epoch j ->
  (forall k epoch',
      nth_error (seq first_epoch (epoch - first_epoch)) k = Some epoch' ->
      first_nan (k * List.length batches + first_step) epoch' batches = None)
  /\ first_nan (List.length (seq first_epoch (epoch - first_epoch))
                * List.length batches + first_step) epoch batches
     = Some j.
Proof.
  intros [Hrange [Hj [Hnan Hfirst]]].
  rewrite length_batches, length_seq. split.
  - intros k epoch' Hk. rewrite nth_error_seq in Hk.
    destruct (Nat.ltb_spec k (epoch - first_epoch)) as [Hlt|_];
      [|discriminate Hk].
    injection Hk as <-.
    apply first_nan_None. intros j' i Hi.
    apply nth_error_batches in Hi. destruct Hi as [Hj' ->].
    specialize (Hfirst (first_epoch + k) j' Hj').
    unfold Train.nan_observed in Hfirst. fold steps in Hfirst.
    replace (first_epoch + k - first_epoch) with k in Hfirst by lia.
    apply Hfirst. left. lia.
  - apply (first_nan_Some epoch batches _ j (j * Train.batch_size a)).
    + apply nth_error_batches. now split.
    + intros j' i Hlt Hi.
      apply nth_error_batches in Hi. destruct Hi as [Hj' ->].
      specialize (Hfirst epoch j' Hj').
      unfold Train.nan_observed in Hfirst. fold steps in Hfirst.
      apply Hfirst. right. now split.
    + exact Hnan.
Qed.

(** *** Runs of [train] *)

Let train :=
  Train.train normaliseString str_of_float checkRunID
              generateUniqueRunIDForModel clearLogDirectory copyModelDirectory
              removeOldCheckpoints earlyStoppingStatus_of_losses
              formatDuration formatTime output_at_step self a obs.
Let locate :=
  Train.locate normaliseString str_of_float checkRunID
               generateUniqueRunIDForModel clearLogDirectory formatTime
               self a obs.
Let set_up :=
  Train.set_up normaliseString str_of_float checkRunID
               generateUniqueRunIDForModel clearLogDirectory
               earlyStoppingStatus_of_losses formatTime self a obs.

Lemma length_records (epochs : list nat) :
  forall e, List.length (Train.records self a obs epochs e) = List.length epochs.
Proof.
  induction epochs as [|epoch epochs IH]; intros e; [reflexivity|].
  cbn [Train.records List.length]. now rewrite IH.
Qed.

(** C5.  When the epoch recovered from the checkpoints is at least the
    requested number of epochs, [train] returns a status that is completed,
    with "nan" durations and the two epoch numbers, in the state in which
    the checkpoints were looked up: no optimizer step has run and no epoch
    has been trained. *)
Theorem train_already_trained (files : file_system) (l : Train.located)
        (st1 : Train.state) :
  locate (Train.initial_state self files) = (Train.Continue l, st1) ->
  Train.number_of_epochs a
  <= Train.directories_epoch_start (Train.located_directories l) ->
  exists s,
    train files = (Return (s, Train.located_run_id l), st1)
    /\ Train.completed s = true
    /\ Train.epochs_trained s
       = Some (Train.epochs_string
                 (Train.directories_epoch_start (Train.located_directories l))
                 (Train.number_of_epochs a))
    /\ Train.training_duration s = Some "nan"
    /\ Train.last_epoch_duration s = Some "nan"
    /\ Train.optimizer_steps st1 = 0
    /\ Train.history st1 = [].
Proof.
  intros Hlocate Hepochs.
  destruct (quiet_locate normaliseString str_of_float checkRunID
              generateUniqueRunIDForModel clearLogDirectory formatTime
              self a obs _ _ _ Hlocate) as [Hsteps Hhistory].
  cbn [Train.initial_state Train.optimizer_steps Train.history]
    in Hsteps, Hhistory.
  eexists. split.
  - unfold train, Train.train, Train.train_body, Train.set_up.
    unfold Train.mbind at 1. unfold Train.mbind at 1.
    unfold locate in Hlocate. rewrite Hlocate.
    unfold Train.prepare.
    destruct (Nat.leb_spec (Train.number_of_epochs a)
                (Train.directories_epoch_start (Train.located_directories l)))
      as [_|Hlt]; [reflexivity|lia].
  - repeat split; assumption.
Qed.

(** C4, as amended.  When the set-up has reached the training loop and the
    training loss is first observed not-a-number, at a monitored step, at
    step [j] of [epoch], [train] returns at that step, without raising: the
    status is not completed, carries the message and the two durations up
    to that step, and its "epochs trained" is the range from the epoch the
    run started from to the requested number of epochs; the optimizer has
    run the steps of the epochs before and [j + 1] steps of this one. *)
Theorem train_loss_became_nan (files : file_system) (p : Train.prepared)
        (st1 : Train.state) (epoch j : nat) :
  set_up (Train.initial_state self files) = (Train.Continue p, st1) ->
  Train.passes_succeed a ->
  Train.first_nan_at output_at_step a obs (Train.global_step st1)
                     (Train.epoch_start p) epoch j ->
  exists s st2,
    train files = (Return (s, Train.prepared_run_id p), st2)
    /\ Train.completed s = false
    /\ Train.message s = Some "loss became nan"
    /\ Train.optimizer_steps st2
       = S j + (epoch - Train.epoch_start p) * steps
    /\ Train.training_duration s
       = Some (formatDuration
                 (Train.time obs (Train.optimizer_steps st2)
                  - Train.time obs 0)%Q)
    /\ Train.last_epoch_duration s
       = Some (formatDuration
                 (Train.time obs (Train.optimizer_steps st2)
                  - Train.time obs ((epoch - Train.epoch_start p) * steps))%Q)
    /\ Train.epochs_trained s
       = Some (Train.epochs_string (Train.epoch_start p)
                                   (Train.number_of_epochs a))
    /\ List.length (Train.history st2) = epoch - Train.epoch_start p.
Proof.
  intros Hsetup Hpasses Hnan.
  destruct (set_up_prepared normaliseString str_of_float checkRunID
              generateUniqueRunIDForModel clearLogDirectory
              earlyStoppingStatus_of_losses formatTime self a obs _ _ _ Hsetup)
    as [[model_name Hname] [Hepochs [_ [_ [Hsteps Hhistory]]]]].
  cbn [Train.initial_state Train.optimizer_steps Train.history]
    in Hsteps, Hhistory.
  destruct (first_nan_at_clean _ _ _ _ Hnan) as [Hclean Hfirst].
  destruct Hnan as [[Hge Hlt] _].
  set (before := seq (Train.epoch_start p) (epoch - Train.epoch_start p))
    in *.
  set (after := seq (S epoch) (Train.number_of_epochs a - S epoch)).
  destruct (epoch_loop_nan p model_name
              (Train.time obs (Train.optimizer_steps st1))
              before after epoch j Hpasses Hname None st1 Hclean Hfirst)
    as [st2 [Hloop [Hsteps2 Hhistory2]]].
  assert (Hsplit : Train.epochs_to_train a p
                   = (before ++ epoch :: after)%list).
  { unfold Train.epochs_to_train, before, after.
    replace (Train.number_of_epochs a - Train.epoch_start p)
      with ((epoch - Train.epoch_start p)
            + S (Train.number_of_epochs a - S epoch)) by lia.
    rewrite seq_app. cbn [seq].
    replace (Train.epoch_start p + (epoch - Train.epoch_start p))
      with epoch by lia.
    reflexivity. }
  assert (Hbefore : List.length before = epoch - Train.epoch_start p).
  { unfold before. apply length_seq. }
  pose proof length_batches as Hlength. unfold batches in Hlength.
  rewrite Hbefore, Hlength, Hsteps in Hsteps2.
  eexists. exists st2.
  split.
  - unfold train, Train.train, Train.train_body.
    unfold Train.mbind at 1. unfold set_up in Hsetup. rewrite Hsetup.
    unfold Train.training_loop. unfold Train.mbind at 1. cbn [Train.now].
    unfold Train.mbind at 1. rewrite Hsplit, Hloop. reflexivity.
  - cbn [Train.loss_became_nan Train.completed Train.message
         Train.training_duration Train.last_epoch_duration
         Train.epochs_trained].
    rewrite Hbefore, Hlength, Hsteps, Hsteps2, Hhistory2, Hhistory, Hepochs.
    rewrite Nat.add_0_r.
    cbn [app]. rewrite length_records, Hbefore.
    repeat split.
Qed.

(** *** Early stopping *)

Lemma early_stopping_variables_triggers (ELBO_valid : pyfloat)
      (e : Train.early_stopping) (n : nat) :
  Train.epochs_with_no_improvement e = Some n ->
  float_lt ELBO_valid (Train.ELBO_valid_early_stopping e) = true ->
  early_stopping_rounds self <= S n ->
  Train.self_stopped_early (Train.early_stopping_variables self ELBO_valid e)
  = Some true.
Proof.
  intros Hn Hlt Hrounds. unfold Train.early_stopping_variables.
  rewrite Hlt, Hn.
  cbn [Train.epochs_with_no_improvement option_map Train.counter_reached].
  destruct (Nat.leb_spec (early_stopping_rounds self) (S n)); [reflexivity|lia].
Qed.

Lemma after_best_model_keeps (epoch : nat) (e : Train.early_stopping) :
  Train.self_stopped_early (Train.after_best_model a obs epoch e)
  = Train.self_stopped_early e
  /\ Train.ELBO_valid_early_stopping (Train.after_best_model a obs epoch e)
     = Train.ELBO_valid_early_stopping e
  /\ Train.epochs_with_no_improvement (Train.after_best_model a obs epoch e)
     = Train.epochs_with_no_improvement e.
Proof.
  unfold Train.after_best_model.
  destruct (Train.has_validation_set a && _)%bool; repeat split.
Qed.

Lemma after_epoch_keeps (epoch : nat) (e : Train.early_stopping) :
  Train.self_stopped_early (Train.after_epoch self a obs epoch e)
  = Train.self_stopped_early (Train.after_early_stopping self a obs epoch e)
  /\ Train.ELBO_valid_early_stopping (Train.after_epoch self a obs epoch e)
     = Train.ELBO_valid_early_stopping
         (Train.after_early_stopping self a obs epoch e)
  /\ Train.epochs_with_no_improvement (Train.after_epoch self a obs epoch e)
     = Train.epochs_with_no_improvement
         (Train.after_early_stopping self a obs epoch e).
Proof.
  unfold Train.after_epoch.
  destruct (after_best_model_keeps
              epoch (Train.after_early_stopping self a obs epoch e))
    as [H1 [H2 H3]].
  destruct (Train.has_validation_set a); cbn; repeat split; assumption.
Qed.

Lemma after_early_stopping_stopped (epoch : nat) (e : Train.early_stopping) :
  Train.self_stopped_early e = Some true ->
  Train.after_early_stopping self a obs epoch e = e.
Proof.
  intros H. unfold Train.after_early_stopping. rewrite H.
  cbn [Train.not_stopped]. now rewrite andb_false_r.
Qed.

(** Once set, the flag stays and the early-stopping reference is frozen. *)
Lemma after_epochs_stopped (epochs : list nat) :
  forall e,
    Train.self_stopped_early e = Some true ->
    Train.self_stopped_early (Train.after_epochs self a obs epochs e)
    = Some true
    /\ Train.ELBO_valid_early_stopping (Train.after_epochs self a obs epochs e)
       = Train.ELBO_valid_early_stopping e
    /\ Train.epochs_with_no_improvement
         (Train.after_epochs self a obs epochs e)
       = Train.epochs_with_no_improvement e.
Proof.
  unfold Train.after_epochs.
  induction epochs as [|epoch epochs IH]; intros e H; [now repeat split|].
  cbn [fold_left].
  destruct (after_epoch_keeps epoch e) as [H1 [H2 H3]].
  rewrite (after_early_stopping_stopped epoch e H) in H1, H2, H3.
  destruct (IH (Train.after_epoch self a obs epoch e)) as [G1 [G2 G3]];
    [congruence|].
  repeat split; congruence.
Qed.

Lemma entering_stopped (epochs : list nat) :
  forall e i j,
    i <= j ->
    Train.self_stopped_early (Train.entering self a obs epochs i e)
    = Some true ->
    Train.self_stopped_early (Train.entering self a obs epochs j e)
    = Some true
    /\ Train.ELBO_valid_early_stopping (Train.entering self a obs epochs j e)
       = Train.ELBO_valid_early_stopping
           (Train.entering self a obs epochs i e)
    /\ Train.epochs_with_no_improvement
         (Train.entering self a obs epochs j e)
       = Train.epochs_with_no_improvement
           (Train.entering self a obs epochs i e).
Proof.
  unfold Train.entering.
  induction epochs as [|epoch epochs IH]; intros e i j Hle H.
  - rewrite !firstn_nil in *. now repeat split.
  - destruct i as [|i].
    + cbn [firstn Train.after_epochs fold_left] in *.
      apply after_epochs_stopped. exact H.
    + destruct j as [|j]; [lia|].
      cbn [firstn Train.after_epochs fold_left] in *.
      apply (IH _ i j); [lia|exact H].
Qed.

Lemma nth_error_records (epochs : list nat) :
  forall e i,
    nth_error (Train.records self a obs epochs e) i
    = option_map
        (fun epoch =>
           Train.record_of self a obs epoch
                           (Train.entering self a obs epochs i e))
        (nth_error epochs i).
Proof.
  unfold Train.entering.
  induction epochs as [|epoch epochs IH]; intros e i.
  - destruct i; reflexivity.
  - destruct i as [|i]; [reflexivity|].
    cbn [Train.records nth_error firstn Train.after_epochs fold_left].
    apply IH.
Qed.

Lemma entering_succ (epochs : list nat) :
  forall e i epoch,
    nth_error epochs i = Some epoch ->
    Train.entering self a obs epochs (S i) e
    = Train.after_epoch self a obs epoch
        (Train.entering self a obs epochs i e).
Proof.
  unfold Train.entering.
  induction epochs as [|epoch0 epochs IH]; intros e i epoch Hi.
  - destruct i; discriminate Hi.
  - destruct i as [|i].
    + injection Hi as ->. reflexivity.
    + cbn [firstn Train.after_epochs fold_left].
      apply (IH _ i epoch Hi).
Qed.

(** A run without any not-a-number loss trains every epoch and completes. *)
Lemma training_loop_completes (model_name : string) (p : Train.prepared)
      (st1 : Train.state) :
  Train.passes_succeed a ->
  name normaliseString str_of_float self = Return model_name ->
  Train.epoch_start p < Train.number_of_epochs a ->
  (forall epoch i, isnan (Train.batch_loss obs epoch i) = false) ->
  exists s files,
    Train.training_loop normaliseString str_of_float copyModelDirectory
                        removeOldCheckpoints formatDuration output_at_step
                        self a obs p st1
    = (Train.Continue (s, Train.prepared_run_id p),
       {| Train.fs := files;
          Train.global_step :=
            List.length (Train.epochs_to_train a p) * steps
            + Train.global_step st1;
          Train.optimizer_steps :=
            List.length (Train.epochs_to_train a p) * steps
            + Train.optimizer_steps st1;
          Train.early :=
            Train.after_epochs self a obs (Train.epochs_to_train a p)
                               (Train.early st1);
          Train.history :=
            (Train.history st1
             ++ Train.records self a obs (Train.epochs_to_train a p)
                              (Train.early st1))%list |})
    /\ Train.completed s = true
    /\ Train.epochs_trained s
       = Train.epochs_trained (Train.prepared_status p).
Proof.
  intros Hpasses Hname Hleft Hclean.
  pose proof length_batches as Hlength. unfold batches in Hlength.
  destruct (epoch_loop_completes p model_name
              (Train.time obs (Train.optimizer_steps st1))
              (Train.epochs_to_train a p) Hpasses Hname None st1)
    as [files [last [Hloop [_ Hlast]]]].
  { intros k epoch _. apply first_nan_None. intros j i _.
    rewrite Hclean. apply andb_false_r. }
  destruct Hlast as [d ->].
  { unfold Train.epochs_to_train.
    destruct (Train.number_of_epochs a - Train.epoch_start p) eqn:E;
      [lia|discriminate]. }
  rewrite Hlength in Hloop.
  unfold Train.training_loop. unfold Train.mbind at 1. cbn [Train.now].
  unfold Train.mbind at 1. rewrite Hloop.
  destruct (Train.truthy (Train.temporary_log_directory a));
    run_epoch;
    try match goal with
        | |- context [path_exists ?f ?d] => destruct (path_exists f d)
        end;
    run_epoch;
    eexists; eexists; (split; [reflexivity|split; reflexivity]).
Qed.

(** C6, as amended.  In a run with a validation set that the set-up has
    brought to the training loop and in which no loss is not-a-number,
    every epoch up to the requested number is trained.  An epoch that is
    entered with [n] epochs without improvement, that does not improve on
    the early-stopping reference, and with which the count reaches
    [early_stopping_rounds], sets [stopped_early].  From an epoch that
    leaves the flag set, every later epoch leaves it set, skips the
    early-stopping comparison and keeps the early-stopping reference, while
    the best-model comparison is still made and still decides whether the
    best checkpoint is saved. *)
Theorem early_stopping_persists (files : file_system) (p : Train.prepared)
        (st1 : Train.state) :
  set_up (Train.initial_state self files) = (Train.Continue p, st1) ->
  Train.passes_succeed a ->
  Train.has_validation_set a = true ->
  Train.epoch_start p < Train.number_of_epochs a ->
  (forall epoch i, isnan (Train.batch_loss obs epoch i) = false) ->
  exists s st2,
    train files = (Return (s, Train.prepared_run_id p), st2)
    /\ Train.completed s = true
    /\ Train.history st2
       = Train.records self a obs (Train.epochs_to_train a p) (Train.early st1)
    /\ List.length (Train.history st2)
       = Train.number_of_epochs a - Train.epoch_start p
    /\ (forall i epoch n r,
          nth_error (Train.epochs_to_train a p) i = Some epoch ->
          let e := Train.entering self a obs (Train.epochs_to_train a p) i
                                  (Train.early st1) in
          Train.not_stopped (Train.self_stopped_early e) = true ->
          Train.epochs_with_no_improvement e = Some n ->
          float_lt (Train.validation_ELBO obs epoch)
                   (Train.ELBO_valid_early_stopping e) = true ->
          early_stopping_rounds self <= S n ->
          nth_error (Train.history st2) i = Some r ->
          Train.self_stopped_early (Train.record_state r) = Some true)
    /\ (forall i j r r',
          i < j ->
          nth_error (Train.history st2) i = Some r ->
          nth_error (Train.history st2) j = Some r' ->
          Train.self_stopped_early (Train.record_state r) = Some true ->
          Train.self_stopped_early (Train.record_state r') = Some true
          /\ Train.record_early_stopping_compared r' = false
          /\ Train.ELBO_valid_early_stopping (Train.record_state r')
             = Train.ELBO_valid_early_stopping (Train.record_state r)
          /\ Train.record_best_compared r' = true
          /\ Train.record_best_saved r'
             = float_gt (Train.record_ELBO_valid r')
                        (Train.ELBO_valid_maximum
                           (Train.entering self a obs
                              (Train.epochs_to_train a p) j
                              (Train.early st1)))).
Proof.
  intros Hsetup Hpasses Hvalidation Hleft Hclean.
  destruct (set_up_prepared normaliseString str_of_float checkRunID
              generateUniqueRunIDForModel clearLogDirectory
              earlyStoppingStatus_of_losses formatTime self a obs _ _ _ Hsetup)
    as [[model_name Hname] [_ [_ [_ [_ Hhistory]]]]].
  cbn [Train.initial_state Train.history] in Hhistory.
  destruct (training_loop_completes model_name p st1 Hpasses Hname Hleft
              Hclean) as [s [files' [Hloop [Hcompleted _]]]].
  set (epochs := Train.epochs_to_train a p) in *.
  set (e1 := Train.early st1) in *.
  eexists s, _.
  split.
  { unfold train, Train.train, Train.train_body.
    unfold Train.mbind at 1. unfold set_up in Hsetup. rewrite Hsetup.
    rewrite Hloop. reflexivity. }
  cbn [Train.history]. rewrite Hhistory. cbn [app].
  split; [exact Hcompleted|]. split; [reflexivity|].
  split.
  { rewrite length_records. unfold epochs, Train.epochs_to_train.
    apply length_seq. }
  split.
  - intros i epoch n r Hi Hnot Hn Hlt Hrounds Hr.
    set (e := Train.entering self a obs epochs i e1) in *.
    rewrite nth_error_records, Hi in Hr. cbn [option_map] in Hr.
    injection Hr as <-. cbn [Train.record_of Train.record_state].
    fold e.
    destruct (after_epoch_keeps epoch e) as [-> _].
    unfold Train.after_early_stopping.
    rewrite Hvalidation, Hnot. cbn [andb].
    apply (early_stopping_variables_triggers _ e n Hn Hlt Hrounds).
  - intros i j r r' Hij Hr Hr' Hstopped.
    rewrite nth_error_records in Hr, Hr'.
    destruct (nth_error epochs i) as [epoch|] eqn:Hi; [|discriminate Hr].
    destruct (nth_error epochs j) as [epoch'|] eqn:Hj; [|discriminate Hr'].
    cbn [option_map] in Hr, Hr'. injection Hr as <-. injection Hr' as <-.
    cbn [Train.record_of Train.record_state] in Hstopped.
    rewrite <- (entering_succ epochs e1 i epoch Hi) in Hstopped.
    destruct (entering_stopped epochs e1 (S i) j Hij Hstopped)
      as [Hj1 [Hj2 Hj3]].
    cbn [Train.record_of Train.record_state
         Train.record_early_stopping_compared Train.record_best_compared
         Train.record_best_saved Train.record_ELBO_valid].
    rewrite <- (entering_succ epochs e1 i epoch Hi).
    destruct (after_epoch_keeps epoch' (Train.entering self a obs epochs j e1))
      as [-> [-> _]].
    rewrite (after_early_stopping_stopped epoch' _ Hj1).
    rewrite Hj1, Hj2, Hvalidation. cbn [Train.not_stopped andb].
    repeat split.
Qed.

End TrainFacts.

(** *** Concrete runs *)

(** Two runs of ten requested epochs whose loss becomes not-a-number in
    the third and in the sixth epoch: both report "0-10" as the epochs
    trained, after two and after five completed epochs. *)
Lemma epochs_trained_is_the_requested_range :
  let run nan_from :=
    Examples.train (Examples.constructed 0 1)
                   (Examples.train_arguments 10 false)
                   (Examples.observations (Some nan_from) Examples.degrading)
                   Examples.no_files in
  (exists s,
      fst (run 2) = Return (s, None)
      /\ Train.completed s = false
      /\ Train.message s = Some "loss became nan"
      /\ Train.epochs_trained s = Some "0-10")
  /\ List.length (Train.history (snd (run 2))) = 2
  /\ (exists s,
         fst (run 5) = Return (s, None)
         /\ Train.completed s = false
         /\ Train.message s = Some "loss became nan"
         /\ Train.epochs_trained s = Some "0-10")
  /\ List.length (Train.history (snd (run 5))) = 5.
Proof.
  intros run. split; [|split; [|split]].
  - eexists. split; [vm_compute; reflexivity|]. repeat split.
  - vm_compute. reflexivity.
  - eexists. split; [vm_compute; reflexivity|]. repeat split.
  - vm_compute. reflexivity.
Qed.

Lemma train_already_trained_witness :
  let self := Examples.constructed 0 1 in
  let a := Examples.train_arguments 5 false in
  let obs := Examples.observations None Examples.degrading in
  get_checkpoint_state (Examples.trained_until 5) Examples.log_directory
  = Some {| checkpoint_epoch := 5; checkpoint_global_step := 10 |}
  /\ exists s st,
       Examples.train self a obs (Examples.trained_until 5)
       = (Return (s, None), st)
       /\ Train.completed s = true
       /\ Train.optimizer_steps st = 0.
Proof.
  intros self a obs. split; [reflexivity|].
  edestruct (train_already_trained
               Examples.normaliseString Examples.str_of_float
               Examples.checkRunID Examples.generateUniqueRunIDForModel
               Examples.clearLogDirectory Examples.copyModelDirectory
               Examples.removeOldCheckpoints
               Examples.earlyStoppingStatus_of_losses
               Examples.formatDuration Examples.formatTime
               Examples.output_at_step self a obs
               (Examples.trained_until 5))
    as [s [Hrun [Hcompleted [_ [_ [_ [Hsteps _]]]]]]].
  - lazy. reflexivity.
  - lazy. lia.
  - exists s. eexists. split; [exact Hrun|]. split; assumption.
Defined.

Lemma train_loss_became_nan_witness :
  let self := Examples.constructed 0 1 in
  let a := Examples.train_arguments 10 false in
  let obs := Examples.observations (Some 2) Examples.degrading in
  Train.nan_observed Examples.output_at_step a obs 0 0 2 0 = true
  /\ exists s st,
       Examples.train self a obs Examples.no_files = (Return (s, None), st)
       /\ Train.completed s = false
       /\ Train.message s = Some "loss became nan"
       /\ Train.optimizer_steps st = 5.
Proof.
  intros self a obs. split; [reflexivity|].
  edestruct (fun p st1 =>
             train_loss_became_nan
               Examples.normaliseString Examples.str_of_float
               Examples.checkRunID Examples.generateUniqueRunIDForModel
               Examples.clearLogDirectory Examples.copyModelDirectory
               Examples.removeOldCheckpoints
               Examples.earlyStoppingStatus_of_losses
               Examples.formatDuration Examples.formatTime
               Examples.output_at_step self a obs Examples.no_files
               p st1 2 0)
    as [s [st [Hrun [Hcompleted [Hmessage [Hsteps _]]]]]].
  - lazy. reflexivity.
  - repeat split; try discriminate.
  - split; [split; [apply Nat.le_0_l|apply Nat.leb_le; reflexivity]|].
    split; [apply Nat.leb_le; reflexivity|]. split; [reflexivity|].
    intros epoch' j' Hj' Hbefore.
    change (Train.steps_per_epoch (Train.M_train a) (Train.batch_size a))
      with 2 in Hj'.
    destruct Hbefore as [[_ Hepoch]|[_ Hj]]; [|inversion Hj].
    destruct epoch' as [|[|epoch']]; [| |lia];
      (destruct j' as [|[|j']]; [reflexivity|reflexivity|lia]).
  - exists s, st. repeat split; [exact Hrun|assumption|assumption|exact Hsteps].
Defined.

(** A run of thirteen epochs whose validation ELBO degrades from the second
    epoch on: the eleventh epoch sets [stopped_early]; the twelfth, with
    the best validation ELBO so far, still makes the best-model comparison
    and saves the best checkpoint. *)
Lemma best_model_saved_after_early_stopping :
  let run :=
    Examples.train (Examples.constructed 0 1)
                   (Examples.train_arguments 13 true)
                   (Examples.observations None Examples.degrading)
                   Examples.no_files in
  exists r r',
    nth_error (Train.history (snd run)) 10 = Some r
    /\ nth_error (Train.history (snd run)) 11 = Some r'
    /\ Train.self_stopped_early (Train.record_state r) = Some true
    /\ Train.self_stopped_early (Train.record_state r') = Some true
    /\ Train.record_early_stopping_compared r' = false
    /\ Train.record_best_compared r' = true
    /\ Train.record_best_saved r' = true.
Proof.
  intros run. eexists. eexists.
  split; [vm_compute; reflexivity|].
  split; [vm_compute; reflexivity|].
  repeat split.
Qed.

Lemma early_stopping_persists_witness :
  let self := Examples.constructed 0 1 in
  let a := Examples.train_arguments 13 true in
  let obs := Examples.observations None Examples.degrading in
  Train.has_validation_set a = true
  /\ exists s st,
       Examples.train self a obs Examples.no_files = (Return (s, None), st)
       /\ Train.completed s = true
       /\ List.length (Train.history st) = 13.
Proof.
  intros self a obs. split; [reflexivity|].
  edestruct (early_stopping_persists
               Examples.normaliseString Examples.str_of_float
               Examples.checkRunID Examples.generateUniqueRunIDForModel
               Examples.clearLogDirectory Examples.copyModelDirectory
               Examples.removeOldCheckpoints
               Examples.earlyStoppingStatus_of_losses
               Examples.formatDuration Examples.formatTime
               Examples.output_at_step self a obs Examples.no_files)
    as [s [st [Hrun [Hcompleted [_ [Hlength _]]]]]].
  - lazy. reflexivity.
  - repeat split; try discriminate.
    intros v H. injection H as <-. discriminate.
  - reflexivity.
  - apply Nat.leb_le. reflexivity.
  - intros epoch i. reflexivity.
  - exists s, st. repeat split; [exact Hrun|assumption|exact Hlength].
Defined.

(** * Further properties *)

(** ** The warm-up weight *)

Lemma ratio_bounds (e e' w : nat) :
  0 < w ->
  let r n := (inject_Z (Z.of_nat n) / inject_Z (Z.of_nat w))%Q in
  (0 <= r e)%Q
  /\ (e <= e' -> (r e <= r e')%Q)
  /\ (w <= e -> (1 <= r e)%Q)
  /\ (e < w -> (r e < 1)%Q).
Proof.
  intros Hw r.
  assert (Hpos : (0 < inject_Z (Z.of_nat w))%Q).
  { change 0%Q with (inject_Z 0). rewrite <- Zlt_Qlt. lia. }
  repeat split.
  - apply Qle_shift_div_l; [exact Hpos|].
    rewrite Qmult_0_l. change 0%Q with (inject_Z 0). rewrite <- Zle_Qle. lia.
  - intros H. unfold r, Qdiv. apply Qmult_le_compat_r.
    + rewrite <- Zle_Qle. lia.
    + apply Qlt_le_weak, Qinv_lt_0_compat, Hpos.
  - intros H. apply Qle_shift_div_l; [exact Hpos|].
    rewrite Qmult_1_l, <- Zle_Qle. lia.
  - intros H. apply Qlt_shift_div_r; [exact Hpos|].
    rewrite Qmult_1_l, <- Zlt_Qlt. lia.
Qed.

Section WarmUp.

Variable self : model.

(** X1.  The warm-up weight of an epoch lies between 0 and 1 and does not
    decrease from an epoch to a later one; it is 1 from the epoch with the
    number [number_of_warm_up_epochs] on (and always when that is zero),
    and the quotient of the two below it: the first epoch of a model with
    warm-up is trained with the weight 0. *)
Theorem warm_up_weight_ramp (epoch epoch' : nat) :
  (0 <= Train.warm_up_weight self epoch <= 1)%Q
  /\ (epoch <= epoch' ->
      (Train.warm_up_weight self epoch <= Train.warm_up_weight self epoch')%Q)
  /\ (number_of_warm_up_epochs self <= epoch ->
      (Train.warm_up_weight self epoch == 1)%Q)
  /\ (epoch < number_of_warm_up_epochs self ->
      (Train.warm_up_weight self epoch
       == inject_Z (Z.of_nat epoch)
          / inject_Z (Z.of_nat (number_of_warm_up_epochs self)))%Q
      /\ (Train.warm_up_weight self epoch < 1)%Q).
Proof.
  unfold Train.warm_up_weight.
  destruct (Nat.eqb_spec (number_of_warm_up_epochs self) 0) as [E|E];
    cbn [negb].
  - rewrite E. repeat split; try lra; try (intros Hx; first [lra|lia]);
      exfalso; lia.
  - assert (Hw : 0 < number_of_warm_up_epochs self) by lia.
    destruct (ratio_bounds epoch epoch' _ Hw) as [H0 [Hmono [Hge Hlt]]].
    destruct (ratio_bounds epoch' epoch' _ Hw) as [H0' _].
    cbv zeta in *.
    set (r := (inject_Z (Z.of_nat epoch)
               / inject_Z (Z.of_nat (number_of_warm_up_epochs self)))%Q) in *.
    set (r' := (inject_Z (Z.of_nat epoch')
                / inject_Z (Z.of_nat (number_of_warm_up_epochs self)))%Q) in *.
    repeat split.
    + apply Q.min_glb; lra.
    + apply Q.le_min_r.
    + intros H. apply Q.min_glb.
      * eapply Qle_trans; [apply Q.le_min_l|apply (Hmono H)].
      * apply Q.le_min_r.
    + intros H. apply Q.min_r. apply (Hge H).
    + apply Q.min_l. apply Qlt_le_weak, (Hlt H).
    + rewrite Q.min_l; [apply (Hlt H)|apply Qlt_le_weak, (Hlt H)].
Qed.

End WarmUp.

(** ** The loss without its weights *)

Section UnweightedLoss.

Variable reduce_mean_01 : Loss.tensor3 Q -> Loss.tensor1 Q.
Variable reduce_mean_0 : Loss.tensor3 Q -> Loss.tensor2 Q.
Variable compute_weighted_loss : Loss.tensor1 Q -> list Z -> Q.
Variable softmax_cross_entropy :
  list (list Z) -> Loss.tensor2 Q -> list Z -> Q.
Variable numpy_log : nat -> Q.

Let loss := Loss.loss reduce_mean_01 reduce_mean_0 compute_weighted_loss
                      softmax_cross_entropy numpy_log.

(** X2.  Without free nats, and with a warm-up weight and a KL weight whose
    product is one (the warm-up is over and the KL weight is left at 1), the
    weighted lower bound is the monitored ELBO; when in addition no example
    of the batch is labeled, so is the objective that is optimised. *)
Theorem ELBO_weighted_without_weights (h : Loss.hyper) (f : Loss.feed) :
  py_truthy (Loss.proportion_of_free_KL_nats h) = false ->
  (Loss.warm_up_weight f * Loss.kl_weight h == 1)%Q ->
  (Loss.ELBO_weighted (loss h f) == Loss.ELBO (loss h f))%Q
  /\ (binary_mask (Loss.clf_mask f) ->
      number_of_labeled (Loss.clf_mask f) = 0 ->
      (Loss.total_loss (loss h f) == Loss.ELBO (loss h f))%Q).
Proof.
  intros Hfree Hweights.
  assert (Hweighted :
            (Loss.ELBO_weighted (loss h f) == Loss.ELBO (loss h f))%Q).
  { unfold loss, Loss.loss. cbv zeta.
    cbn [Loss.ELBO_weighted Loss.ELBO]. rewrite Hfree.
    cbn [tf_sub tf_mul tf_add Scalar_Q].
    rewrite Hweights. ring. }
  split; [exact Hweighted|].
  intros Hbinary Hnone.
  pose proof (alpha_of_labeled reduce_mean_01 reduce_mean_0
                compute_weighted_loss softmax_cross_entropy numpy_log
                h f Hbinary) as Halpha.
  rewrite Hnone in Halpha. fold loss in Halpha.
  rewrite <- Hweighted.
  assert (Htotal :
            Loss.total_loss (loss h f)
            = (Loss.ELBO_weighted (loss h f)
               - Loss.alpha (loss h f) * Loss.CLF_ERROR (loss h f))%Q)
    by reflexivity.
  rewrite Htotal, Halpha. ring.
Qed.


(** X4.  The first epoch of a model with warm-up: its warm-up weight is 0,
    and a batch that is fed this weight has the reconstruction term alone
    as its weighted lower bound, whatever the KL weight and the free nats
    are. *)
Theorem first_warm_up_epoch_drops_the_divergences (self : model)
        (f : Loss.feed) :
  number_of_warm_up_epochs self <> 0 ->
  Loss.warm_up_weight f = Train.warm_up_weight self 0 ->
  (Loss.ELBO_weighted (loss (hyper_of self) f)
   == Loss.ENRE (loss (hyper_of self) f))%Q.
Proof.
  intros Hwarm Hfeed.
  assert (Hzero : (Loss.warm_up_weight f == 0)%Q).
  { rewrite Hfeed. unfold Train.warm_up_weight.
    destruct (Nat.eqb_spec (number_of_warm_up_epochs self) 0) as [E|_];
      [contradiction|].
    cbn [negb].
    assert (Hratio :
              (inject_Z (Z.of_nat 0)
               / inject_Z (Z.of_nat (number_of_warm_up_epochs self)) == 0)%Q)
      by (unfold Qdiv; apply Qmult_0_l).
    rewrite Q.min_l; [exact Hratio|]. rewrite Hratio. discriminate. }
  assert (Hweighted :
            Loss.ELBO_weighted (loss (hyper_of self) f)
            = (Loss.ENRE (loss (hyper_of self) f)
               - Loss.warm_up_weight f * Loss.kl_weight (hyper_of self)
                 * (Loss.KL_z (loss (hyper_of self) f)
                    + Loss.KL_y_modified (loss (hyper_of self) f)))%Q)
    by reflexivity.
  rewrite Hweighted, Hzero. ring.
Qed.

End UnweightedLoss.

(** ** Paths *)

Lemma list_ascii_of_string_append (x y : string) :
  list_ascii_of_string (x ++ y)
  = (list_ascii_of_string x ++ list_ascii_of_string y)%list.
Proof. induction x as [|c x IH]; cbn; [reflexivity|now rewrite IH]. Qed.

Lemma drop_to_sep_app (before after : list ascii) :
  forallb (fun c => negb (Ascii.eqb c "/")) before = true ->
  drop_to_sep (before ++ "/"%char :: after) = ("/"%char :: after)%list.
Proof.
  induction before as [|c before IH]; intros H; [reflexivity|].
  cbn [forallb] in H. apply andb_prop in H. destruct H as [Hc H].
  cbn [app drop_to_sep]. apply negb_true_iff in Hc. rewrite Hc.
  apply (IH H).
Qed.

Lemma drop_to_sep_none (l : list ascii) :
  forallb (fun c => negb (Ascii.eqb c "/")) l = true -> drop_to_sep l = [].
Proof.
  induction l as [|c l IH]; intros H; [reflexivity|].
  cbn [forallb] in H. apply andb_prop in H. destruct H as [Hc H].
  cbn [drop_to_sep]. apply negb_true_iff in Hc. rewrite Hc. apply (IH H).
Qed.

(** The last character of a non-empty path that does not end with the
    separator. *)
Lemma ends_with_sep_last (d : string) :
  d <> "" -> ends_with_sep d = false ->
  exists c rest,
    rev (list_ascii_of_string d) = c :: rest /\ Ascii.eqb c "/" = false.
Proof.
  induction d as [|c d IH]; intros Hne H; [contradiction|].
  destruct d as [|c' d'].
  - exists c, []. split; [reflexivity|exact H].
  - destruct IH as [c0 [rest [Hrev Hc0]]]; [discriminate|exact H|].
    exists c0, (rest ++ [c])%list.
    change (list_ascii_of_string (String c (String c' d')))
      with (c :: list_ascii_of_string (String c' d')).
    cbn [rev]. rewrite Hrev. split; [reflexivity|exact Hc0].
Qed.

(** [os.path.dirname(os.path.join(d, part))] is [d] again, for a part
    without separator and a [d] that does not end with one. *)
Lemma dirname_of_join (d part : string) :
  ends_with_sep d = false ->
  forallb (fun c => negb (Ascii.eqb c "/")) (list_ascii_of_string part)
  = true ->
  os_path_dirname (path_join2 d part) = d.
Proof.
  intros Hend Hpart.
  assert (Hrev : forallb (fun c => negb (Ascii.eqb c "/"))
                         (rev (list_ascii_of_string part)) = true).
  { apply forallb_forall. intros c Hc. apply in_rev in Hc.
    revert c Hc. apply forallb_forall. exact Hpart. }
  assert (Hstart : starts_with_sep part = false).
  { destruct part as [|c part]; [reflexivity|].
    cbn in Hpart. apply andb_prop in Hpart. destruct Hpart as [Hc _].
    cbn. destruct c as [[] [] [] [] [] [] [] []]; try reflexivity.
    discriminate Hc. }
  unfold path_join2. rewrite Hstart.
  destruct (String.eqb_spec d "") as [->|Hne]; cbn [orb].
  - cbn [String.append]. unfold os_path_dirname. cbv zeta.
    rewrite (drop_to_sep_none _ Hrev). reflexivity.
  - rewrite Hend. unfold os_path_dirname. cbv zeta.
    rewrite !list_ascii_of_string_append. cbn [list_ascii_of_string].
    rewrite rev_app_distr. cbn [app rev].
    rewrite <- app_assoc. cbn [app].
    rewrite (drop_to_sep_app _ _ Hrev).
    destruct (ends_with_sep_last d Hne Hend) as [c [rest [Hd Hc]]].
    rewrite Hd. cbn [forallb strip_sep].
    rewrite Ascii.eqb_refl, Hc. cbn [andb strip_sep]. rewrite ?Hc.
    rewrite <- Hd, rev_involutive.
    apply string_of_list_ascii_of_string.
Qed.

Section LogDirectories.

Variable normaliseString : string -> string.
Variable str_of_float : Q -> string.
Variable checkRunID : string -> result string.

Let directory_of :=
  logDirectory normaliseString str_of_float checkRunID.

(** X5.  The directories of the early-stopping model and of the best model
    are the subdirectories "early_stopping" and "best" of the log directory
    of the same model and run, and, unless that ends with a separator, the
    log directory is their parent again: [earlyStoppingStatus] reads the
    learning curves of the run whose early-stopping directory it looks
    for.  Asking for both at once is an error. *)
Theorem logDirectory_variants (m : model) (base run_id : option string)
        (directory : string) :
  directory_of m base run_id false false = Return directory ->
  directory_of m base run_id true false
  = Return (path_join2 directory "early_stopping")
  /\ directory_of m base run_id false true
     = Return (path_join2 directory "best")
  /\ directory_of m base run_id true true
     = Raise (ValueError
                "Early-stopping model and best model are mutually exclusive.")
  /\ (ends_with_sep directory = false ->
      os_path_dirname (path_join2 directory "early_stopping") = directory
      /\ os_path_dirname (path_join2 directory "best") = directory).
Proof.
  unfold directory_of, logDirectory. intros H.
  destruct (name normaliseString str_of_float m) as [model_name|e];
    [|discriminate H].
  cbn [bind] in *.
  match type of H with
  | bind ?r _ = _ => destruct r as [d|e]; [|discriminate H]
  end.
  cbn [bind andb] in *. injection H as ->.
  repeat split; apply dirname_of_join; auto.
Qed.

End LogDirectories.

(** ** The shape of a model name *)



Lemma string_of_uint_digits (d : Decimal.uint) :
  all_digits (NilEmpty.string_of_uint d) = true.
Proof. induction d; cbn; auto. Qed.

Lemma str_of_nat_digits (n : nat) : all_digits (str_of_nat n) = true.
Proof. apply string_of_uint_digits. Qed.

Lemma str_of_nat_injective (n n' : nat) :
  str_of_nat n = str_of_nat n' -> n = n'.
Proof.
  unfold str_of_nat. intros H.
  apply (f_equal NilEmpty.uint_of_string) in H.
  rewrite !NilEmpty.usu in H. injection H as H.
  apply (f_equal Nat.of_uint) in H.
  now rewrite !DecimalNat.Unsigned.of_to in H.
Qed.

Lemma digits_then_stop (d : string) :
  forall d' r r',
    all_digits d = true -> all_digits d' = true ->
    stops r = true -> stops r' = true ->
    d ++ r = d' ++ r' -> d = d'.
Proof.
  induction d as [|c d IH]; intros d' r r' Hd Hd' Hr Hr' H.
  - destruct d' as [|c' d']; [reflexivity|].
    cbn in H. subst r. cbn in Hr, Hd'.
    apply andb_prop in Hd'. destruct Hd' as [Hc _].
    rewrite Hc in Hr. discriminate Hr.
  - destruct d' as [|c' d'].
    + cbn in H. subst r'. cbn in Hr', Hd.
      apply andb_prop in Hd. destruct Hd as [Hc _].
      rewrite Hc in Hr'. discriminate Hr'.
    + cbn in H. injection H as -> H.
      cbn in Hd, Hd'.
      apply andb_prop in Hd. apply andb_prop in Hd'.
      f_equal. apply (IH d' r r'); tauto.
Qed.

Lemma append_cancel (x y z : string) : x ++ y = x ++ z -> y = z.
Proof.
  induction x as [|c x IH]; cbn; intros H; [exact H|].
  injection H as H. now apply IH.
Qed.

Lemma append_assoc (x y z : string) : (x ++ y) ++ z = x ++ y ++ z.
Proof. induction x as [|c x IH]; cbn; [reflexivity|now rewrite IH]. Qed.

Lemma append_nil_r_string (x : string) : x ++ "" = x.
Proof. induction x as [|c x IH]; cbn; [reflexivity|now rewrite IH]. Qed.

Lemma str_of_nat_nonempty (n : nat) : str_of_nat n <> "".
Proof.
  intros H. assert (Hn : n = 0).
  { unfold str_of_nat in H.
    apply (f_equal NilEmpty.uint_of_string) in H.
    rewrite NilEmpty.usu in H. cbn in H. injection H as H.
    apply (f_equal Nat.of_uint) in H.
    now rewrite DecimalNat.Unsigned.of_to in H. }
  subst n. discriminate H.
Qed.

Lemma ends_with_sep_append (x y : string) :
  y <> "" -> ends_with_sep (x ++ y) = ends_with_sep y.
Proof.
  intros Hy. induction x as [|c x IH]; [reflexivity|].
  cbn [String.append ends_with_sep]. rewrite IH.
  destruct (x ++ y) eqn:E; [|reflexivity].
  destruct x; [cbn in E; contradiction|discriminate E].
Qed.

Lemma ends_with_sep_digits (d : string) :
  all_digits d = true -> ends_with_sep d = false.
Proof.
  induction d as [|c d IH]; [reflexivity|].
  cbn [all_digits ends_with_sep]. intros H.
  apply andb_prop in H. destruct H as [Hc Hd].
  destruct d as [|c' d']; [|apply (IH Hd)].
  destruct (Ascii.eqb_spec c "/"); [subst c; discriminate Hc|reflexivity].
Qed.

Lemma starts_with_sep_append (x y : string) :
  x <> "" -> starts_with_sep (x ++ y) = starts_with_sep x.
Proof. destruct x; [contradiction|reflexivity]. Qed.

Lemma headed_append (h x : string) (t : list string) :
  headed h (append (h :: t) x).
Proof.
  unfold headed, append. destruct t as [|y t]; cbn [app].
  - now exists x, [].
  - now exists y, (t ++ [x])%list.
Qed.

Lemma starts_append (h x : string) (l : list string) :
  starts h l -> starts h (append l x).
Proof. intros [t ->]. now exists (t ++ [x])%list. Qed.

Lemma starts_append_if (b : bool) (h x : string) (l : list string) :
  starts h l -> starts h (append_if b l x).
Proof. intros H. destruct b; [now apply starts_append|exact H]. Qed.

Lemma headed_after_append (h x : string) (l : list string) :
  starts h l -> headed h (append l x).
Proof. intros [t ->]. apply headed_append. Qed.

Lemma headed_append_if (b : bool) (h x : string) (l : list string) :
  headed h l -> headed h (append_if b l x).
Proof.
  intros [y [t ->]]. destruct b; [|now exists y, t].
  apply (headed_append h x (y :: t)).
Qed.

Lemma join_headed (h : string) (l : list string) :
  headed h l -> exists rest, join "-" l = h ++ "-" ++ rest.
Proof.
  intros [x [t ->]]. unfold join. cbn [String.concat]. eexists. reflexivity.
Qed.

Section NameShape.

Variable normaliseString : string -> string.
Variable str_of_float : Q -> string.

Lemma reconstruction_parts_headed (m : model) :
  headed (normaliseString (reconstruction_distribution_name m))
         (reconstruction_parts normaliseString str_of_float m).
Proof.
  unfold reconstruction_parts. cbv zeta.
  repeat apply headed_append_if.
  apply headed_after_append.
  repeat first [apply starts_append | apply starts_append_if].
  now eexists.
Qed.

End NameShape.

Lemma path_join2_shape (path b : string) :
  path_join2 path b
  = (if starts_with_sep b then ""
     else if (String.eqb path "" || ends_with_sep path)%bool then path
          else path ++ "/") ++ b.
Proof.
  unfold path_join2. destruct (starts_with_sep b); [reflexivity|].
  destruct (String.eqb path "" || ends_with_sep path)%bool; [reflexivity|].
  now rewrite append_assoc.
Qed.

Lemma starts_with_sep_dash (x y : string) :
  starts_with_sep ((x ++ "-") ++ y) = starts_with_sep (x ++ "-").
Proof. destruct x; reflexivity. Qed.

Lemma eqb_append_nonempty (x y : string) :
  y <> "" -> String.eqb (x ++ y) "" = false.
Proof.
  intros Hy. destruct x; [|reflexivity].
  cbn. destruct y; [contradiction|reflexivity].
Qed.

Section NameDistinct.

Variable normaliseString : string -> string.
Variable str_of_float : Q -> string.

Lemma name_shape (m : model) :
  Q_truthy (proportion_of_free_KL_nats m) = false ->
  contains "mixture" (latent_distribution_name m) = true ->
  starts_with_sep (normaliseString (reconstruction_distribution_name m))
  = false ->
  exists rest,
    name normaliseString str_of_float m
    = Return (name_prefix (type m)
                          (normaliseString (latent_distribution_name m))
              ++ str_of_nat (K m) ++ rest)
    /\ stops rest = true.
Proof.
  intros Hfree Hmixture Hrec.
  destruct (join_headed _ _ (reconstruction_parts_headed
                               normaliseString str_of_float m))
    as [tail HR].
  set (nl := normaliseString (latent_distribution_name m)).
  set (nr := normaliseString (reconstruction_distribution_name m)) in *.
  assert (HstartR : starts_with_sep (nr ++ "-" ++ tail) = false).
  { destruct nr; [reflexivity|exact Hrec]. }
  unfold name. rewrite Hfree. unfold latent_parts. rewrite Hmixture.
  fold nl. cbn [append_if]. rewrite HR.
  assert (HL : forall method_part,
             exists rest,
               os_path_join (type m)
                 [nl ++ "-" ++ ("c_" ++ str_of_nat (K m)) ++ method_part;
                  nr ++ "-" ++ tail]
               = name_prefix (type m) nl ++ str_of_nat (K m) ++ rest
               /\ (stops method_part = true -> method_part <> "" ->
                   stops rest = true)
               /\ (method_part = "" -> stops rest = true)).
  { intros method_part.
    unfold os_path_join. cbn [fold_left].
    rewrite (path_join2_shape (type m)).
    replace (nl ++ "-" ++ ("c_" ++ str_of_nat (K m)) ++ method_part)
      with ((nl ++ "-") ++ "c_" ++ str_of_nat (K m) ++ method_part)
      by (now rewrite !append_assoc).
    rewrite starts_with_sep_dash.
    set (pre := if starts_with_sep (nl ++ "-") then ""
                else if (String.eqb (type m) "" || ends_with_sep (type m))%bool
                     then type m else type m ++ "/").
    set (P := pre ++ (nl ++ "-") ++ "c_" ++ str_of_nat (K m) ++ method_part).
    rewrite (path_join2_shape P (nr ++ "-" ++ tail)), HstartR.
    assert (Hprefix : forall z,
               P ++ z
               = name_prefix (type m) nl ++ str_of_nat (K m)
                 ++ method_part ++ z).
    { intros z. unfold P, name_prefix. fold pre.
      now rewrite !append_assoc. }
    destruct (String.eqb P "" || ends_with_sep P)%bool eqn:Eend.
    - exists (method_part ++ nr ++ "-" ++ tail).
      split; [apply Hprefix|]. split.
      + intros Hstops Hne. destruct method_part; [contradiction|exact Hstops].
      + intros Hempty. exfalso.
        assert (HP : P = (pre ++ (nl ++ "-") ++ "c_") ++ str_of_nat (K m)).
        { unfold P. rewrite Hempty, !append_assoc.
          now rewrite append_nil_r_string. }
        apply orb_prop in Eend. destruct Eend as [E|E]; rewrite HP in E.
        * rewrite eqb_append_nonempty in E by apply str_of_nat_nonempty.
          discriminate E.
        * rewrite ends_with_sep_append in E by apply str_of_nat_nonempty.
          rewrite ends_with_sep_digits in E by apply str_of_nat_digits.
          discriminate E.
    - exists (method_part ++ "/" ++ nr ++ "-" ++ tail).
      split; [rewrite append_assoc; apply Hprefix|]. split.
      + intros Hstops Hne. destruct method_part; [contradiction|exact Hstops].
      + intros ->. reflexivity. }
  destruct (negb (String.eqb (prior_probabilities_method m) "uniform")).
  - cbn [append_if append app join String.concat].
    destruct (HL ("-" ++ "p_" ++ prior_probabilities_method m))
      as [rest [Hname [Hstops _]]].
    exists rest. split.
    + f_equal. rewrite <- Hname. reflexivity.
    + apply Hstops; [reflexivity|discriminate].
  - cbn [append_if append app join String.concat].
    destruct (HL "") as [rest [Hname [_ Hstops]]].
    exists rest. split.
    + f_equal. rewrite <- Hname. now rewrite !append_nil_r_string.
    + now apply Hstops.
Qed.

End NameDistinct.

Section NameDistinctness.

Variable normaliseString : string -> string.
Variable str_of_float : Q -> string.

Let model_name := name normaliseString str_of_float.

(** X6.  The names of two mixture models of the same type and latent
    distribution that differ in the number of clusters differ: the number
    is written out in the name, after a prefix that the two share, and is
    followed by a character that is not a digit. *)
Theorem names_differ_in_the_number_of_clusters (m m' : model) :
  Q_truthy (proportion_of_free_KL_nats m) = false ->
  Q_truthy (proportion_of_free_KL_nats m') = false ->
  contains "mixture" (latent_distribution_name m) = true ->
  type m' = type m ->
  latent_distribution_name m' = latent_distribution_name m ->
  starts_with_sep (normaliseString (reconstruction_distribution_name m))
  = false ->
  starts_with_sep (normaliseString (reconstruction_distribution_name m'))
  = false ->
  K m' <> K m ->
  (exists s s', model_name m = Return s /\ model_name m' = Return s'
                /\ s' <> s).
Proof.
  intros Hfree Hfree' Hmixture Htype Hlatent Hrec Hrec' HK.
  destruct (name_shape normaliseString str_of_float m Hfree Hmixture Hrec)
    as [rest [Hname Hstops]].
  destruct (name_shape normaliseString str_of_float m' Hfree'
              ltac:(now rewrite Hlatent) Hrec')
    as [rest' [Hname' Hstops']].
  rewrite Htype, Hlatent in Hname'.
  unfold model_name. rewrite Hname, Hname'.
  eexists. eexists. split; [reflexivity|]. split; [reflexivity|].
  intros E. apply HK.
  apply append_cancel in E.
  apply str_of_nat_injective.
  apply (digits_then_stop _ _ rest' rest);
    auto using str_of_nat_digits.
Qed.

End NameDistinctness.

(** ** The constructed model *)

Section ConstructedModel.

Variable str_of_float : Q -> string.
Variable graph_setup : model -> result unit.

Let construct := init str_of_float graph_setup.


End ConstructedModel.

(** ** The registry and the graph *)

(** The keys of the registry are the ones that the constructor accepts. *)
Lemma registry_keys : map fst Registry.distributions = distributions.
Proof. reflexivity. Qed.

Lemma lookup_modified_gaussian :
  Registry.lookup "modified gaussian" = Raise (KeyError "modified gaussian").
Proof. reflexivity. Qed.

Section GraphFacts.

Variable tensorflow : string -> model -> result unit.

Let graph := Graph.model_graph tensorflow.

(** X8.  The encoder q(z|x, y) and the prior p(z|y) look up the distribution
    "modified gaussian", which is not a key of the registry.  So for a
    model with at least one cluster, [model_graph], which the constructor
    calls, does not return; when the TensorFlow calls that come before give
    no error, it raises [KeyError] for this key. *)
Theorem model_graph_looks_up_a_missing_key
        (reconstruction_distribution : Registry.entry) (m : model) :
  0 < K m ->
  (forall u, graph reconstruction_distribution m <> Return u)
  /\ (tensorflow "p_y" m = Return tt ->
      tensorflow "y" m = Return tt ->
      tensorflow "ENCODER" m = Return tt ->
      tensorflow "logits" m = Return tt ->
      tensorflow "categorical" m = Return tt ->
      tensorflow "q_y" m = Return tt ->
      graph reconstruction_distribution m
      = Raise (KeyError "modified gaussian")).
Proof.
  intros HK. unfold graph, Graph.model_graph.
  destruct (K m) as [|k]; [inversion HK|].
  cbn [seq Graph.latent_loop].
  unfold Graph.q_z_given_x_y_graph at 1.
  rewrite lookup_modified_gaussian. cbn [bind].
  split.
  - intros u.
    destruct (tensorflow "p_y" m) as [[]|e]; cbn [bind]; [|discriminate].
    destruct (tensorflow "y" m) as [[]|e]; cbn [bind]; [|discriminate].
    destruct (Graph.q_y_given_x_graph tensorflow "categorical" m) as [[]|e];
      cbn [bind]; [|discriminate].
    destruct (tensorflow "q_y" m) as [[]|e]; cbn [bind]; discriminate.
  - intros -> -> Hencoder Hlogits Hcategorical ->.
    unfold Graph.q_y_given_x_graph.
    change (Registry.lookup "categorical")
      with (Return {| Registry.parameters :=
                        [Registry.real "logits" Registry.identity None];
                      Registry.class_arguments := 1 |}).
    cbn [bind Registry.parameters Graph.parameter_layers
         Registry.parameter_name Registry.real].
    rewrite Hencoder, Hlogits. cbn [bind Registry.call_class
      Registry.class_arguments Nat.eqb]. rewrite Hcategorical. reflexivity.
Qed.

End GraphFacts.

(** X9.  The decoder calls the "class" of each distribution of the registry
    with the number of arguments that it takes: with the count sum for the
    two whose name contains "constrained" or "multinomial", which are the
    ones that take it, and without it for the others.  These two are also
    the distributions for which the constructor sets [count_sum]. *)
Theorem reconstruction_class_call_fits (key : string) (e : Registry.entry) :
  In (key, e) Registry.distributions ->
  Graph.reconstruction_class_call key e = Return tt
  /\ (Registry.class_arguments e = 2
      <-> key = "constrained poisson" \/ key = "multinomial")
  /\ (Graph.takes_count_sum key = true <-> Registry.class_arguments e = 2).
Proof.
  intros H. cbn [Registry.distributions] in H.
  repeat (destruct H as [H|H];
          [injection H as <- <-;
           (split; [reflexivity|]);
           (split; (split; [intros E|intros E]);
            [first [discriminate E | tauto]
            |first [ reflexivity
                   | destruct E as [E|E]; discriminate E ]
            |first [discriminate E | reflexivity]
            |first [discriminate E | reflexivity]])|]).
  destruct H.
Qed.


(** ** The mask of labeled examples *)

Lemma set_one_spec (mask : list Z) :
  forall i,
    i < List.length mask ->
    exists mask',
      Labels.set_one i mask = Return mask'
      /\ List.length mask' = List.length mask
      /\ (forall j, nth j mask' 0%Z
                    = if Nat.eqb j i then 1%Z else nth j mask 0%Z).
Proof.
  induction mask as [|m mask IH]; intros i Hi; [inversion Hi|].
  destruct i as [|i].
  - eexists. split; [reflexivity|]. split; [reflexivity|].
    intros [|j]; reflexivity.
  - destruct (IH i) as [mask' [Hset [Hlength Hnth]]]; [cbn in Hi; lia|].
    exists (m :: mask'). cbn [Labels.set_one]. rewrite Hset.
    split; [reflexivity|]. split; [cbn; now rewrite Hlength|].
    intros [|j]; [reflexivity|]. apply Hnth.
Qed.

Lemma set_one_count (mask : list Z) :
  forall i mask',
    Labels.set_one i mask = Return mask' ->
    nth i mask 0%Z = 0%Z ->
    number_of_labeled mask' = S (number_of_labeled mask)
    /\ (binary_mask mask -> binary_mask mask').
Proof.
  unfold number_of_labeled, binary_mask.
  induction mask as [|m mask IH]; intros i mask' Hset Hi; [discriminate Hset|].
  destruct i as [|i].
  - injection Hset as <-. cbn [nth] in Hi. subst m. split.
    + cbn [count_occ]. destruct (Z.eq_dec 1 1) as [_|N]; [|contradiction].
      destruct (Z.eq_dec 0 1) as [E|_]; [discriminate E|reflexivity].
    + intros H. inversion H. constructor; [now right|assumption].
  - cbn [Labels.set_one] in Hset.
    destruct (Labels.set_one i mask) as [rest|e] eqn:E; [|discriminate Hset].
    injection Hset as <-. cbn [nth] in Hi.
    destruct (IH i rest E Hi) as [Hcount Hbinary]. split.
    + cbn [count_occ]. destruct (Z.eq_dec m 1); now rewrite Hcount.
    + intros H. inversion H. constructor; [assumption|]. now apply Hbinary.
Qed.

Lemma set_ones_spec (indices : list nat) :
  forall mask,
    NoDup indices ->
    (forall i, In i indices -> i < List.length mask /\ nth i mask 0%Z = 0%Z) ->
    exists mask',
      Labels.set_ones indices mask = Return mask'
      /\ List.length mask' = List.length mask
      /\ (forall j, nth j mask' 0%Z
                    = if existsb (Nat.eqb j) indices then 1%Z
                      else nth j mask 0%Z)
      /\ number_of_labeled mask'
         = List.length indices + number_of_labeled mask
      /\ (binary_mask mask -> binary_mask mask').
Proof.
  induction indices as [|i indices IH]; intros mask Hnodup Hin.
  - exists mask. repeat split; auto.
  - inversion Hnodup as [|? ? Hfresh Hrest]. subst.
    destruct (Hin i (or_introl eq_refl)) as [Hi Hzero].
    destruct (set_one_spec mask i Hi) as [mask1 [Hset [Hlength Hnth]]].
    destruct (set_one_count mask i mask1 Hset Hzero) as [Hcount Hbinary].
    destruct (IH mask1 Hrest) as [mask' [Hsets [Hlength' [Hnth' [Hc' Hb']]]]].
    { intros j Hj. rewrite Hlength, Hnth.
      destruct (Hin j (or_intror Hj)) as [Hlt Hz]. split; [exact Hlt|].
      destruct (Nat.eqb_spec j i) as [->|_]; [contradiction|exact Hz]. }
    exists mask'. cbn [Labels.set_ones]. rewrite Hset.
    split; [exact Hsets|]. split; [congruence|]. split.
    + intros j. rewrite Hnth', Hnth. cbn [existsb].
      destruct (existsb (Nat.eqb j) indices);
        [now rewrite orb_true_r|].
      rewrite orb_false_r. reflexivity.
    + split; [rewrite Hc', Hcount; cbn [List.length]; lia|].
      intros H. apply Hb', Hbinary, H.
Qed.

Lemma nth_repeat_zero (M j : nat) : nth j (repeat 0%Z M) 0%Z = 0%Z.
Proof.
  revert j. induction M as [|M IH]; intros [|j]; cbn; auto.
Qed.

Lemma binary_mask_zeros (M : nat) : binary_mask (repeat 0%Z M).
Proof.
  unfold binary_mask. induction M as [|M IH]; constructor; auto.
Qed.

Lemma number_of_labeled_zeros (M : nat) :
  number_of_labeled (repeat 0%Z M) = 0.
Proof.
  unfold number_of_labeled. induction M as [|M IH]; [reflexivity|].
  cbn [repeat count_occ]. destruct (Z.eq_dec 0 1) as [E|_];
    [discriminate E|exact IH].
Qed.

Lemma length_of_permutation (l : list nat) (M : nat) :
  NoDup l -> (forall i, In i l <-> i < M) -> List.length l = M.
Proof.
  intros Hnodup Hin. apply Nat.le_antisymm.
  - apply Nat.le_trans with (List.length (seq 0 M));
      [|rewrite length_seq; apply Nat.le_refl].
    apply NoDup_incl_length; [exact Hnodup|].
    intros i Hi. apply in_seq. apply Hin in Hi. lia.
  - apply Nat.le_trans with (List.length (seq 0 M));
      [rewrite length_seq; apply Nat.le_refl|].
    apply NoDup_incl_length; [apply seq_NoDup|].
    intros i Hi. apply in_seq in Hi. apply Hin. lia.
Qed.

Lemma In_firstn {A} (n : nat) (l : list A) (x : A) :
  In x (firstn n l) -> In x l.
Proof.
  revert n. induction l as [|y l IH]; intros n H.
  - now rewrite firstn_nil in H.
  - destruct n as [|n]; [destruct H|].
    destruct H as [H|H]; [now left|right; apply (IH n H)].
Qed.

Lemma NoDup_firstn {A} (n : nat) (l : list A) : NoDup l -> NoDup (firstn n l).
Proof.
  revert n. induction l as [|x l IH]; intros n H; [now rewrite firstn_nil|].
  destruct n as [|n]; [constructor|]. inversion H. subst.
  cbn [firstn]. constructor; [|now apply IH].
  intros Hin. apply In_firstn in Hin. contradiction.
Qed.

Lemma In_up_to {A} (n : Z) (l : list A) (x : A) :
  In x (Labels.up_to n l) -> In x l.
Proof.
  unfold Labels.up_to. destruct (n <? 0)%Z; apply In_firstn.
Qed.

(** X11.  The mask with which a run starts labels as many examples as the
    model's [number_of_labeled_examples], at the first indices of the
    permutation and at most all of them; a negative number leaves out that
    many of the last indices of the permutation instead.  The mask holds
    zeros and ones only. *)
Theorem initial_mask_labels (M : nat) (permutation : list nat) (n : Z) :
  NoDup permutation ->
  (forall i, In i permutation <-> i < M) ->
  exists mask,
    Labels.initial_mask M permutation n = Return mask
    /\ List.length mask = M
    /\ binary_mask mask
    /\ (forall i, nth i mask 0%Z = 1%Z <-> In i (Labels.up_to n permutation))
    /\ number_of_labeled mask
       = (if (n <? 0)%Z then M - Z.to_nat (- n) else Nat.min (Z.to_nat n) M).
Proof.
  intros Hnodup Hin.
  pose proof (length_of_permutation permutation M Hnodup Hin) as Hlength.
  destruct (set_ones_spec (Labels.up_to n permutation) (repeat 0%Z M))
    as [mask [Hset [Hlen [Hnth [Hcount Hbinary]]]]].
  { unfold Labels.up_to. destruct (n <? 0)%Z; now apply NoDup_firstn. }
  { intros i Hi. apply In_up_to in Hi. rewrite repeat_length.
    split; [now apply Hin|apply nth_repeat_zero]. }
  exists mask. split; [exact Hset|].
  split; [now rewrite Hlen, repeat_length|].
  split; [apply Hbinary, binary_mask_zeros|].
  split.
  - intros i. rewrite Hnth, nth_repeat_zero.
    destruct (existsb (Nat.eqb i) (Labels.up_to n permutation)) eqn:E.
    + split; [intros _|reflexivity].
      apply existsb_exists in E. destruct E as [j [Hj E]].
      apply Nat.eqb_eq in E. now subst j.
    + split; [discriminate|]. intros Hi. exfalso.
      assert (E' : existsb (Nat.eqb i) (Labels.up_to n permutation) = true).
      { apply existsb_exists. exists i. split; [exact Hi|apply Nat.eqb_refl]. }
      rewrite E in E'. discriminate E'.
  - rewrite Hcount, number_of_labeled_zeros, Nat.add_0_r.
    unfold Labels.up_to. destruct (n <? 0)%Z; rewrite length_firstn, Hlength.
    + lia.
    + reflexivity.
Qed.

(** *** The acquisition of a label *)

Lemma Q_lt_false (x y : Q) : Q_lt x y = false <-> (y <= x)%Q.
Proof.
  unfold Q_lt. rewrite negb_false_iff. apply Qle_bool_iff.
Qed.

(** [argmax_from] on the rest of a list, of which [best] is the first index
    of a greatest element so far. *)
Lemma argmax_from_spec (rest : list Q) :
  forall before best greatest,
    best < List.length before ->
    nth best before 0%Q = greatest ->
    (forall j, j < List.length before ->
               (nth j before 0%Q <= greatest)%Q) ->
    let r := Labels.argmax_from best greatest (List.length before) rest in
    r < List.length (before ++ rest)
    /\ (forall j, j < List.length (before ++ rest) ->
                  (nth j (before ++ rest) 0%Q
                   <= nth r (before ++ rest) 0%Q)%Q).
Proof.
  induction rest as [|x rest IH]; intros before best greatest Hbest Hg Hle r.
  - subst r. cbn [Labels.argmax_from]. rewrite app_nil_r.
    split; [exact Hbest|]. intros j Hj. rewrite Hg. now apply Hle.
  - subst r. cbn [Labels.argmax_from].
    replace (before ++ x :: rest)%list with ((before ++ [x]) ++ rest)%list
      by (now rewrite <- app_assoc).
    replace (S (List.length before)) with (List.length (before ++ [x]))
      by (rewrite length_app; cbn; lia).
    destruct (Q_lt greatest x) eqn:E.
    + apply Q_lt_true in E.
      apply (IH (before ++ [x])%list (List.length before) x).
      * rewrite length_app. cbn. lia.
      * now rewrite nth_middle.
      * intros j Hj. rewrite length_app in Hj. cbn in Hj.
        destruct (Nat.eq_dec j (List.length before)) as [->|Hne].
        -- rewrite nth_middle. apply Qle_refl.
        -- rewrite app_nth1 by lia.
           apply Qle_trans with greatest; [apply Hle; lia|].
           now apply Qlt_le_weak.
    + apply Q_lt_false in E.
      apply (IH (before ++ [x])%list best greatest).
      * rewrite length_app. cbn. lia.
      * now rewrite app_nth1.
      * intros j Hj. rewrite length_app in Hj. cbn in Hj.
        destruct (Nat.eq_dec j (List.length before)) as [->|Hne].
        -- now rewrite nth_middle.
        -- rewrite app_nth1 by lia. apply Hle. lia.
Qed.

Lemma argmax_spec (l : list Q) :
  l <> [] ->
  exists r,
    Labels.argmax l = Return r
    /\ r < List.length l
    /\ (forall j, j < List.length l -> (nth j l 0%Q <= nth r l 0%Q)%Q).
Proof.
  destruct l as [|x rest]; [contradiction|]. intros _.
  eexists. split; [reflexivity|].
  apply (argmax_from_spec rest [x] 0 x).
  - cbn. lia.
  - reflexivity.
  - intros [|j] Hj; [apply Qle_refl|cbn in Hj; lia].
Qed.

Lemma length_hide_labeled (entropies : list Q) :
  forall mask,
    List.length (Labels.hide_labeled entropies mask) = List.length entropies.
Proof.
  induction entropies as [|e entropies IH]; intros [|m mask];
    cbn; auto.
Qed.

Lemma nth_hide_labeled (entropies : list Q) :
  forall mask j,
    List.length mask = List.length entropies ->
    j < List.length entropies ->
    nth j (Labels.hide_labeled entropies mask) 0%Q
    = if Z.eqb (nth j mask 0%Z) 0 then nth j entropies 0%Q
      else (-1000000)%Q.
Proof.
  induction entropies as [|e entropies IH]; intros mask j Hlength Hj;
    [inversion Hj|].
  destruct mask as [|m mask]; [discriminate Hlength|].
  destruct j as [|j]; [reflexivity|].
  cbn [Labels.hide_labeled nth]. apply IH; cbn in *; lia.
Qed.

Lemma all_labeled (mask : list Z) :
  binary_mask mask ->
  number_of_labeled mask = List.length mask ->
  forall j, j < List.length mask -> nth j mask 0%Z = 1%Z.
Proof.
  unfold binary_mask, number_of_labeled.
  induction mask as [|m mask IH]; intros Hbinary Hcount j Hj;
    [inversion Hj|].
  inversion Hbinary as [|? ? Hm Hrest]. subst.
  pose proof (count_occ_bound Z.eq_dec 1%Z mask) as Hbound.
  cbn [count_occ List.length] in Hcount.
  destruct (Z.eq_dec m 1) as [->|Hne]; [|lia].
  destruct j as [|j]; [reflexivity|].
  apply IH; [exact Hrest|lia|cbn in Hj; lia].
Qed.

Lemma some_unlabeled (mask : list Z) :
  binary_mask mask ->
  number_of_labeled mask < List.length mask ->
  exists k, k < List.length mask /\ nth k mask 0%Z = 0%Z.
Proof.
  unfold binary_mask, number_of_labeled.
  induction mask as [|m mask IH]; intros Hbinary Hcount; [inversion Hcount|].
  inversion Hbinary as [|? ? Hm Hrest]. subst.
  cbn [count_occ List.length] in Hcount.
  destruct Hm as [->| ->].
  - exists 0. split; [cbn; lia|reflexivity].
  - destruct (Z.eq_dec 1 1) as [_|N]; [|contradiction].
    destruct (IH Hrest) as [k [Hk Hz]]; [lia|].
    exists (S k). split; [cbn; lia|exact Hz].
Qed.

Lemma set_one_same (mask : list Z) :
  forall i, i < List.length mask -> nth i mask 0%Z = 1%Z ->
            Labels.set_one i mask = Return mask.
Proof.
  induction mask as [|m mask IH]; intros i Hi Hone; [inversion Hi|].
  destruct i as [|i].
  - cbn in Hone. now subst m.
  - cbn [Labels.set_one]. rewrite IH; [reflexivity|cbn in Hi; lia|exact Hone].
Qed.

(** X12.  At the end of the evaluation of an epoch on the training set one
    more training example becomes labeled: for a mask of zeros and ones in
    which some example is not labeled, and entropies above the value that
    hides the labeled examples, the mask gains a one at an example that was
    not labeled and whose entropy no other such example exceeds.  Once every
    example is labeled the mask stays as it is. *)
Theorem acquire_label_adds_one (entropies : list Q) (mask : list Z) :
  List.length mask = List.length entropies ->
  binary_mask mask ->
  (forall j, j < List.length entropies ->
             (-1000000 < nth j entropies 0%Q)%Q) ->
  (number_of_labeled mask < List.length mask ->
   exists i mask',
     Labels.acquire_label entropies mask = Return mask'
     /\ nth i mask 0%Z = 0%Z
     /\ (forall j, nth j mask' 0%Z
                   = if Nat.eqb j i then 1%Z else nth j mask 0%Z)
     /\ (forall j, j < List.length mask -> nth j mask 0%Z = 0%Z ->
                   (nth j entropies 0%Q <= nth i entropies 0%Q)%Q)
     /\ number_of_labeled mask' = S (number_of_labeled mask)
     /\ binary_mask mask')
  /\ (number_of_labeled mask = List.length mask -> mask <> [] ->
      Labels.acquire_label entropies mask = Return mask).
Proof.
  intros Hlength Hbinary Hentropies.
  assert (Hargmax : mask <> [] ->
            exists r,
              Labels.argmax (Labels.hide_labeled entropies mask) = Return r
              /\ r < List.length mask
              /\ (forall j, j < List.length mask ->
                    (nth j (Labels.hide_labeled entropies mask) 0%Q
                     <= nth r (Labels.hide_labeled entropies mask) 0%Q)%Q)).
  { intros Hne.
    destruct (argmax_spec (Labels.hide_labeled entropies mask))
      as [r [Hr [Hlt Hmax]]].
    - intros E. apply (f_equal (@List.length Q)) in E.
      rewrite length_hide_labeled, <- Hlength in E.
      destruct mask; [contradiction|discriminate E].
    - rewrite length_hide_labeled, <- Hlength in Hlt, Hmax.
      exists r. auto. }
  split.
  - intros Hsome.
    destruct (some_unlabeled mask Hbinary Hsome) as [k [Hk Hzero]].
    destruct Hargmax as [i [Hi [Hlt Hmax]]].
    { intros E. rewrite E in Hk. inversion Hk. }
    assert (Hunlabeled : nth i mask 0%Z = 0%Z).
    { specialize (Hmax k Hk).
      rewrite !nth_hide_labeled in Hmax by lia.
      rewrite Hzero in Hmax. cbn [Z.eqb] in Hmax.
      destruct (Z.eqb_spec (nth i mask 0%Z) 0) as [E|_]; [exact E|].
      exfalso. specialize (Hentropies k ltac:(lia)). lra. }
    destruct (set_one_spec mask i Hlt) as [mask' [Hset [_ Hnth]]].
    destruct (set_one_count mask i mask' Hset Hunlabeled) as [Hcount Hb].
    exists i, mask'. unfold Labels.acquire_label. rewrite Hi.
    split; [exact Hset|]. split; [exact Hunlabeled|].
    split; [exact Hnth|]. split; [|split; [exact Hcount|apply Hb, Hbinary]].
    intros j Hj Hjzero. specialize (Hmax j Hj).
    rewrite !nth_hide_labeled in Hmax by lia.
    now rewrite Hjzero, Hunlabeled in Hmax.
  - intros Hall Hne.
    destruct (Hargmax Hne) as [i [Hi [Hlt _]]].
    unfold Labels.acquire_label. rewrite Hi.
    apply set_one_same; [exact Hlt|].
    apply (all_labeled mask Hbinary Hall i Hlt).
Qed.

(** ** The averages of an evaluation pass *)

Lemma fold_left_constant (value_of_batch : nat -> Q) (c : Q) (l : list nat) :
  (forall i, value_of_batch i == c)%Q ->
  forall start,
    (fold_left (fun value i => value + value_of_batch i) l start
     == start + inject_Z (Z.of_nat (List.length l)) * c)%Q.
Proof.
  intros Hc. induction l as [|i l IH]; intros start.
  - cbn. ring.
  - cbn [fold_left]. rewrite IH, Hc.
    replace (Z.of_nat (List.length (i :: l)))
      with (Z.of_nat (List.length l) + 1)%Z by (cbn [List.length]; lia).
    rewrite inject_Z_plus. ring.
Qed.

Lemma steps_per_epoch_covers (M batch_size : nat) :
  0 < batch_size ->
  M <= Train.steps_per_epoch M batch_size * batch_size
  /\ (M mod batch_size = 0 ->
      Train.steps_per_epoch M batch_size * batch_size = M)
  /\ (M mod batch_size <> 0 ->
      M < Train.steps_per_epoch M batch_size * batch_size).
Proof.
  intros Hb. unfold Train.steps_per_epoch.
  pose proof (Nat.div_mod_eq M batch_size) as HM.
  pose proof (Nat.mod_upper_bound M batch_size ltac:(lia)) as Hr.
  set (q := M / batch_size) in *. set (r := M mod batch_size) in *.
  assert (Hsteps : (M + batch_size - 1) / batch_size
                   = if Nat.eqb r 0 then q else S q).
  { destruct (Nat.eqb_spec r 0) as [E|E].
    - symmetry. apply (Nat.div_unique _ _ _ (batch_size - 1)); [lia|nia].
    - symmetry. apply (Nat.div_unique _ _ _ (r - 1)); [lia|nia]. }
  rewrite Hsteps.
  destruct (Nat.eqb_spec r 0) as [E|E]; repeat split; intros; nia.
Qed.

(** X13.  The value that the evaluation of an epoch reports for a quantity
    is the sum over the batches divided by [M / batch_size], not by the
    number of batches.  When every batch gives the same value, that value
    is reported if the batch size divides the number of examples, and a
    value further from zero if it does not.  On a set without examples the
    division raises [ZeroDivisionError]. *)
Theorem epoch_value_of_equal_batches (value_of_batch : nat -> Q)
        (M batch_size : nat) (c : Q) :
  0 < batch_size ->
  (forall i, value_of_batch i == c)%Q ->
  (M = 0 ->
   Curves.epoch_value value_of_batch M batch_size = Raise ZeroDivisionError)
  /\ (0 < M ->
      exists v,
        Curves.epoch_value value_of_batch M batch_size = Return v
        /\ (v * inject_Z (Z.of_nat M)
            == c * inject_Z (Z.of_nat (Train.steps_per_epoch M batch_size
                                       * batch_size)))%Q
        /\ (M mod batch_size = 0 -> (v == c)%Q)
        /\ (M mod batch_size <> 0 -> (0 < c)%Q -> (c < v)%Q)
        /\ (M mod batch_size <> 0 -> (c < 0)%Q -> (v < c)%Q)).
Proof.
  intros Hb Hc. split.
  - intros ->. reflexivity.
  - intros HM. unfold Curves.epoch_value. cbv zeta.
    destruct (Nat.eqb_spec M 0) as [E|_]; [lia|].
    eexists. split; [reflexivity|].
    destruct (steps_per_epoch_covers M batch_size Hb) as [Hle [Heq Hlt]].
    set (steps := Train.steps_per_epoch M batch_size) in *.
    assert (HMq : (0 < inject_Z (Z.of_nat M))%Q).
    { change 0%Q with (inject_Z 0). rewrite <- Zlt_Qlt. lia. }
    assert (Hbq : (0 < inject_Z (Z.of_nat batch_size))%Q).
    { change 0%Q with (inject_Z 0). rewrite <- Zlt_Qlt. lia. }
    assert (Htotal :
              (fold_left (fun value i => value + value_of_batch i)
                         (Train.batch_starts M batch_size) 0
               == inject_Z (Z.of_nat steps) * c)%Q).
    { rewrite (fold_left_constant value_of_batch c _ Hc).
      unfold Train.batch_starts. rewrite length_map, length_seq.
      fold steps. ring. }
    rewrite Htotal.
    assert (Hv : (inject_Z (Z.of_nat steps) * c
                  / (inject_Z (Z.of_nat M) / inject_Z (Z.of_nat batch_size))
                  == c * inject_Z (Z.of_nat (steps * batch_size))
                     / inject_Z (Z.of_nat M))%Q).
    { rewrite Nat2Z.inj_mul, inject_Z_mult. field. split; lra. }
    rewrite Hv.
    split; [field; lra|].
    split; [|split].
    + intros Hdiv. rewrite (Heq Hdiv). field. lra.
    + intros Hdiv Hpos. specialize (Hlt Hdiv).
      apply Qlt_shift_div_l; [exact HMq|].
      apply Qmult_lt_l; [exact Hpos|].
      rewrite <- Zlt_Qlt. lia.
    + intros Hdiv Hneg. specialize (Hlt Hdiv).
      apply Qlt_shift_div_r; [exact HMq|].
      assert (Hlt' : (inject_Z (Z.of_nat M)
                      < inject_Z (Z.of_nat (steps * batch_size)))%Q)
        by (rewrite <- Zlt_Qlt; lia).
      nra.
Qed.
Section TrainRuns.

Variable normaliseString : string -> string.
Variable str_of_float : Q -> string.
Variable checkRunID : string -> result string.
Variable generateUniqueRunIDForModel : model -> Q -> string.
Variable clearLogDirectory : string -> file_system -> file_system.
Variable copyModelDirectory : checkpoint -> string -> file_system -> file_system.
Variable removeOldCheckpoints : string -> file_system -> file_system.
Variable earlyStoppingStatus_of_losses : list pyfloat -> nat -> bool * nat.
Variable formatDuration : Q -> string.
Variable formatTime : Q -> string.
Variable output_at_step : nat -> list Z.

Variable self : model.
Variable a : Train.train_arguments.
Variable obs : Train.observations.

Let train :=
  Train.train normaliseString str_of_float checkRunID
              generateUniqueRunIDForModel clearLogDirectory copyModelDirectory
              removeOldCheckpoints earlyStoppingStatus_of_losses
              formatDuration formatTime output_at_step self a obs.
Let locate :=
  Train.locate normaliseString str_of_float checkRunID
               generateUniqueRunIDForModel clearLogDirectory formatTime
               self a obs.
Let set_up :=
  Train.set_up normaliseString str_of_float checkRunID
               generateUniqueRunIDForModel clearLogDirectory
               earlyStoppingStatus_of_losses formatTime self a obs.
Let steps := Train.steps_per_epoch (Train.M_train a) (Train.batch_size a).
Let epochs_left (p : Train.prepared) : nat :=
  Train.number_of_epochs a - Train.epoch_start p.

(** No loss that the loop looks at is not-a-number, in a run that starts
    epoch [first_epoch] at global step [first_step]. *)
Let none_observed (first_step first_epoch : nat) : Prop :=
  forall epoch j,
    first_epoch <= epoch < Train.number_of_epochs a ->
    j < steps ->
    Train.nan_observed output_at_step a obs first_step first_epoch epoch j
    = false.

Lemma training_loop_runs (model_name : string) (p : Train.prepared)
      (st1 : Train.state) :
  Train.passes_succeed a ->
  name normaliseString str_of_float self = Return model_name ->
  Train.epoch_start p < Train.number_of_epochs a ->
  none_observed (Train.global_step st1) (Train.epoch_start p) ->
  exists files epoch_duration,
    Train.training_loop normaliseString str_of_float copyModelDirectory
                        removeOldCheckpoints formatDuration output_at_step
                        self a obs p st1
    = (Train.Continue
         (Train.training_completed
            formatDuration (Train.prepared_status p)
            (Train.time obs (epochs_left p * steps + Train.optimizer_steps st1)
             - Train.time obs (Train.optimizer_steps st1))%Q
            epoch_duration,
          Train.prepared_run_id p),
       {| Train.fs := files;
          Train.global_step := epochs_left p * steps + Train.global_step st1;
          Train.optimizer_steps :=
            epochs_left p * steps + Train.optimizer_steps st1;
          Train.early :=
            Train.after_epochs self a obs (Train.epochs_to_train a p)
                               (Train.early st1);
          Train.history :=
            (Train.history st1
             ++ Train.records self a obs (Train.epochs_to_train a p)
                              (Train.early st1))%list |}).
Proof.
  intros Hpasses Hname Hleft Hclean.
  pose proof (length_batches a) as Hlength.
  destruct (epoch_loop_completes
              normaliseString str_of_float copyModelDirectory
              removeOldCheckpoints formatDuration output_at_step self a obs
              p model_name
              (Train.time obs (Train.optimizer_steps st1))
              (Train.epochs_to_train a p) Hpasses Hname None st1)
    as [files [last [Hloop [_ Hlast]]]].
  { intros k epoch Hk. unfold Train.epochs_to_train in Hk.
    rewrite nth_error_seq in Hk.
    destruct (Nat.ltb_spec k (Train.number_of_epochs a - Train.epoch_start p))
      as [Hlt|_]; [|discriminate Hk].
    injection Hk as <-.
    apply first_nan_None. intros j i Hi.
    apply nth_error_batches in Hi. destruct Hi as [Hj ->].
    specialize (Hclean (Train.epoch_start p + k) j).
    unfold Train.nan_observed in Hclean. rewrite Hlength.
    replace (Train.epoch_start p + k - Train.epoch_start p) with k in Hclean
      by lia.
    apply Hclean; [lia|exact Hj]. }
  destruct Hlast as [d ->].
  { unfold Train.epochs_to_train.
    destruct (Train.number_of_epochs a - Train.epoch_start p) eqn:E;
      [lia|discriminate]. }
  assert (Hepochs : List.length (Train.epochs_to_train a p) = epochs_left p).
  { unfold Train.epochs_to_train. apply length_seq. }
  rewrite Hlength, Hepochs in Hloop. fold steps in Hloop.
  unfold Train.training_loop. unfold Train.mbind at 1. cbn [Train.now].
  unfold Train.mbind at 1. rewrite Hloop.
  destruct (Train.truthy (Train.temporary_log_directory a));
    run_epoch;
    try match goal with
        | |- context [path_exists ?f ?d] => destruct (path_exists f d)
        end;
    run_epoch;
    eexists; eexists; reflexivity.
Qed.

(** X14.  A run that the set-up brings to the training loop, in which no
    pass raises and no monitored loss is not-a-number, trains every epoch
    from the one it starts at to the requested number: it returns a
    completed status that carries no message, after one optimizer step per
    batch of each of these epochs, and with one record per epoch.  A
    not-a-number loss at a step that is not monitored does not end it. *)
Theorem train_runs_every_epoch (files : file_system) (p : Train.prepared)
        (st1 : Train.state) :
  set_up (Train.initial_state self files) = (Train.Continue p, st1) ->
  Train.passes_succeed a ->
  Train.epoch_start p < Train.number_of_epochs a ->
  none_observed (Train.global_step st1) (Train.epoch_start p) ->
  exists s st2,
    train files = (Return (s, Train.prepared_run_id p), st2)
    /\ Train.completed s = true
    /\ Train.message s = None
    /\ Train.epochs_trained s
       = Some (Train.epochs_string (Train.epoch_start p)
                                   (Train.number_of_epochs a))
    /\ Train.training_duration s
       = Some (formatDuration
                 (Train.time obs (Train.optimizer_steps st2)
                  - Train.time obs 0)%Q)
    /\ Train.optimizer_steps st2 = epochs_left p * steps
    /\ Train.global_step st2 = epochs_left p * steps + Train.global_step st1
    /\ List.length (Train.history st2) = epochs_left p.
Proof.
  intros Hsetup Hpasses Hleft Hclean.
  destruct (set_up_prepared normaliseString str_of_float checkRunID
              generateUniqueRunIDForModel clearLogDirectory
              earlyStoppingStatus_of_losses formatTime self a obs _ _ _ Hsetup)
    as [[model_name Hname] [Hepochs [_ [Hmessage [Hsteps Hhistory]]]]].
  cbn [Train.initial_state Train.optimizer_steps Train.history]
    in Hsteps, Hhistory.
  destruct (training_loop_runs model_name p st1 Hpasses Hname Hleft Hclean)
    as [files' [d Hloop]].
  eexists. eexists. split.
  { unfold train, Train.train, Train.train_body.
    unfold Train.mbind at 1. unfold set_up in Hsetup. rewrite Hsetup.
    rewrite Hloop. reflexivity. }
  cbn [Train.training_completed Train.completed Train.message
       Train.epochs_trained Train.training_duration Train.optimizer_steps
       Train.global_step Train.history].
  rewrite Hsteps, Hhistory, Hmessage, Hepochs, Nat.add_0_r.
  cbn [app]. rewrite length_records.
  repeat split. unfold Train.epochs_to_train. apply length_seq.
Qed.

(** *** The checkpoint of an epoch *)


(** *** The reference values of the validation ELBO *)

Lemma float_gt_irreflexive (x : pyfloat) : float_gt x x = false.
Proof.
  destruct x as [| |q]; try reflexivity.
  unfold float_gt, float_lt, Q_lt. rewrite negb_false_iff.
  apply Qle_bool_iff. apply Qle_refl.
Qed.

Lemma float_gt_raised (x old new : pyfloat) :
  float_gt x old = false -> float_gt new old = true ->
  float_gt x new = false.
Proof.
  unfold float_gt, float_lt.
  destruct old as [| |b], new as [| |c], x as [| |d];
    try reflexivity; try discriminate.
  unfold Q_lt. rewrite !negb_false_iff, negb_true_iff.
  rewrite !Qle_bool_iff. intros H1 H2.
  assert (H3 : ~ (c <= b)%Q).
  { intros H. apply Qle_bool_iff in H. rewrite H in H2. discriminate H2. }
  apply Qnot_le_lt in H3. lra.
Qed.

Lemma float_lt_raised (old new : pyfloat) :
  float_gt new old = true -> float_lt new old = false.
Proof.
  unfold float_gt, float_lt.
  destruct old as [| |b], new as [| |c]; try reflexivity; try discriminate.
  unfold Q_lt. rewrite negb_false_iff, negb_true_iff. intros H.
  apply Qle_bool_iff.
  assert (H3 : ~ (c <= b)%Q).
  { intros H'. apply Qle_bool_iff in H'. rewrite H' in H. discriminate H. }
  apply Qnot_le_lt in H3. lra.
Qed.

Lemma float_lt_irreflexive (x : pyfloat) : float_lt x x = false.
Proof. apply float_gt_irreflexive. Qed.

Lemma maximum_after_early_stopping (epoch : nat) (e : Train.early_stopping) :
  Train.ELBO_valid_maximum (Train.after_early_stopping self a obs epoch e)
  = Train.ELBO_valid_maximum e.
Proof.
  unfold Train.after_early_stopping, Train.early_stopping_variables.
  destruct (Train.has_validation_set a
            && Train.not_stopped (Train.self_stopped_early e))%bool;
    [|reflexivity].
  destruct (float_lt (Train.validation_ELBO obs epoch)
                     (Train.ELBO_valid_early_stopping e));
    cbv zeta;
    match goal with
    | |- context [if ?c then _ else _] => destruct c
    end; reflexivity.
Qed.

(** The maximum after an epoch: the epoch's validation ELBO when that is
    greater than the maximum the epoch was entered with, which it is
    otherwise. *)
Lemma maximum_after_epoch (epoch : nat) (e : Train.early_stopping) :
  Train.ELBO_valid_maximum (Train.after_epoch self a obs epoch e)
  = if (Train.has_validation_set a
        && float_gt (Train.validation_ELBO obs epoch)
                    (Train.ELBO_valid_maximum e))%bool
    then Train.validation_ELBO obs epoch
    else Train.ELBO_valid_maximum e.
Proof.
  pose proof (maximum_after_early_stopping epoch e) as Hkeep.
  unfold Train.after_epoch, Train.after_best_model. cbv zeta.
  rewrite Hkeep.
  destruct (Train.has_validation_set a); cbn [andb].
  - destruct (float_gt (Train.validation_ELBO obs epoch)
                       (Train.ELBO_valid_maximum e)); cbn; [reflexivity|].
    exact Hkeep.
  - exact Hkeep.
Qed.

Lemma maximum_not_exceeded (x : pyfloat) (epoch : nat)
      (e : Train.early_stopping) :
  float_gt x (Train.ELBO_valid_maximum e) = false ->
  float_gt x (Train.ELBO_valid_maximum (Train.after_epoch self a obs epoch e))
  = false.
Proof.
  intros H. rewrite maximum_after_epoch.
  destruct (Train.has_validation_set a); cbn [andb]; [|exact H].
  destruct (float_gt (Train.validation_ELBO obs epoch)
                     (Train.ELBO_valid_maximum e)) eqn:E; [|exact H].
  apply (float_gt_raised x _ _ H E).
Qed.

Lemma maximum_not_lowered (epoch : nat) (e : Train.early_stopping) :
  float_lt (Train.ELBO_valid_maximum (Train.after_epoch self a obs epoch e))
           (Train.ELBO_valid_maximum e) = false.
Proof.
  rewrite maximum_after_epoch.
  destruct (Train.has_validation_set a); cbn [andb];
    [|apply float_lt_irreflexive].
  destruct (float_gt (Train.validation_ELBO obs epoch)
                     (Train.ELBO_valid_maximum e)) eqn:E;
    [|apply float_lt_irreflexive].
  apply (float_lt_raised _ _ E).
Qed.

Lemma entering_not_exceeded (epochs : list nat) (e : Train.early_stopping)
      (x : pyfloat) (i : nat) :
  float_gt x (Train.ELBO_valid_maximum (Train.entering self a obs epochs i e))
  = false ->
  forall j,
    i <= j ->
    float_gt x (Train.ELBO_valid_maximum
                  (Train.entering self a obs epochs j e)) = false.
Proof.
  intros Hi j Hij. induction Hij as [|j Hij IH]; [exact Hi|].
  destruct (nth_error epochs j) as [epoch|] eqn:Hj.
  - rewrite (entering_succ self a obs epochs e j epoch Hj).
    apply maximum_not_exceeded, IH.
  - unfold Train.entering in *.
    apply nth_error_None in Hj.
    rewrite firstn_all2 by lia. rewrite firstn_all2 in IH by lia. exact IH.
Qed.

(** X16.  In a run with a validation set that trains every epoch, the
    reference of the best-model rule is the running maximum of the
    validation ELBO: after any epoch no validation ELBO of that epoch or of
    an earlier epoch of the run is greater than it, it is never lowered from
    one epoch to a later one, and an epoch that saves the best checkpoint
    leaves its own validation ELBO as the reference. *)
Theorem best_model_reference_is_running_maximum (files : file_system)
        (p : Train.prepared) (st1 : Train.state) :
  set_up (Train.initial_state self files) = (Train.Continue p, st1) ->
  Train.passes_succeed a ->
  Train.has_validation_set a = true ->
  Train.epoch_start p < Train.number_of_epochs a ->
  none_observed (Train.global_step st1) (Train.epoch_start p) ->
  exists s st2,
    train files = (Return (s, Train.prepared_run_id p), st2)
    /\ List.length (Train.history st2) = epochs_left p
    /\ (forall i j r r',
          i <= j ->
          nth_error (Train.history st2) i = Some r ->
          nth_error (Train.history st2) j = Some r' ->
          float_gt (Train.record_ELBO_valid r)
                   (Train.ELBO_valid_maximum (Train.record_state r')) = false
          /\ float_lt (Train.ELBO_valid_maximum (Train.record_state r'))
                      (Train.ELBO_valid_maximum (Train.record_state r))
             = false)
    /\ (forall i r,
          nth_error (Train.history st2) i = Some r ->
          Train.record_best_saved r = true ->
          Train.ELBO_valid_maximum (Train.record_state r)
          = Train.record_ELBO_valid r).
Proof.
  intros Hsetup Hpasses Hvalidation Hleft Hclean.
  destruct (set_up_prepared normaliseString str_of_float checkRunID
              generateUniqueRunIDForModel clearLogDirectory
              earlyStoppingStatus_of_losses formatTime self a obs _ _ _ Hsetup)
    as [[model_name Hname] [_ [_ [_ [_ Hhistory]]]]].
  cbn [Train.initial_state Train.history] in Hhistory.
  destruct (training_loop_runs model_name p st1 Hpasses Hname Hleft Hclean)
    as [files' [d Hloop]].
  set (epochs := Train.epochs_to_train a p) in *.
  set (e1 := Train.early st1) in *.
  eexists. eexists. split.
  { unfold train, Train.train, Train.train_body.
    unfold Train.mbind at 1. unfold set_up in Hsetup. rewrite Hsetup.
    rewrite Hloop. reflexivity. }
  cbn [Train.history]. rewrite Hhistory. cbn [app].
  split.
  { rewrite length_records. unfold epochs, Train.epochs_to_train.
    apply length_seq. }
  split.
  - intros i j r r' Hij Hr Hr'.
    rewrite nth_error_records in Hr, Hr'.
    destruct (nth_error epochs i) as [epoch|] eqn:Hi; [|discriminate Hr].
    destruct (nth_error epochs j) as [epoch'|] eqn:Hj; [|discriminate Hr'].
    cbn [option_map] in Hr, Hr'. injection Hr as <-. injection Hr' as <-.
    cbn [Train.record_of Train.record_state Train.record_ELBO_valid].
    rewrite <- (entering_succ self a obs epochs e1 i epoch Hi).
    rewrite <- (entering_succ self a obs epochs e1 j epoch' Hj).
    split.
    + apply (entering_not_exceeded epochs e1 _ (S i)); [|lia].
      rewrite (entering_succ self a obs epochs e1 i epoch Hi).
      rewrite maximum_after_epoch, Hvalidation. cbn [andb].
      destruct (float_gt (Train.validation_ELBO obs epoch)
                  (Train.ELBO_valid_maximum
                     (Train.entering self a obs epochs i e1))) eqn:E;
        [apply float_gt_irreflexive|exact E].
    + assert (Hstep : forall k,
                 i <= k -> k <= j ->
                 float_lt
                   (Train.ELBO_valid_maximum
                      (Train.entering self a obs epochs (S k) e1))
                   (Train.ELBO_valid_maximum
                      (Train.entering self a obs epochs (S i) e1)) = false).
      { intros k Hik. induction Hik as [|k Hik IH]; intros Hkj.
        - apply float_lt_irreflexive.
        - assert (Hk : exists epoch_k, nth_error epochs (S k) = Some epoch_k).
          { destruct (nth_error epochs (S k)) eqn:E; [now eexists|].
            apply nth_error_None in E.
            assert (j < List.length epochs)
              by (apply nth_error_Some; congruence).
            lia. }
          destruct Hk as [epoch_k Hk].
          rewrite (entering_succ self a obs epochs e1 (S k) epoch_k Hk).
          specialize (IH ltac:(lia)).
          change (float_gt
                    (Train.ELBO_valid_maximum
                       (Train.entering self a obs epochs (S i) e1))
                    (Train.ELBO_valid_maximum
                       (Train.after_epoch self a obs epoch_k
                          (Train.entering self a obs epochs (S k) e1)))
                  = false).
          apply maximum_not_exceeded. exact IH. }
      apply (Hstep j Hij (le_n j)).
  - intros i r Hr Hsaved.
    rewrite nth_error_records in Hr.
    destruct (nth_error epochs i) as [epoch|] eqn:Hi; [|discriminate Hr].
    cbn [option_map] in Hr. injection Hr as <-.
    cbn [Train.record_of Train.record_state Train.record_ELBO_valid
         Train.record_best_saved] in *.
    rewrite maximum_after_early_stopping in Hsaved.
    rewrite maximum_after_epoch, Hsaved. reflexivity.
Qed.

(** *** The count of epochs without improvement *)

(** Early stopping is in effect and the count is not a number, or it is
    not and the count is below [early_stopping_rounds]. *)
Let counting (e : Train.early_stopping) : Prop :=
  match Train.self_stopped_early e with
  | Some true => Train.epochs_with_no_improvement e = None
  | _ =>
      exists n,
        Train.epochs_with_no_improvement e = Some n
        /\ n < early_stopping_rounds self
  end.

Lemma counting_early_stopping_variables (ELBO_valid : pyfloat)
      (e : Train.early_stopping) :
  Train.not_stopped (Train.self_stopped_early e) = true ->
  counting e ->
  counting (Train.early_stopping_variables self ELBO_valid e).
Proof.
  unfold counting, Train.early_stopping_variables. intros Hnot H.
  assert (Hn : exists n, Train.epochs_with_no_improvement e = Some n
                         /\ n < early_stopping_rounds self).
  { destruct (Train.self_stopped_early e) as [[|]|];
      [discriminate Hnot|exact H|exact H]. }
  destruct Hn as [n [Hn Hlt]].
  destruct (float_lt ELBO_valid (Train.ELBO_valid_early_stopping e));
    cbv zeta;
    cbn [Train.epochs_with_no_improvement Train.self_stopped_early];
    rewrite ?Hn; cbn [option_map]; unfold Train.counter_reached.
  - destruct (Nat.leb_spec (early_stopping_rounds self) (S n)) as [Hle|Hgt];
      cbn [Train.epochs_with_no_improvement Train.self_stopped_early].
    + reflexivity.
    + destruct (Train.self_stopped_early e) as [[|]|];
        [discriminate Hnot| |]; exists (S n); (split; [reflexivity|exact Hgt]).
  - destruct (Nat.leb_spec (early_stopping_rounds self) 0) as [Hle|Hgt];
      cbn [Train.epochs_with_no_improvement Train.self_stopped_early].
    + reflexivity.
    + destruct (Train.self_stopped_early e) as [[|]|];
        [discriminate Hnot| |]; exists 0; (split; [reflexivity|exact Hgt]).
Qed.

Lemma counting_after_epoch (epoch : nat) (e : Train.early_stopping) :
  counting e -> counting (Train.after_epoch self a obs epoch e).
Proof.
  intros H. unfold counting.
  destruct (after_epoch_keeps self a obs epoch e) as [-> [_ ->]].
  unfold Train.after_early_stopping.
  destruct (Train.has_validation_set a); cbn [andb]; [|exact H].
  destruct (Train.not_stopped (Train.self_stopped_early e)) eqn:Hnot;
    [|exact H].
  apply (counting_early_stopping_variables _ e Hnot H).
Qed.

Lemma counting_entering (epochs : list nat) (e : Train.early_stopping) :
  counting e ->
  forall i, counting (Train.entering self a obs epochs i e).
Proof.
  intros H i. induction i as [|i IH]; [exact H|].
  destruct (nth_error epochs i) as [epoch|] eqn:Hi.
  - rewrite (entering_succ self a obs epochs e i epoch Hi).
    apply counting_after_epoch, IH.
  - unfold Train.entering in *. apply nth_error_None in Hi.
    rewrite firstn_all2 by lia. rewrite firstn_all2 in IH by lia. exact IH.
Qed.

(** X17.  The count of epochs without improvement stays below
    [early_stopping_rounds] for as long as early stopping is not in effect,
    and is not a number from the epoch that puts it in effect: a run that
    trains every epoch, entered with variables of which this holds, leaves
    them so after each of its epochs. *)
Theorem epochs_with_no_improvement_is_bounded (files : file_system)
        (p : Train.prepared) (st1 : Train.state) :
  set_up (Train.initial_state self files) = (Train.Continue p, st1) ->
  Train.passes_succeed a ->
  Train.epoch_start p < Train.number_of_epochs a ->
  none_observed (Train.global_step st1) (Train.epoch_start p) ->
  counting (Train.early st1) ->
  exists s st2,
    train files = (Return (s, Train.prepared_run_id p), st2)
    /\ List.length (Train.history st2) = epochs_left p
    /\ (forall i r,
          nth_error (Train.history st2) i = Some r ->
          counting (Train.record_state r)).
Proof.
  intros Hsetup Hpasses Hleft Hclean Hcounting.
  destruct (set_up_prepared normaliseString str_of_float checkRunID
              generateUniqueRunIDForModel clearLogDirectory
              earlyStoppingStatus_of_losses formatTime self a obs _ _ _ Hsetup)
    as [[model_name Hname] [_ [_ [_ [_ Hhistory]]]]].
  cbn [Train.initial_state Train.history] in Hhistory.
  destruct (training_loop_runs model_name p st1 Hpasses Hname Hleft Hclean)
    as [files' [d Hloop]].
  set (epochs := Train.epochs_to_train a p) in *.
  set (e1 := Train.early st1) in *.
  eexists. eexists. split.
  { unfold train, Train.train, Train.train_body.
    unfold Train.mbind at 1. unfold set_up in Hsetup. rewrite Hsetup.
    rewrite Hloop. reflexivity. }
  cbn [Train.history]. rewrite Hhistory. cbn [app].
  split.
  { rewrite length_records. unfold epochs, Train.epochs_to_train.
    apply length_seq. }
  intros i r Hr.
  rewrite nth_error_records in Hr.
  destruct (nth_error epochs i) as [epoch|] eqn:Hi; [|discriminate Hr].
  cbn [option_map] in Hr. injection Hr as <-.
  cbn [Train.record_of Train.record_state].
  apply counting_after_epoch, counting_entering, Hcounting.
Qed.

(** *** Arguments that no run can use *)





(** *** A run that goes on with a validation set that is new *)



End TrainRuns.

(** ** The request of output kinds *)

Section RequestedVersions.

Variable str_of_list : list string -> string.
Variable a : Evaluate.evaluate_arguments.

(** X22.  Which requests [evaluate] accepts: a list is taken as it is when it
    has at most three elements and no duplicates, and is refused otherwise;
    the string "all" stands for the three kinds, and any other string for
    itself.  What the kinds are named is not checked. *)
Theorem requested_versions_accepts :
  (forall l,
      Evaluate.output_versions a = Evaluate.VersionsList l ->
      (List.length l <= 3 /\ NoDup l ->
       Evaluate.requested_versions str_of_list a = Return l)
      /\ (forall l',
            Evaluate.requested_versions str_of_list a = Return l' ->
            l' = l /\ List.length l <= 3 /\ NoDup l))
  /\ (forall s,
        Evaluate.output_versions a = Evaluate.VersionsString s ->
        Evaluate.requested_versions str_of_list a
        = Return (if String.eqb s "all"
                  then ["transformed"; "reconstructed"; "latent"]
                  else [s])).
Proof.
  unfold Evaluate.requested_versions. split.
  - intros l ->. cbv zeta.
    destruct (Nat.ltb_spec 3 (List.length l)) as [Hmany|Hfew].
    + split; [intros [H _]; lia|intros l' H; discriminate H].
    + destruct (Nat.eqb_spec (List.length l) (Evaluate.number_of_distinct l))
        as [E|E]; cbn [negb].
      * symmetry in E. apply number_of_distinct_NoDup in E.
        split; [reflexivity|]. intros l' H. injection H as <-. auto.
      * split; [|intros l' H; discriminate H].
        intros [_ H]. apply number_of_distinct_NoDup in H.
        symmetry in H. contradiction.
  - intros s ->. destruct (String.eqb s "all"); reflexivity.
Qed.

End RequestedVersions.

(** ** The directories of a run *)

Section Directories.

Variable normaliseString : string -> string.
Variable str_of_float : Q -> string.
Variable checkRunID : string -> result string.

Variable self : model.
Variable a : Train.train_arguments.

Let choose :=
  Train.choose_directories normaliseString str_of_float checkRunID self a.

(** X23.  With a temporary log directory a run goes on from the later of the
    two checkpoints, the one of the permanent and the one of the temporary
    directory, and the temporary directory is replaced by a copy of the
    permanent one unless its checkpoint is the later one.  Without one the
    run goes on from the checkpoint of the permanent directory.  Choosing
    the directories changes nothing. *)
Theorem choose_directories_later_checkpoint (run_id : option string)
        (epoch_start : nat) (st st' : Train.state) (d : Train.directories) :
  choose run_id epoch_start st = (Train.Continue d, st') ->
  st' = st
  /\ (Train.truthy (Train.temporary_log_directory a) = true ->
      let temporary_epoch_start :=
        Train.checkpoint_epoch_of
          (get_checkpoint_state (Train.fs st) (Train.directories_log d)) in
      Train.directories_epoch_start d
      = Nat.max epoch_start temporary_epoch_start
      /\ Train.replace_temporary_directory d
         = (temporary_epoch_start <=? epoch_start)%nat)
  /\ (Train.truthy (Train.temporary_log_directory a) = false ->
      Train.directories_epoch_start d = epoch_start
      /\ Train.replace_temporary_directory d = false).
Proof.
  unfold choose, Train.choose_directories. intros H.
  repeat match type of H with
         | Train.mbind (Train.lift ?r) _ _ = _ =>
             unfold Train.mbind at 1 in H;
             destruct r as [?directory|e]; cbn [Train.lift] in H;
             [|discriminate H]
         end.
  unfold Train.mbind at 1 in H. cbn [Train.get] in H.
  destruct (Train.truthy (Train.temporary_log_directory a)) eqn:Htemporary.
  - match type of H with
    | context [(?x <? ?y)%nat] => destruct (Nat.ltb_spec x y) as [Hlt|Hge]
    end; injection H as <- <-;
      (split; [reflexivity|]); (split; [|discriminate]); intros _;
      cbn [Train.directories_epoch_start Train.replace_temporary_directory
           Train.directories_log]; cbv zeta; split.
    + lia.
    + symmetry. apply Nat.leb_gt. exact Hlt.
    + lia.
    + symmetry. apply Nat.leb_le. exact Hge.
  - injection H as <- <-. split; [reflexivity|].
    split; [discriminate|]. intros _. split; reflexivity.
Qed.

End Directories.



Section EvaluateFiles.

Variable normaliseString : string -> string.
Variable str_of_float : Q -> string.
Variable checkRunID : string -> result string.
Variable formatDuration : Q -> string.
Variable str_of_list : list string -> string.
Variable noisy_duration : Q.
Variable output_set : Type.
Variable evaluate_restored :
  model -> Evaluate.evaluate_arguments -> list string -> checkpoint
  -> Evaluate.E (list (option output_set)).

Variable self : model.
Variable a : Evaluate.evaluate_arguments.

Let run : Evaluate.E (list (option output_set)) :=
  Evaluate.evaluate normaliseString str_of_float checkRunID formatDuration
                    str_of_list noisy_duration output_set evaluate_restored
                    self a.


End EvaluateFiles.

(** ** The output sets of [evaluate] *)

Lemma index_nth_error (x : string) (l : list string) (i : nat) :
  Outputs.index x l = Some i -> nth_error l i = Some x.
Proof.
  revert i. induction l as [|y l IH]; intros i H; [discriminate H|].
  cbn [Outputs.index] in H.
  destruct (String.eqb_spec y x) as [->|_].
  - injection H as <-. reflexivity.
  - destruct (Outputs.index x l) as [j|]; [|discriminate H].
    injection H as <-. apply (IH j eq_refl).
Qed.

Lemma index_None (x : string) (l : list string) :
  Outputs.index x l = None -> ~ In x l.
Proof.
  induction l as [|y l IH]; intros H; [intros []|].
  cbn [Outputs.index] in H.
  destruct (String.eqb_spec y x) as [->|Hne]; [discriminate H|].
  destruct (Outputs.index x l) as [j|]; [discriminate H|].
  intros [E|Hin]; [contradiction|]. now apply IH.
Qed.

Lemma nth_error_assign {A} (l : list A) (i j : nat) (v : A) :
  i < List.length l ->
  nth_error (Outputs.assign i v l) j
  = if Nat.eqb j i then Some v else nth_error l j.
Proof.
  revert i j. induction l as [|x l IH]; intros i j Hi; [inversion Hi|].
  destruct i as [|i]; destruct j as [|j]; cbn; try reflexivity.
  apply IH. cbn in Hi. lia.
Qed.

Lemma length_assign {A} (l : list A) (i : nat) (v : A) :
  List.length (Outputs.assign i v l) = List.length l.
Proof.
  revert i. induction l as [|x l IH]; intros i; [reflexivity|].
  destruct i; cbn; [reflexivity|now rewrite IH].
Qed.

Section OutputFacts.

Variable D : Type.
Variable updatePredictions : D -> D.

Lemma length_place (kind : string) (value : Outputs.output_set D)
      (versions : list string) (sets : list (option (Outputs.output_set D))) :
  List.length (Outputs.place D kind value versions sets) = List.length sets.
Proof.
  unfold Outputs.place. destruct (Outputs.index kind versions);
    [apply length_assign|reflexivity].
Qed.

Lemma nth_error_place (kind : string) (value : Outputs.output_set D)
      (versions : list string) (sets : list (option (Outputs.output_set D)))
      (j : nat) (requested : string) :
  NoDup versions ->
  List.length sets = List.length versions ->
  nth_error versions j = Some requested ->
  nth_error (Outputs.place D kind value versions sets) j
  = if String.eqb requested kind then Some (Some value)
    else nth_error sets j.
Proof.
  intros Hnodup Hlength Hj. unfold Outputs.place.
  destruct (Outputs.index kind versions) as [i|] eqn:Hi.
  - pose proof (index_nth_error _ _ _ Hi) as Hkind.
    rewrite nth_error_assign
      by (rewrite Hlength; apply nth_error_Some; congruence).
    destruct (Nat.eqb_spec j i) as [->|Hne].
    + rewrite Hkind in Hj. injection Hj as ->.
      now rewrite String.eqb_refl.
    + destruct (String.eqb_spec requested kind) as [->|_]; [|reflexivity].
      exfalso. apply Hne.
      apply (proj1 (NoDup_nth_error versions) Hnodup);
        [apply nth_error_Some|]; congruence.
  - apply index_None in Hi.
    destruct (String.eqb_spec requested kind) as [->|_]; [|reflexivity].
    exfalso. apply Hi. apply (nth_error_In _ _ Hj).
Qed.

(** The sets before the predictions are added: one per requested kind, in
    the order of the request. *)
Lemma placed_in_order (versions : list string) (t r z y : D) :
  NoDup versions ->
  Outputs.place D "latent" (Outputs.Latent z y) versions
    (Outputs.place D "reconstructed" (Outputs.Plain r) versions
       (Outputs.place D "transformed" (Outputs.Plain t) versions
          (repeat None (List.length versions))))
  = map (Outputs.output_of D t r z y) versions.
Proof.
  intros Hnodup. apply nth_error_ext. intros j.
  destruct (nth_error versions j) as [kind|] eqn:Hj.
  - rewrite (nth_error_place _ _ _ _ j kind Hnodup);
      [|now rewrite !length_place, repeat_length|exact Hj].
    rewrite (nth_error_place _ _ _ _ j kind Hnodup);
      [|now rewrite !length_place, repeat_length|exact Hj].
    rewrite (nth_error_place _ _ _ _ j kind Hnodup);
      [|now rewrite repeat_length|exact Hj].
    rewrite (nth_error_map (Outputs.output_of D t r z y) j versions), Hj.
    cbn [option_map]. unfold Outputs.output_of.
    destruct (String.eqb_spec kind "latent") as [->|_]; [reflexivity|].
    destruct (String.eqb_spec kind "reconstructed") as [->|_]; [reflexivity|].
    destruct (String.eqb_spec kind "transformed") as [->|_]; [reflexivity|].
    rewrite nth_error_repeat; [reflexivity|].
    apply nth_error_Some. congruence.
  - rewrite (nth_error_map (Outputs.output_of D t r z y) j versions), Hj.
    cbn [option_map]. apply nth_error_None.
    rewrite !length_place, repeat_length. now apply nth_error_None.
Qed.

Lemma update_all_known (versions : list string) (t r z y : D) :
  forallb Outputs.known versions = true ->
  Outputs.update_all D updatePredictions
    (map (Outputs.output_of D t r z y) versions)
  = inr (map (Outputs.output_of D (updatePredictions t) (updatePredictions r)
                                (updatePredictions z) (updatePredictions y))
             versions).
Proof.
  induction versions as [|kind versions IH]; intros H; [reflexivity|].
  cbn [forallb] in H. apply andb_prop in H. destruct H as [Hkind H].
  cbn [map Outputs.update_all]. rewrite (IH H).
  unfold Outputs.known in Hkind. unfold Outputs.output_of.
  destruct (String.eqb kind "transformed"); [reflexivity|].
  destruct (String.eqb kind "reconstructed"); [reflexivity|].
  destruct (String.eqb kind "latent"); [reflexivity|discriminate Hkind].
Qed.

Lemma update_all_unknown (versions : list string) (t r z y : D) :
  forallb Outputs.known versions = false ->
  Outputs.update_all D updatePredictions
    (map (Outputs.output_of D t r z y) versions)
  = inl (Outputs.AttributeError "updatePredictions").
Proof.
  induction versions as [|kind versions IH]; intros H; [discriminate H|].
  cbn [forallb] in H. cbn [map Outputs.update_all].
  unfold Outputs.known in H. unfold Outputs.output_of at 1.
  destruct (String.eqb kind "transformed"); cbn [orb andb] in H.
  - rewrite (IH H). reflexivity.
  - destruct (String.eqb kind "reconstructed"); cbn [orb andb] in H.
    + rewrite (IH H). reflexivity.
    + destruct (String.eqb kind "latent"); cbn [orb andb] in H.
      * rewrite (IH H). reflexivity.
      * reflexivity.
Qed.

(** X25.  The end of [evaluate] for a request without duplicates.  Without
    predictions the value holds, in the order of the request, the set of
    each kind, and [None] for a kind that is none of "transformed",
    "reconstructed" and "latent"; it is the bare set when one kind was
    requested.  With predictions every set is updated, and a kind that is
    none of the three makes the call raise [AttributeError]. *)
Theorem output_sets_follow_the_request (versions : list string)
        (t r z y : D) :
  NoDup versions ->
  Outputs.output_sets D updatePredictions false versions t r z y
  = inr (Outputs.unwrap (map (Outputs.output_of D t r z y) versions))
  /\ (forallb Outputs.known versions = true ->
      Outputs.output_sets D updatePredictions true versions t r z y
      = inr (Outputs.unwrap
               (map (Outputs.output_of D (updatePredictions t)
                                       (updatePredictions r)
                                       (updatePredictions z)
                                       (updatePredictions y))
                    versions)))
  /\ (forallb Outputs.known versions = false ->
      Outputs.output_sets D updatePredictions true versions t r z y
      = inl (Outputs.AttributeError "updatePredictions")).
Proof.
  intros Hnodup. unfold Outputs.output_sets. cbv zeta.
  rewrite (placed_in_order versions t r z y Hnodup).
  split; [reflexivity|]. split; intros H.
  - now rewrite (update_all_known versions t r z y H).
  - now rewrite (update_all_unknown versions t r z y H).
Qed.

End OutputFacts.

(** ** The split of a data set *)




(** ** Instances *)

Lemma logDirectory_variants_witness :
  let m := Examples.constructed 0 1 in
  logDirectory Examples.normaliseString Examples.str_of_float
               Examples.checkRunID m None None false false
  = Return Examples.log_directory
  /\ logDirectory Examples.normaliseString Examples.str_of_float
                  Examples.checkRunID m None None true false
     = Return (path_join2 Examples.log_directory "early_stopping")
  /\ os_path_dirname (path_join2 Examples.log_directory "early_stopping")
     = Examples.log_directory.
Proof.
  intros m.
  destruct (logDirectory_variants
              Examples.normaliseString Examples.str_of_float
              Examples.checkRunID m None None Examples.log_directory
              eq_refl)
    as [Hearly [_ [_ Hparent]]].
  split; [reflexivity|]. split; [exact Hearly|].
  apply Hparent. reflexivity.
Defined.

Lemma names_differ_in_the_number_of_clusters_witness :
  let m := Scenarios.variant 3 0 in
  let m' := Scenarios.variant 13 0 in
  K m' <> K m
  /\ exists s s',
       name Examples.normaliseString Examples.str_of_float m = Return s
       /\ name Examples.normaliseString Examples.str_of_float m' = Return s'
       /\ s' <> s.
Proof.
  intros m m'.
  assert (HK : K m' <> K m) by discriminate.
  split; [exact HK|].
  apply (names_differ_in_the_number_of_clusters
           Examples.normaliseString Examples.str_of_float m m'
           eq_refl eq_refl eq_refl eq_refl eq_refl eq_refl eq_refl HK).
Defined.


Lemma model_graph_looks_up_a_missing_key_witness :
  let m := Scenarios.variant 3 0 in
  0 < K m
  /\ forall e,
       Graph.model_graph Scenarios.tensorflow e m
       = Raise (KeyError "modified gaussian").
Proof.
  intros m.
  assert (HK : 0 < K m) by (apply Nat.ltb_lt; reflexivity).
  split; [exact HK|]. intros e.
  apply (model_graph_looks_up_a_missing_key Scenarios.tensorflow e m HK);
    reflexivity.
Defined.

Lemma reconstruction_class_call_fits_witness :
  let e := {| Registry.parameters :=
                [Registry.within "p" 0 1 Registry.softmax None];
              Registry.class_arguments := 2 |} in
  In ("multinomial", e) Registry.distributions
  /\ Graph.reconstruction_class_call "multinomial" e = Return tt.
Proof.
  intros e.
  assert (Hin : In ("multinomial", e) Registry.distributions).
  { do 8 right. left. reflexivity. }
  split; [exact Hin|].
  apply (reconstruction_class_call_fits "multinomial" e Hin).
Defined.


Lemma initial_mask_labels_witness :
  let permutation := [2; 0; 3; 1] in
  NoDup permutation
  /\ Labels.initial_mask 4 permutation 2 = Return [1; 0; 1; 0]%Z
  /\ exists mask,
       Labels.initial_mask 4 permutation (-1) = Return mask
       /\ number_of_labeled mask = 3.
Proof.
  intros permutation.
  assert (Hnodup : NoDup permutation).
  { repeat constructor; cbn; intros H;
      repeat (destruct H as [H|H]; [discriminate H|]); exact H. }
  assert (Hin : forall i, In i permutation <-> i < 4).
  { intros i. cbn. split.
    - intros H. repeat (destruct H as [<-|H]; [lia|]). destruct H.
    - intros H. destruct i as [|[|[|[|i]]]]; [tauto|tauto|tauto|tauto|lia]. }
  split; [exact Hnodup|]. split; [reflexivity|].
  destruct (initial_mask_labels 4 permutation (-1) Hnodup Hin)
    as [mask [Hmask [_ [_ [_ Hcount]]]]].
  exists mask. split; [exact Hmask|exact Hcount].
Defined.

Lemma acquire_label_adds_one_witness :
  let entropies := [(1 # 2); (7 # 10); (3 # 10); (6 # 10)]%Q in
  let mask := [0; 1; 0; 0]%Z in
  binary_mask mask
  /\ Labels.acquire_label entropies mask = Return [0; 1; 0; 1]%Z
  /\ exists i mask',
       Labels.acquire_label entropies mask = Return mask'
       /\ nth i mask 0%Z = 0%Z
       /\ number_of_labeled mask' = S (number_of_labeled mask).
Proof.
  intros entropies mask.
  assert (Hbinary : binary_mask mask).
  { repeat apply binary_mask_cons; auto. apply binary_mask_nil. }
  split; [exact Hbinary|]. split; [reflexivity|].
  destruct (acquire_label_adds_one entropies mask eq_refl Hbinary)
    as [Hsome _].
  { intros j Hj.
    destruct j as [|[|[|[|j]]]]; [reflexivity|reflexivity|reflexivity
                               |reflexivity|cbn in Hj; lia]. }
  destruct Hsome as [i [mask' [Hacquire [Hzero [_ [_ [Hcount _]]]]]]].
  { apply Nat.ltb_lt. reflexivity. }
  exists i, mask'. auto.
Defined.

Lemma epoch_value_of_equal_batches_witness :
  0 < 100
  /\ exists v,
       Curves.epoch_value (fun _ => (-120)%Q) 250 100 = Return v
       /\ (v < -120)%Q.
Proof.
  assert (Hb : 0 < 100) by (apply Nat.ltb_lt; reflexivity).
  split; [exact Hb|].
  destruct (epoch_value_of_equal_batches (fun _ => (-120)%Q) 250 100 (-120)
              Hb (fun _ => Qeq_refl _))
    as [_ Hvalue].
  destruct Hvalue as [v [Hv [_ [_ [_ Hless]]]]].
  { apply Nat.ltb_lt. reflexivity. }
  exists v. split; [exact Hv|].
  apply Hless; [discriminate|reflexivity].
Defined.

Lemma output_sets_follow_the_request_witness :
  NoDup ["latent"; "transformed"]
  /\ Outputs.output_sets nat S false ["latent"; "transformed"] 1 2 3 4
     = inr (Outputs.Several [Some (Outputs.Latent 3 4);
                             Some (Outputs.Plain 1)])
  /\ Outputs.output_sets nat S true ["latent"; "clusters"] 1 2 3 4
     = inl (Outputs.AttributeError "updatePredictions").
Proof.
  assert (H : forall x y : string, x <> y -> NoDup [x; y]).
  { intros x y Hxy. repeat constructor; cbn; intuition congruence. }
  assert (H1 : NoDup ["latent"; "transformed"])
    by (apply (H "latent" "transformed"); discriminate).
  assert (H2 : NoDup ["latent"; "clusters"])
    by (apply (H "latent" "clusters"); discriminate).
  split; [exact H1|].
  destruct (output_sets_follow_the_request
              nat S ["latent"; "transformed"] 1 2 3 4 H1)
    as [Hplain _].
  destruct (output_sets_follow_the_request
              nat S ["latent"; "clusters"] 1 2 3 4 H2)
    as [_ [_ Hunknown]].
  split; [exact Hplain|]. apply Hunknown. reflexivity.
Defined.


Lemma train_runs_every_epoch_witness :
  let self := Examples.constructed 0 1 in
  let a := Scenarios.train_arguments 24 true 2 None in
  let obs := Scenarios.nan_at 0 4 in
  isnan (Train.batch_loss obs 0 4) = true
  /\ exists s st,
       Examples.train self a obs Examples.no_files = (Return (s, None), st)
       /\ Train.completed s = true
       /\ Train.optimizer_steps st = 12.
Proof.
  intros self a obs. split; [reflexivity|].
  edestruct (fun p st1 =>
             train_runs_every_epoch
               Examples.normaliseString Examples.str_of_float
               Examples.checkRunID Examples.generateUniqueRunIDForModel
               Examples.clearLogDirectory Examples.copyModelDirectory
               Examples.removeOldCheckpoints
               Examples.earlyStoppingStatus_of_losses
               Examples.formatDuration Examples.formatTime
               Examples.output_at_step self a obs Examples.no_files p st1)
    as [s [st [Hrun [Hcompleted [_ [_ [_ [Hsteps _]]]]]]]].
  - lazy. reflexivity.
  - repeat split; try discriminate.
  - apply Nat.leb_le. reflexivity.
  - intros epoch j [_ Hepoch] Hj.
    change (Train.number_of_epochs a) with 1 in Hepoch.
    change (Train.steps_per_epoch (Train.M_train a) (Train.batch_size a))
      with 12 in Hj.
    destruct epoch as [|epoch]; [|lia].
    do 12 (destruct j as [|j]; [reflexivity|]). lia.
  - exists s, st. repeat split; [exact Hrun|exact Hcompleted|exact Hsteps].
Defined.

Lemma best_model_reference_is_running_maximum_witness :
  let self := Examples.constructed 0 1 in
  let a := Examples.train_arguments 13 true in
  let obs := Examples.observations None Examples.degrading in
  Train.has_validation_set a = true
  /\ exists s st,
       Examples.train self a obs Examples.no_files = (Return (s, None), st)
       /\ List.length (Train.history st) = 13.
Proof.
  intros self a obs. split; [reflexivity|].
  edestruct (fun p st1 =>
             best_model_reference_is_running_maximum
               Examples.normaliseString Examples.str_of_float
               Examples.checkRunID Examples.generateUniqueRunIDForModel
               Examples.clearLogDirectory Examples.copyModelDirectory
               Examples.removeOldCheckpoints
               Examples.earlyStoppingStatus_of_losses
               Examples.formatDuration Examples.formatTime
               Examples.output_at_step self a obs Examples.no_files p st1)
    as [s [st [Hrun [Hlength _]]]].
  - lazy. reflexivity.
  - repeat split; try discriminate.
    intros v H. injection H as <-. discriminate.
  - reflexivity.
  - apply Nat.leb_le. reflexivity.
  - intros epoch j _ _. unfold Train.nan_observed. apply andb_false_r.
  - exists s, st. split; [exact Hrun|exact Hlength].
Defined.

Lemma epochs_with_no_improvement_is_bounded_witness :
  let self := Examples.constructed 0 1 in
  let a := Examples.train_arguments 13 true in
  let obs := Examples.observations None Examples.degrading in
  0 < early_stopping_rounds self
  /\ exists s st,
       Examples.train self a obs Examples.no_files = (Return (s, None), st)
       /\ List.length (Train.history st) = 13.
Proof.
  intros self a obs.
  assert (Hrounds : 0 < early_stopping_rounds self)
    by (apply Nat.ltb_lt; reflexivity).
  split; [exact Hrounds|].
  edestruct (fun p st1 =>
             epochs_with_no_improvement_is_bounded
               Examples.normaliseString Examples.str_of_float
               Examples.checkRunID Examples.generateUniqueRunIDForModel
               Examples.clearLogDirectory Examples.copyModelDirectory
               Examples.removeOldCheckpoints
               Examples.earlyStoppingStatus_of_losses
               Examples.formatDuration Examples.formatTime
               Examples.output_at_step self a obs Examples.no_files p st1)
    as [s [st [Hrun [Hlength _]]]].
  - lazy. reflexivity.
  - repeat split; try discriminate.
    intros v H. injection H as <-. discriminate.
  - apply Nat.leb_le. reflexivity.
  - intros epoch j _ _. unfold Train.nan_observed. apply andb_false_r.
  - exists 0. split; [reflexivity|exact Hrounds].
  - exists s, st. split; [exact Hrun|exact Hlength].
Defined.





Lemma choose_directories_later_checkpoint_witness :
  let self := Examples.constructed 0 1 in
  let a := Scenarios.train_arguments 4 true 2 (Some "tmp") in
  let temporary :=
    "tmp/GMVAE/gaussian mixture-c_3/bernoulli-sum-l_2-h_16-mc_1-iw_1-bn" in
  let st :=
    Train.initial_state
      self
      (save_checkpoint temporary
                       {| checkpoint_epoch := 5; checkpoint_global_step := 10 |}
                       Examples.no_files) in
  Train.truthy (Train.temporary_log_directory a) = true
  /\ exists d,
       Train.choose_directories Examples.normaliseString Examples.str_of_float
                                Examples.checkRunID self a None 3 st
       = (Train.Continue d, st)
       /\ Train.directories_epoch_start d = 5
       /\ Train.replace_temporary_directory d = false.
Proof.
  intros self a temporary st. split; [reflexivity|].
  edestruct (fun st' d =>
             choose_directories_later_checkpoint
               Examples.normaliseString Examples.str_of_float
               Examples.checkRunID self a None 3 st st' d)
    as [Hstate [Htemporary _]].
  - lazy. reflexivity.
  - destruct (Htemporary eq_refl) as [Hstart Hreplace].
    eexists. split; [lazy; reflexivity|]. split; [exact Hstart|exact Hreplace].
Defined.

Lemma ELBO_weighted_without_weights_witness :
  let h := Rational.example_hyper 0 in
  let f :=
    {| Loss.q_y_given_x_entropy := [(1 # 2); (1 # 4)]%Q;
       Loss.q_y_given_x_probs := [[(3 # 4); (1 # 4)]; [(1 # 2); (1 # 2)]]%Q;
       Loss.kl_divergence_q_y_p_y := [(1 # 2); (3 # 4)]%Q;
       Loss.p_y_entropy_value := 1%Q;
       Loss.log_q_z_given_x_y := [[[[-1; -2]]]; [[[-3; -1]]]]%Q;
       Loss.log_p_z_given_y := [[[[-2; -2]]]; [[[-4; -3]]]]%Q;
       Loss.log_p_x_given_z := [[[[-10; -12]]]; [[[-9; -14]]]]%Q;
       Loss.q_y_logits := [[[1; 0]; [0; 0]]]%Q;
       Loss.labels := [[1; 0]; [0; 1]]%Z;
       Loss.clf_mask := [0; 0]%Z;
       Loss.clf_weight := 1%Q;
       Loss.warm_up_weight := 1%Q |} in
  py_truthy (Loss.proportion_of_free_KL_nats h) = false
  /\ (Loss.total_loss (Rational.loss h f) == Loss.ELBO (Rational.loss h f))%Q.
Proof.
  intros h f. split; [reflexivity|].
  destruct (ELBO_weighted_without_weights
              Rational.reduce_mean_01 Rational.reduce_mean_0
              Rational.compute_weighted_loss Rational.cross_entropy_stand_in
              Rational.log_stand_in h f eq_refl eq_refl)
    as [_ Htotal].
  apply Htotal; [|reflexivity].
  repeat apply binary_mask_cons; auto. apply binary_mask_nil.
Defined.


Lemma first_warm_up_epoch_drops_the_divergences_witness :
  let self := Scenarios.variant 2 200 in
  let f := Rational.example_feed [0; 0]%Z 1%Q in
  let f0 :=
    {| Loss.q_y_given_x_entropy := Loss.q_y_given_x_entropy f;
       Loss.q_y_given_x_probs := Loss.q_y_given_x_probs f;
       Loss.kl_divergence_q_y_p_y := Loss.kl_divergence_q_y_p_y f;
       Loss.p_y_entropy_value := Loss.p_y_entropy_value f;
       Loss.log_q_z_given_x_y := Loss.log_q_z_given_x_y f;
       Loss.log_p_z_given_y := Loss.log_p_z_given_y f;
       Loss.log_p_x_given_z := Loss.log_p_x_given_z f;
       Loss.q_y_logits := Loss.q_y_logits f;
       Loss.labels := Loss.labels f;
       Loss.clf_mask := Loss.clf_mask f;
       Loss.clf_weight := Loss.clf_weight f;
       Loss.warm_up_weight := Train.warm_up_weight self 0 |} in
  number_of_warm_up_epochs self <> 0
  /\ (Loss.ELBO_weighted (Rational.loss (hyper_of self) f0)
      == Loss.ENRE (Rational.loss (hyper_of self) f0))%Q.
Proof.
  intros self f f0.
  assert (Hwarm : number_of_warm_up_epochs self <> 0) by discriminate.
  split; [exact Hwarm|].
  apply (first_warm_up_epoch_drops_the_divergences
           Rational.reduce_mean_01 Rational.reduce_mean_0
           Rational.compute_weighted_loss Rational.cross_entropy_stand_in
           Rational.log_stand_in self f0 Hwarm eq_refl).
Defined.

